(** * DiscordBotTools: session lifecycle, DM purge and invite engine

    A shallow embedding of the three command-line scripts
    [Delete_Bot_DMs_With_User.py], [List_Guild_Invites.py] and
    [List_Guilds.py], followed by the properties their specification
    states about them.

    The Discord client library is a black box: every object the scripts
    receive from it is a record of the attributes the code reads and of
    what each awaited call on it does (returns a value or raises).  What
    the scripts do to the outside world (prompts, prints, API calls that
    mutate, opening and closing the client) is recorded in a trace. *)

From Stdlib Require Import ZArith List String Ascii Bool Lia PeanoNat.
From Stdlib Require Import Permutation Sorted OrderedTypeEx.
From Stdlib Require Import PrimFloat DecimalString.
Import ListNotations.

Local Open Scope string_scope.
Local Open Scope list_scope.
Local Open Scope Z_scope.

(* ================================================================== *)
(** * Part I: the embedding *)
(* ================================================================== *)

(** ** Python values shared by the three scripts *)

Module Py.

(** The exception classes the scripts name, and one constructor for every
    other subclass of [Exception].  [NotFound] and [Forbidden] are
    subclasses of [HTTPException] in [discord.errors]. *)
Inductive exn : Type :=
| NotFound
| Forbidden
| HTTPException (text : string)
| LoginFailure
| OverflowError
| InvalidStateError
| OtherException (name : string).

Definition is_NotFound (e : exn) : bool :=
  match e with NotFound => true | _ => false end.

Definition is_Forbidden (e : exn) : bool :=
  match e with Forbidden => true | _ => false end.

Definition is_HTTPException (e : exn) : bool :=
  match e with
  | NotFound | Forbidden | HTTPException _ => true
  | _ => false
  end.

Definition is_LoginFailure (e : exn) : bool :=
  match e with LoginFailure => true | _ => false end.

(** What a call does: it returns or it raises. *)
Inductive result (A : Type) : Type :=
| Returns (a : A)
| Raises (e : exn).
Arguments Returns {A} a.
Arguments Raises {A} e.

(** Truth value of an optional [str] / [int] / [bool], as [if x:] sees it. *)
Definition truthy_str (s : option string) : bool :=
  match s with
  | Some (String _ _) => true
  | _ => false
  end.

Definition truthy_int (n : option Z) : bool :=
  match n with
  | Some z => negb (z =? 0)
  | None => false
  end.

Definition truthy_bool (b : option bool) : bool :=
  match b with
  | Some true => true
  | _ => false
  end.

(** [x or ""] on an optional string. *)
Definition or_empty (s : option string) : string :=
  match s with
  | Some (String a r) => String a r
  | _ => ""
  end.

(** State threaded through code that can raise: the state written before
    a [raise] is kept, as the mutations of a Python [try] body are. *)
Definition M (S A : Type) : Type := S -> result A * S.

Definition ret {S A} (a : A) : M S A := fun s => (Returns a, s).

Definition raise {S A} (e : exn) : M S A := fun s => (Raises e, s).

Definition bind {S A B} (m : M S A) (k : A -> M S B) : M S B :=
  fun s =>
    match m s with
    | (Returns a, s') => k a s'
    | (Raises e, s') => (Raises e, s')
    end.

(** [try: m  except Exception as exc: h exc]. *)
Definition try_except {S A} (m : M S A) (h : exn -> M S A) : M S A :=
  fun s =>
    match m s with
    | (Returns a, s') => (Returns a, s')
    | (Raises e, s') => h e s'
    end.

(** An awaited library call whose behaviour is given by the object. *)
Definition await {S A} (r : result A) : M S A := fun s => (r, s).

Definition modify {S} (f : S -> S) : M S unit := fun s => (Returns tt, f s).

Definition get {S} : M S S := fun s => (Returns s, s).

(** What becomes of a coroutine at an [await] on a timer: it is resumed,
    or it stays suspended for ever. *)
Inductive wake : Type :=
| Resumed
| Suspended.

End Py.

Import Py.

Declare Scope py_scope.
Delimit Scope py_scope with py.
Notation "x <- m ;; k" := (bind m (fun x => k))
  (at level 61, m at next level, right associativity) : py_scope.
Notation "m ;; k" := (bind m (fun _ => k))
  (at level 61, right associativity) : py_scope.
Local Open Scope py_scope.

(** ** [datetime] arithmetic

    An aware [datetime] is the number of microseconds since
    0001-01-01T00:00:00; the largest one is 9999-12-31T23:59:59.999999
    (day 3652059 of the proleptic calendar).  Both [timedelta(seconds=n)]
    and [datetime + timedelta] raise [OverflowError] out of range. *)

Module Datetime.

Definition datetime : Type := Z.

Definition datetime_max : Z := 3652059 * 86400 * 1000000 - 1.

Definition timedelta_max_days : Z := 999999999.

(** [timedelta(seconds=n)], in microseconds. *)
Definition timedelta_seconds (n : Z) : result Z :=
  if Z.abs (n / 86400) <=? timedelta_max_days
  then Returns (n * 1000000)
  else Raises OverflowError.

(** [d + td]. *)
Definition add (d : datetime) (td : Z) : result datetime :=
  let r := d + td in
  if (0 <=? r) && (r <=? datetime_max) then Returns r else Raises OverflowError.

End Datetime.

(** ** The objects handed out by the client library *)

Module Discord.

(** *** Direct messages *)

(** A message of a channel history; [msg_delete] is what
    [await message.delete()] does. *)
Record message : Type := {
  msg_id : Z;
  msg_author_id : Z;
  msg_delete : result unit
}.

(** How the asynchronous iterator [dm_channel.history(...)] ends: it is
    exhausted, or fetching a further page raises. *)
Inductive stream_end : Type :=
| Exhausted
| Broken (e : exn).

(** What [user.create_dm()] returns; [chan_is_DMChannel] is
    [isinstance(dm_channel, discord.DMChannel)]. *)
Record dm_channel : Type := {
  chan_id : Z;
  chan_is_DMChannel : bool;
  chan_history : list message;
  chan_history_end : stream_end
}.

Record user : Type := {
  user_id : Z;
  user_create_dm : result dm_channel
}.

(** *** Invites *)

(** [inv.channel] and [inv.inviter]: objects that may lack [id] or
    [name] ([getattr(x, "id", None)]). *)
Record named : Type := {
  obj_id : option Z;
  obj_name : option string
}.

Record invite : Type := {
  inv_code : string;
  inv_url : string;
  inv_channel : option named;
  inv_inviter : option named;
  inv_uses : option Z;
  inv_max_uses : option Z;
  inv_temporary : option bool;
  inv_revoked : option bool;
  inv_max_age : option Z;
  inv_created_at : option Datetime.datetime
}.

(** Keyword arguments of [channel.create_invite]. *)
Record create_args : Type := {
  arg_max_age : Z;
  arg_max_uses : Z;
  arg_temporary : bool;
  arg_unique : bool;
  arg_reason : option string
}.

(** A guild channel.  [ch_create_invite] is [None] when the object has
    no [create_invite] attribute ([hasattr(ch, "create_invite")] is
    false), otherwise what awaiting the call does. *)
Record channel : Type := {
  ch_id : Z;
  ch_position : Z;
  ch_create_invite : option (create_args -> result invite)
}.

Record guild : Type := {
  guild_get_channel : Z -> option channel;
  guild_fetch_channel : Z -> result channel;
  guild_system_channel : option channel;
  guild_text_channels : list channel;
  guild_channels : list channel;
  guild_invites : result (list invite)
}.

(** *** Guild enumeration *)

Record cached_guild : Type := {
  cg_id : Z;
  cg_name : option string;
  cg_owner_id : option Z;
  cg_member_count : option Z
}.

(** *** The client *)

(** What [await client.start(token)] does.  Either it raises before the
    ready notification ([LoginFailure] for a rejected token), or the
    ready notification is dispatched once and the connection loop then
    runs until the client is closed, ending as [after_close] says. *)
Inductive gateway : Type :=
| StartRaises (e : exn)
| StartReady (after_close : result unit).

Record client : Type := {
  client_user_id : Z;
  client_start : string -> gateway;
  client_fetch_user : Z -> result user;
  client_get_guild : Z -> option guild;
  client_fetch_guild : Z -> result guild;
  client_guilds : list cached_guild
}.

End Discord.

Import Discord.

(** ** Observable effects *)

(** Lines written to standard output. *)
Inductive notice : Type :=
| LoggedIn (self_id : Z)
| DMChannelFound (channel_id : Z)
| PurgeSummary (deleted failed : Z)
| Report.

(** Lines written to standard error. *)
Inductive diagnostic : Type :=
| NoBotToken
| NoUserId
| InvalidUserId
| NoGuildId
| DigitsOnly
| InvalidBotToken
| UserNotFound
| FetchUserHTTPError (exc : exn)
| CreateDMFailed (exc : exn)
| UnexpectedChannelType
| ForbiddenDelete (message_id : Z)
| HTTPErrorDelete (message_id : Z) (exc : exn)
| GuildUnavailable
| FetchInvitesHTTPError (exc : exn)
| NoInviteChannel
| ForbiddenCreateInvite
| CreateInviteHTTPError (exc : exn).

Inductive event : Type :=
| Getpass
| Input (prompt : string)
| Stdout (n : notice)
| Stderr (d : diagnostic)
| ClientStart (token : string)
| ClientClose
| MessageDelete (m : message)
| Sleep (seconds : float)
| InvitesFetch
| InviteCreate (ch : channel) (a : create_args).

Definition is_ClientClose (e : event) : bool :=
  match e with ClientClose => true | _ => false end.

Definition is_ClientStart (e : event) : bool :=
  match e with ClientStart _ => true | _ => false end.

Definition is_MessageDelete (e : event) : bool :=
  match e with MessageDelete _ => true | _ => false end.

Definition is_InviteCreate (e : event) : bool :=
  match e with InviteCreate _ _ => true | _ => false end.

Definition is_InvitesFetch (e : event) : bool :=
  match e with InvitesFetch => true | _ => false end.

Definition is_Stderr (e : event) : bool :=
  match e with Stderr _ => true | _ => false end.

(** Number of [client.close()] calls recorded in a trace. *)
Definition close_count (t : list event) : nat :=
  List.length (filter is_ClientClose t).

(** ** The completion signal and the state of a handler *)

(** [done = loop.create_future()]. *)
Inductive future : Type :=
| Pending
| Resolved (value : bool)
| Failed (exc : exn).

(** The closure an [on_ready] handler works on: the script's result
    dictionary ([stats], [results] or [data]), the future [done], and the
    trace of effects so far, oldest first. *)
Record world (R : Type) : Type := mkWorld {
  store : R;
  done : future;
  trace : list event
}.
Arguments mkWorld {R} store done trace.
Arguments store {R} w.
Arguments done {R} w.
Arguments trace {R} w.

Definition emit {R} (e : event) : M (world R) unit :=
  modify (fun w => mkWorld (store w) (done w) (trace w ++ [e])).

Definition update {R} (f : R -> R) : M (world R) unit :=
  modify (fun w => mkWorld (f (store w)) (done w) (trace w)).

(** [done.set_result(v)] and [done.set_exception(exc)]: a future that is
    no longer pending raises [InvalidStateError]. *)
Definition set_result {R} (v : bool) : M (world R) unit :=
  fun w =>
    match done w with
    | Pending => (Returns tt, mkWorld (store w) (Resolved v) (trace w))
    | _ => (Raises InvalidStateError, w)
    end.

Definition set_exception {R} (exc : exn) : M (world R) unit :=
  fun w =>
    match done w with
    | Pending => (Returns tt, mkWorld (store w) (Failed exc) (trace w))
    | _ => (Raises InvalidStateError, w)
    end.

(** [await asyncio.sleep(delay)] with [delay > 0], the only way the
    scripts call it: the loop's timer resumes the coroutine once [delay]
    seconds have passed, which for [delay = inf] is never. *)
Definition asyncio_sleep {R} (delay : float) : M (world R) wake :=
  emit (Sleep delay) ;;
  ret (if PrimFloat.eqb delay PrimFloat.infinity then Suspended else Resumed).

(** ** The session lifecycle shared by the three [main] coroutines

    [[
    task = asyncio.create_task(run())
    await asyncio.wait({done}, return_when=asyncio.ALL_COMPLETED)
    await client.close()
    try:
        await task
    except Exception:
        pass
    if not done.result():
        return 1
    ...
    return 0
    ]]

    Three coroutines share the event loop: [main], the task [run] that
    awaits [client.start(token)], and the [on_ready] handler the client
    dispatches.  One step of the loop advances [main] when it can run and
    otherwise one of the other two; when nothing can run the loop idles
    and there is no step. *)

Module Lifecycle.

(** How [main] ends: [return code], or an exception leaves it. *)
Inductive outcome : Type :=
| Exit (code : Z)
| Uncaught (e : exn).

(** Where [main] stands. *)
Inductive main_pc : Type :=
| AtCreateTask
| AtWaitDone
| AtClose
| AtAwaitTask
| AtDoneResult
| Finished (o : outcome).

(** The task created from [run()]. *)
Inductive run_state : Type :=
| NotCreated
| Scheduled
| Connected (after_close : result unit)
| RunEnded (r : result Z).

Record proc (R : Type) : Type := mkProc {
  pc : main_pc;
  run_task : run_state;
  ready_fired : bool;
  closed : bool;
  state : world R
}.
Arguments mkProc {R} pc run_task ready_fired closed state.
Arguments pc {R} p.
Arguments run_task {R} p.
Arguments ready_fired {R} p.
Arguments closed {R} p.
Arguments state {R} p.

Section Orchestrator.

Variable R : Type.
(** The handler registered with [@client.event]. *)
Variable on_ready : M (world R) unit.
(** Whether [main] has the lines [if not done.result(): return 1]. *)
Variable checks_result : bool.
(** What [main] prints between the teardown and [return 0]. *)
Variable epilogue : R -> list event.
Variable cl : client.
Variable token : string.

Definition log (e : list event) (w : world R) : world R :=
  mkWorld (store w) (done w) (trace w ++ e).

(** The body of [run()] around what [client.start] did:
    [[
    try:
        await client.start(token)
    except discord.LoginFailure:
        print("Error: Invalid bot token.", file=sys.stderr)
        return 3
    return 0
    ]] *)
Definition run_returns (started : result unit) (w : world R)
  : result Z * world R :=
  match started with
  | Returns _ => (Returns 0, w)
  | Raises e =>
      if is_LoginFailure e
      then (Returns 3, log [Stderr InvalidBotToken] w)
      else (Raises e, w)
  end.

(** A step of the coroutines other than [main]. *)
Definition background (p : proc R) : option (proc R) :=
  match run_task p with
  | NotCreated => None
  | Scheduled =>
      let w := log [ClientStart token] (state p) in
      match client_start cl token with
      | StartRaises e =>
          let '(r, w') := run_returns (Raises e) w in
          Some (mkProc (pc p) (RunEnded r) (ready_fired p) (closed p) w')
      | StartReady after_close =>
          Some (mkProc (pc p) (Connected after_close) (ready_fired p)
                       (closed p) w)
      end
  | Connected after_close =>
      if closed p then
        (* the connection loop ends and [client.start] with it *)
        let '(r, w') := run_returns after_close (state p) in
        Some (mkProc (pc p) (RunEnded r) (ready_fired p) (closed p) w')
      else if ready_fired p then None
      else
        (* the ready notification: the handler runs; what it raises is
           logged by the client and goes nowhere *)
        let '(_, w') := on_ready (state p) in
        Some (mkProc (pc p) (Connected after_close) true (closed p) w')
  | RunEnded _ => None
  end.

Definition step (p : proc R) : option (proc R) :=
  match pc p with
  | AtCreateTask =>
      Some (mkProc AtWaitDone Scheduled (ready_fired p) (closed p) (state p))
  | AtWaitDone =>
      match done (state p) with
      | Pending => background p
      | _ => Some (mkProc AtClose (run_task p) (ready_fired p) (closed p)
                          (state p))
      end
  | AtClose =>
      Some (mkProc AtAwaitTask (run_task p) (ready_fired p) true
                   (log [ClientClose] (state p)))
  | AtAwaitTask =>
      match run_task p with
      | RunEnded _ =>
          (* the task's return value is dropped, its exception swallowed *)
          Some (mkProc AtDoneResult (run_task p) (ready_fired p) (closed p)
                       (state p))
      | _ => background p
      end
  | AtDoneResult =>
      let finish o w :=
        Some (mkProc (Finished o) (run_task p) (ready_fired p) (closed p) w) in
      let success :=
        finish (Exit 0) (log (epilogue (store (state p))) (state p)) in
      if checks_result then
        match done (state p) with
        | Resolved true => success
        | Resolved false => finish (Exit 1) (state p)
        | Failed e => finish (Uncaught e) (state p)
        | Pending => finish (Uncaught InvalidStateError) (state p)
        end
      else success
  | Finished _ => None
  end.

Fixpoint exec (fuel : nat) (p : proc R) : proc R :=
  match fuel with
  | O => p
  | S n =>
      match step p with
      | Some p' => exec n p'
      | None => p
      end
  end.

Definition start (w : world R) : proc R :=
  mkProc AtCreateTask NotCreated false false w.

(** What [main] has returned, if it has. *)
Definition returned (p : proc R) : option outcome :=
  match pc p with
  | Finished o => Some o
  | _ => None
  end.

End Orchestrator.

Arguments run_returns {R} started w.
Arguments background {R} on_ready cl token p.
Arguments step {R} on_ready checks_result epilogue cl token p.
Arguments exec {R} on_ready checks_result epilogue cl token fuel p.
Arguments start {R} w.
Arguments returned {R} p.
Arguments log {R} e w.

End Lifecycle.

(** ** Command line and terminal *)

Module Cli.

(** What a read from the terminal gives: a line, end of input
    ([EOFError]) or an interrupt ([KeyboardInterrupt]). *)
Inductive answer : Type :=
| Typed (s : string)
| EndOfInput
| Interrupt.

(** The terminal: what [getpass.getpass] yields, and the successive
    results of [input]; when the list is used up the input has ended. *)
Record console : Type := {
  secret : answer;
  lines : list answer
}.

(** The token, or the exit code [main] returns without one:
    [[
    token = args.token
    if not token:
        try:
            token = getpass.getpass("Bot token: ")
        except (EOFError, KeyboardInterrupt):
            print("Error: No bot token provided.", file=sys.stderr)
            return 2
    if not token:
        print("Error: No bot token provided.", file=sys.stderr)
        return 2
    ]] *)
Definition read_token (flag : option string) (con : console)
  : (string + Z) * list event :=
  if truthy_str flag then (inl (or_empty flag), [])
  else
    match secret con with
    | Typed tok =>
        if truthy_str (Some tok) then (inl tok, [Getpass])
        else (inr 2, [Getpass; Stderr NoBotToken])
    | EndOfInput | Interrupt => (inr 2, [Getpass; Stderr NoBotToken])
    end.

Section Prompts.

(** [str.strip] and [int(str)] ([None] for [ValueError]). *)
Variable strip : string -> string.
Variable parse_int : string -> option Z.

(** The loop of [Delete_Bot_DMs_With_User.main] that asks for the user:
    [[
    while user_id is None:
        try:
            raw = input("Target user ID: ").strip()
        except (EOFError, KeyboardInterrupt):
            print("Error: No user ID provided.", file=sys.stderr)
            return 2
        if not raw:
            continue
        try:
            user_id = int(raw)
        except ValueError:
            print("Invalid user ID, please enter digits only.", ...)
            continue
    ]] *)
Fixpoint ask_user_id (inputs : list answer) : (Z + Z) * list event :=
  let ask := Input "Target user ID: " in
  match inputs with
  | Typed line :: rest =>
      let raw := strip line in
      if negb (truthy_str (Some raw)) then
        let '(r, t) := ask_user_id rest in (r, ask :: t)
      else
        match parse_int raw with
        | Some n => (inl n, [ask])
        | None =>
            let '(r, t) := ask_user_id rest in
            (r, ask :: Stderr InvalidUserId :: t)
        end
  | _ => (inr 2, [ask; Stderr NoUserId])
  end.

(** [prompt_for_int] of [List_Guild_Invites.py]. *)
Fixpoint prompt_for_int (prompt_text : string) (inputs : list answer)
  : option Z * list event :=
  let ask := Input prompt_text in
  match inputs with
  | Typed line :: rest =>
      let raw := strip line in
      if negb (truthy_str (Some raw)) then
        let '(r, t) := prompt_for_int prompt_text rest in (r, ask :: t)
      else
        match parse_int raw with
        | Some n => (Some n, [ask])
        | None =>
            let '(r, t) := prompt_for_int prompt_text rest in
            (r, ask :: Stderr DigitsOnly :: t)
        end
  | _ => (None, [ask])
  end.

End Prompts.

End Cli.

(** ** [Delete_Bot_DMs_With_User.py] *)

Module Purge.

Record args : Type := {
  arg_token : option string;
  arg_user_id : option Z;
  arg_sleep : float
}.

(** [stats = {"deleted": 0, "failed": 0}]. *)
Record stats : Type := mkStats {
  deleted : Z;
  failed : Z
}.

Definition no_stats : stats := mkStats 0 0.

Definition count_deleted (s : stats) : stats :=
  mkStats (deleted s + 1) (failed s).

Definition count_failed (s : stats) : stats :=
  mkStats (deleted s) (failed s + 1).

Section Handler.

Variable cl : client.
Variable user_id : Z.
Variable sleep : float.

(** One turn of the [async for] loop:
    [[
    if message.author.id != client.user.id:
        continue
    try:
        await message.delete()
        stats["deleted"] += 1
        if args.sleep > 0:
            await asyncio.sleep(args.sleep)
    except Forbidden:
        stats["failed"] += 1
        print(f"Forbidden: could not delete message {message.id}", ...)
    except HTTPException as exc:
        stats["failed"] += 1
        print(f"HTTP error deleting message {message.id}: {exc}", ...)
    ]]
    The value says whether the handler gets to the next turn: it does
    not when it is left suspended in [asyncio.sleep]. *)
Definition purge_message (m : message) : M (world stats) wake :=
  if negb (msg_author_id m =? client_user_id cl) then ret Resumed
  else
    try_except
      (emit (MessageDelete m) ;;
       await (msg_delete m) ;;
       update count_deleted ;;
       if PrimFloat.ltb 0%float sleep then asyncio_sleep sleep
       else ret Resumed)
      (fun exc =>
         if is_Forbidden exc then
           update count_failed ;;
           emit (Stderr (ForbiddenDelete (msg_id m))) ;;
           ret Resumed
         else if is_HTTPException exc then
           update count_failed ;;
           emit (Stderr (HTTPErrorDelete (msg_id m) exc)) ;;
           ret Resumed
         else raise exc).

(** [async for message in dm_channel.history(limit=None, oldest_first=True)]. *)
Fixpoint purge_history (h : list message) (fin : stream_end)
  : M (world stats) wake :=
  match h with
  | [] =>
      match fin with
      | Exhausted => ret Resumed
      | Broken e => raise e
      end
  | m :: rest =>
      woke <- purge_message m ;;
      match woke with
      | Resumed => purge_history rest fin
      | Suspended => ret Suspended
      end
  end.

(** The [try] body of [on_ready]. *)
Definition on_ready_body : M (world stats) wake :=
  match client_fetch_user cl user_id with
  | Raises exc =>
      if is_NotFound exc then
        emit (Stderr UserNotFound) ;; set_result false ;; ret Resumed
      else if is_HTTPException exc then
        emit (Stderr (FetchUserHTTPError exc)) ;; set_result false ;;
        ret Resumed
      else raise exc
  | Returns user =>
      match user_create_dm user with
      | Raises exc =>
          if is_HTTPException exc then
            emit (Stderr (CreateDMFailed exc)) ;; set_result false ;;
            ret Resumed
          else raise exc
      | Returns dm =>
          if negb (chan_is_DMChannel dm) then
            emit (Stderr UnexpectedChannelType) ;; set_result false ;;
            ret Resumed
          else
            emit (Stdout (DMChannelFound (chan_id dm))) ;;
            woke <- purge_history (chan_history dm) (chan_history_end dm) ;;
            match woke with
            | Resumed => set_result true ;; ret Resumed
            | Suspended => ret Suspended
            end
      end
  end.

(** [[
    print(f"Logged in as {client.user} (id: {client.user.id})")
    try:
        ...
    except Exception as exc:
        done.set_exception(exc)
    ]]
    A handler left suspended in [asyncio.sleep] has not touched [done];
    the client that dispatched it goes on either way. *)
Definition on_ready : M (world stats) unit :=
  emit (Stdout (LoggedIn (client_user_id cl))) ;;
  try_except on_ready_body (fun exc => set_exception exc ;; ret Resumed) ;;
  ret tt.

End Handler.

(** What [main] prints before [return 0]. *)
Definition summary (s : stats) : list event :=
  [Stdout (PurgeSummary (deleted s) (failed s))].

Section Main.

Variable strip : string -> string.
Variable parse_int : string -> option Z.

(** [main], run for at most [fuel] steps of the event loop.  The result
    is what [main] returned ([None] while it is still suspended), the
    values of [stats] and [done], and the trace. *)
Definition main (a : args) (con : Cli.console) (cl : client) (fuel : nat)
  : option Lifecycle.outcome * world stats :=
  match Cli.read_token (arg_token a) con with
  | (inr code, t) => (Some (Lifecycle.Exit code), mkWorld no_stats Pending t)
  | (inl token, t) =>
      let asked :=
        match arg_user_id a with
        | Some n => (inl n, [])
        | None => Cli.ask_user_id strip parse_int (Cli.lines con)
        end in
      match asked with
      | (inr code, t') =>
          (Some (Lifecycle.Exit code), mkWorld no_stats Pending (t ++ t'))
      | (inl uid, t') =>
          let p :=
            Lifecycle.exec (on_ready cl uid (arg_sleep a)) true summary
              cl token fuel
              (Lifecycle.start (mkWorld no_stats Pending (t ++ t'))) in
          (Lifecycle.returned p, Lifecycle.state p)
      end
  end.

End Main.

End Purge.

(** ** [sorted] and [list.sort] with a key

    Python's sort is stable and compares keys with [<] only. *)

Module PySort.

Section ByKey.

Variables A K : Type.
Variable key : A -> K.
Variable lt : K -> K -> bool.

(** [x] came before every element of [l] in the input, so it goes in
    front of the first element whose key is not smaller than its own. *)
Fixpoint insert (x : A) (l : list A) : list A :=
  match l with
  | [] => [x]
  | y :: r => if lt (key y) (key x) then y :: insert x r else x :: y :: r
  end.

Definition sorted (l : list A) : list A := fold_right insert [] l.

End ByKey.

Arguments insert {A K} key lt x l.
Arguments sorted {A K} key lt l.

(** [<] on tuples [(a, b)]: the first components decide unless equal. *)
Definition lt_int_pair (x y : Z * Z) : bool :=
  (fst x <? fst y) || ((fst x =? fst y) && (snd x <? snd y)).

Definition lt_str_pair (x y : string * string) : bool :=
  String.ltb (fst x) (fst y)
  || (String.eqb (fst x) (fst y) && String.ltb (snd x) (snd y)).

End PySort.

(** ** [List_Guild_Invites.py] *)

Module Invites.

Record args : Type := {
  arg_token : option string;
  arg_guild_id : option Z;
  arg_include_revoked : bool;
  arg_create : bool;
  arg_only_if_none : bool;
  arg_channel_id : option Z;
  arg_max_age : Z;
  arg_max_uses : Z;
  arg_temporary : bool;
  arg_unique : bool;
  arg_reason : option string
}.

(** The dictionary built by [invite_record]. *)
Record record : Type := {
  code : string;
  url : string;
  channel_id : option Z;
  channel_name : option string;
  inviter_id : option Z;
  inviter_name : option string;
  uses : option Z;
  max_uses : option Z;
  temporary : option bool;
  revoked : option bool;
  max_age_seconds : option Z;
  created_at : option string;
  expires_at : option string
}.

(** [results = {"guild_id": guild_id, "invites": [], "created_invite": None}]. *)
Record results : Type := mkResults {
  invites : list record;
  created_invite : option record
}.

Definition no_results : results := mkResults [] None.

(** [[
    expires_at = None
    try:
        if inv.max_age and inv.max_age > 0 and inv.created_at:
            expires_at = inv.created_at + timedelta(seconds=inv.max_age)
    except Exception:
        expires_at = None
    ]] *)
Definition expiry (inv : invite) : option Datetime.datetime :=
  match inv_max_age inv, inv_created_at inv with
  | Some age, Some created =>
      if truthy_int (Some age) && (0 <? age) then
        match Datetime.timedelta_seconds age with
        | Returns td =>
            match Datetime.add created td with
            | Returns e => Some e
            | Raises _ => None
            end
        | Raises _ => None
        end
      else None
  | _, _ => None
  end.

Section Engine.

(** [datetime.isoformat]. *)
Variable isoformat : Datetime.datetime -> string.

Definition invite_record (inv : invite) : record :=
  {| code := inv_code inv;
     url := inv_url inv;
     channel_id := match inv_channel inv with
                   | Some c => obj_id c
                   | None => None
                   end;
     channel_name := match inv_channel inv with
                     | Some c => obj_name c
                     | None => None
                     end;
     inviter_id := match inv_inviter inv with
                   | Some u => obj_id u
                   | None => None
                   end;
     inviter_name := match inv_inviter inv with
                     | Some u => obj_name u
                     | None => None
                     end;
     uses := inv_uses inv;
     max_uses := inv_max_uses inv;
     temporary := inv_temporary inv;
     revoked := inv_revoked inv;
     max_age_seconds := inv_max_age inv;
     created_at := option_map isoformat (inv_created_at inv);
     expires_at := option_map isoformat (expiry inv) |}.

(** [hasattr(ch, "create_invite")]. *)
Definition has_create_invite (ch : channel) : bool :=
  match ch_create_invite ch with
  | Some _ => true
  | None => false
  end.

Definition position_key (c : channel) : Z * Z := (ch_position c, ch_id c).

(** [[
    if preferred_id:
        try:
            ch = guild.get_channel(preferred_id) or await guild.fetch_channel(preferred_id)
            return ch
        except (NotFound, Forbidden, HTTPException):
            return None
    if guild.system_channel:
        return guild.system_channel
    for ch in sorted(guild.text_channels, key=lambda c: (c.position, c.id)):
        return ch
    for ch in guild.channels:
        if hasattr(ch, "create_invite"):
            return ch
    return None
    ]] *)
Definition choose_channel_for_invite (g : guild) (preferred_id : option Z)
  : result (option channel) :=
  match (if truthy_int preferred_id then preferred_id else None) with
  | Some id =>
      match guild_get_channel g id with
      | Some ch => Returns (Some ch)
      | None =>
          match guild_fetch_channel g id with
          | Returns ch => Returns (Some ch)
          | Raises e =>
              if is_NotFound e || is_Forbidden e || is_HTTPException e
              then Returns None
              else Raises e
          end
      end
  | None =>
      match guild_system_channel g with
      | Some ch => Returns (Some ch)
      | None =>
          match PySort.sorted position_key PySort.lt_int_pair
                              (guild_text_channels g) with
          | ch :: _ => Returns (Some ch)
          | [] => Returns (find has_create_invite (guild_channels g))
          end
      end
  end.

Variable cl : client.
Variable guild_id : Z.
Variable a : args.

Definition creation_args : create_args :=
  {| Discord.arg_max_age := arg_max_age a;
     Discord.arg_max_uses := arg_max_uses a;
     Discord.arg_temporary := arg_temporary a;
     Discord.arg_unique := arg_unique a;
     Discord.arg_reason := arg_reason a |}.

(** [[
    guild = client.get_guild(guild_id)
    if guild is None:
        try:
            guild = await client.fetch_guild(guild_id)
        except HTTPException:
            guild = None
    ]] *)
Definition resolve_guild : M (world results) (option guild) :=
  match client_get_guild cl guild_id with
  | Some g => ret (Some g)
  | None =>
      try_except
        (g <- await (client_fetch_guild cl guild_id) ;; ret (Some g))
        (fun exc => if is_HTTPException exc then ret None else raise exc)
  end.

(** [[
    invites = []
    try:
        invites = await guild.invites()
    except Forbidden:
        invites = []
    except HTTPException as e:
        print(f"Error: HTTP error when fetching invites: {e}", ...)
    ]] *)
Definition fetch_invites (g : guild) : M (world results) (list invite) :=
  try_except
    (emit InvitesFetch ;; await (guild_invites g))
    (fun exc =>
       if is_Forbidden exc then ret []
       else if is_HTTPException exc then
         emit (Stderr (FetchInvitesHTTPError exc)) ;; ret []
       else raise exc).

Definition should_create (fetched : list invite) : bool :=
  arg_create a
  && (negb (arg_only_if_none a) || (Z.of_nat (List.length fetched) =? 0)).

(** [await channel.create_invite(...)]; without the attribute the
    expression raises [AttributeError]. *)
Definition create_invite (ch : channel) : M (world results) invite :=
  match ch_create_invite ch with
  | Some call =>
      emit (InviteCreate ch creation_args) ;; await (call creation_args)
  | None => raise (OtherException "AttributeError")
  end.

(** The [if should_create:] block; it yields [created_rec] and the list
    [invites] as the block leaves them. *)
Definition maybe_create (g : guild) (fetched : list invite)
  : M (world results) (option record * list invite) :=
  if should_create fetched then
    channel <- await (choose_channel_for_invite g (arg_channel_id a)) ;;
    match channel with
    | None => emit (Stderr NoInviteChannel) ;; ret (None, fetched)
    | Some ch =>
        try_except
          (new_inv <- create_invite ch ;;
           ret (Some (invite_record new_inv), fetched ++ [new_inv]))
          (fun exc =>
             if is_Forbidden exc then
               emit (Stderr ForbiddenCreateInvite) ;; ret (None, fetched)
             else if is_HTTPException exc then
               emit (Stderr (CreateInviteHTTPError exc)) ;; ret (None, fetched)
             else raise exc)
    end
  else ret (None, fetched).

Definition append_invite (r : record) (s : results) : results :=
  mkResults (invites s ++ [r]) (created_invite s).

(** [[
    for inv in invites:
        rec = invite_record(inv)
        if not args.include_revoked and rec.get("revoked"):
            continue
        results["invites"].append(rec)
    ]] *)
Fixpoint collect (l : list invite) : M (world results) unit :=
  match l with
  | [] => ret tt
  | inv :: rest =>
      let rec := invite_record inv in
      (if negb (arg_include_revoked a) && truthy_bool (revoked rec)
       then ret tt
       else update (append_invite rec)) ;;
      collect rest
  end.

Definition sort_key (r : record) : string * string :=
  (or_empty (channel_name r), or_empty (Some (code r))).

(** [results["invites"].sort(key=lambda r: (r.get("channel_name") or "", r.get("code") or ""))]. *)
Definition sort_invites (s : results) : results :=
  mkResults (PySort.sorted sort_key PySort.lt_str_pair (invites s))
            (created_invite s).

Definition on_ready_body : M (world results) unit :=
  guild <- resolve_guild ;;
  match guild with
  | None => emit (Stderr GuildUnavailable) ;; set_result false
  | Some g =>
      fetched <- fetch_invites g ;;
      created <- maybe_create g fetched ;;
      collect (snd created) ;;
      (match fst created with
       | Some r => update (fun s => mkResults (invites s) (Some r))
       | None => ret tt
       end) ;;
      update sort_invites ;;
      set_result true
  end.

Definition on_ready : M (world results) unit :=
  try_except on_ready_body set_exception.

End Engine.

Section Main.

Variable isoformat : Datetime.datetime -> string.
Variable strip : string -> string.
Variable parse_int : string -> option Z.

Definition main (a : args) (con : Cli.console) (cl : client) (fuel : nat)
  : option Lifecycle.outcome * world results :=
  match Cli.read_token (arg_token a) con with
  | (inr exit_code, t) =>
      (Some (Lifecycle.Exit exit_code), mkWorld no_results Pending t)
  | (inl token, t) =>
      let asked :=
        match arg_guild_id a with
        | Some n => (Some n, [])
        | None =>
            Cli.prompt_for_int strip parse_int "Guild ID: " (Cli.lines con)
        end in
      match asked with
      | (None, t') =>
          (Some (Lifecycle.Exit 2),
           mkWorld no_results Pending (t ++ t' ++ [Stderr NoGuildId]))
      | (Some gid, t') =>
          let p :=
            Lifecycle.exec (on_ready isoformat cl gid a) true
              (fun _ => [Stdout Report]) cl token fuel
              (Lifecycle.start (mkWorld no_results Pending (t ++ t'))) in
          (Lifecycle.returned p, Lifecycle.state p)
      end
  end.

End Main.

End Invites.

(** ** Channel resolution as the specification words it

    "In strict fallback order, first match wins: (1) explicit channel ID
    if provided and resolvable; (2) the guild's designated system channel
    if set; (3) the text-capable channel with the lowest position value
    (ties broken by entity ID ascending); (4) first channel in the guild
    exposing invite-creation capability."  This definition follows those
    words, not the code; it is compared with
    [Invites.choose_channel_for_invite] below. *)

Module InvitesSpec.

Definition explicit_channel (g : guild) (preferred_id : option Z)
  : option channel :=
  match preferred_id with
  | Some id =>
      match guild_get_channel g id with
      | Some ch => Some ch
      | None =>
          match guild_fetch_channel g id with
          | Returns ch => Some ch
          | Raises _ => None
          end
      end
  | None => None
  end.

Definition lower_channel (best c : channel) : channel :=
  if PySort.lt_int_pair (Invites.position_key c) (Invites.position_key best)
  then c else best.

Definition lowest_text_channel (l : list channel) : option channel :=
  match l with
  | [] => None
  | c :: rest => Some (fold_left lower_channel rest c)
  end.

Definition first_some (x y : option channel) : option channel :=
  match x with
  | Some c => Some c
  | None => y
  end.

Definition spec_choose_channel (g : guild) (preferred_id : option Z)
  : option channel :=
  first_some (explicit_channel g preferred_id)
    (first_some (guild_system_channel g)
       (first_some (lowest_text_channel (guild_text_channels g))
          (find Invites.has_create_invite (guild_channels g)))).

End InvitesSpec.

(** ** [List_Guilds.py] *)

Module Guilds.

Record args : Type := {
  arg_token : option string;
  arg_include_counts : bool;
  arg_include_owner : bool
}.

(** An entry of [data["guilds"]]; the two optional keys are present only
    when the matching flag is given. *)
Record item : Type := {
  id : Z;
  name : option string;
  owner_id : option (option Z);
  member_count : option (option Z)
}.

Section Handler.

(** [str.lower]. *)
Variable lower : string -> string.
Variable cl : client.
Variable a : args.

Definition guild_item (g : cached_guild) : item :=
  {| id := cg_id g;
     name := cg_name g;
     owner_id := if arg_include_owner a then Some (cg_owner_id g) else None;
     member_count :=
       if arg_include_counts a then Some (cg_member_count g) else None |}.

Fixpoint collect (l : list cached_guild) : M (world (list item)) unit :=
  match l with
  | [] => ret tt
  | g :: rest => update (fun d => d ++ [guild_item g]) ;; collect rest
  end.

Definition name_key (x : item) : string := lower (or_empty (name x)).

(** [[
    try:
        for g in client.guilds:
            ...
            data["guilds"].append(item)
        data["guilds"].sort(key=lambda x: (x["name"] or "").lower())
        done.set_result(True)
    except Exception as exc:
        done.set_exception(exc)
    ]] *)
Definition on_ready : M (world (list item)) unit :=
  try_except
    (collect (client_guilds cl) ;;
     update (PySort.sorted name_key String.ltb) ;;
     set_result true)
    set_exception.

Definition main (con : Cli.console) (fuel : nat)
  : option Lifecycle.outcome * world (list item) :=
  match Cli.read_token (arg_token a) con with
  | (inr exit_code, t) =>
      (Some (Lifecycle.Exit exit_code), mkWorld [] Pending t)
  | (inl token, t) =>
      let p :=
        Lifecycle.exec on_ready false (fun _ => [Stdout Report]) cl token fuel
          (Lifecycle.start (mkWorld [] Pending t)) in
      (Lifecycle.returned p, Lifecycle.state p)
  end.

End Handler.

End Guilds.

(** ** Sample worlds

    Concrete objects on which the properties below are exercised. *)

Module Samples.

(** The bot is user 1, the DM partner user 7. *)
Definition own_message (id : Z) (deletion : result unit) : message :=
  {| msg_id := id; msg_author_id := 1; msg_delete := deletion |}.

Definition partner_message (id : Z) : message :=
  {| msg_id := id; msg_author_id := 7; msg_delete := Raises Forbidden |}.

(** Four messages; the third cannot be deleted. *)
Definition history : list message :=
  [ own_message 101 (Returns tt);
    partner_message 102;
    own_message 103 (Raises Forbidden);
    own_message 104 (Returns tt) ].

(** Three messages whose deletions all succeed. *)
Definition clean_history : list message :=
  [ own_message 201 (Returns tt);
    partner_message 202;
    own_message 203 (Returns tt) ].

Definition dm (h : list message) : dm_channel :=
  {| chan_id := 50;
     chan_is_DMChannel := true;
     chan_history := h;
     chan_history_end := Exhausted |}.

Definition partner (h : list message) : user :=
  {| user_id := 7; user_create_dm := Returns (dm h) |}.

Definition invite_in (channel code : string) (max_age : option Z)
  (created : option Datetime.datetime) (is_revoked : option bool) : invite :=
  {| inv_code := code;
     inv_url := "https://discord.gg/" ++ code;
     inv_channel := Some {| obj_id := Some 11; obj_name := Some channel |};
     inv_inviter := Some {| obj_id := Some 7; obj_name := Some "partner" |};
     inv_uses := Some 0;
     inv_max_uses := Some 0;
     inv_temporary := Some false;
     inv_revoked := is_revoked;
     inv_max_age := max_age;
     inv_created_at := created |}.

Definition new_invite (a : create_args) : result invite :=
  Returns (invite_in "general" "fresh" (Some (Discord.arg_max_age a))
                     (Some 63900000000000000) (Some false)).

Definition text_channel (id position : Z) : channel :=
  {| ch_id := id; ch_position := position;
     ch_create_invite := Some new_invite |}.

Definition locked_channel (id position : Z) : channel :=
  {| ch_id := id; ch_position := position;
     ch_create_invite := Some (fun _ => Raises Forbidden) |}.

Definition make_guild (system : option channel) (text : list channel)
  (listed : result (list invite)) : guild :=
  {| guild_get_channel :=
       fun id => find (fun c => ch_id c =? id) text;
     guild_fetch_channel := fun _ => Raises NotFound;
     guild_system_channel := system;
     guild_text_channels := text;
     guild_channels := text;
     guild_invites := listed |}.

(** Two text channels at positions 3 and 1, no system channel, and two
    invites listed in channels named zeta and alpha. *)
Definition two_channels : list channel :=
  [text_channel 11 3; text_channel 12 1].

Definition listed_invites : list invite :=
  [ invite_in "zeta" "abc" (Some 0) (Some 63900000000000000) (Some false);
    invite_in "alpha" "xyz" (Some 3600) (Some 63900000000000000) (Some false) ].

Definition guild_with (listed : result (list invite)) : guild :=
  make_guild None two_channels listed.

(** A guild in which no channel can be resolved. *)
Definition bare_guild : guild := make_guild None [] (Returns []).

(** A guild whose invites may not be listed and whose only channel
    refuses invite creation. *)
Definition locked_guild : guild :=
  make_guild None [locked_channel 11 3] (Raises Forbidden).

(** A guild with a system channel. *)
Definition guild_with_system : guild :=
  make_guild (Some (text_channel 10 0)) two_channels (Returns []).

(** A client that accepts the token "good" only; guild 9 is [g]. *)
Definition client_of (h : list message) (g : guild) : client :=
  {| client_user_id := 1;
     client_start :=
       fun token =>
         if String.eqb token "good" then StartReady (Returns tt)
         else StartRaises LoginFailure;
     client_fetch_user :=
       fun id => if id =? 7 then Returns (partner h) else Raises NotFound;
     client_get_guild := fun id => if id =? 9 then Some g else None;
     client_fetch_guild := fun _ => Raises NotFound;
     client_guilds :=
       [ {| cg_id := 9; cg_name := Some "Guild";
            cg_owner_id := Some 7; cg_member_count := Some 2 |} ] |}.

Definition bot : client :=
  client_of history (guild_with (Returns listed_invites)).

Definition clean_bot : client :=
  client_of clean_history (guild_with (Returns listed_invites)).

(** The handler's closure when the ready notification arrives. *)
Definition fresh_stats : world Purge.stats :=
  mkWorld Purge.no_stats Pending [].

Definition fresh_results : world Invites.results :=
  mkWorld Invites.no_results Pending [].

(** An invite with a maximum age of an hour, one without creation time,
    and one created in the last hour of the calendar. *)
Definition hour_invite : invite :=
  invite_in "alpha" "xyz" (Some 3600) (Some 63900000000000000) (Some false).

Definition undated_invite : invite :=
  invite_in "alpha" "und" (Some 60) None (Some false).

Definition last_hour_invite : invite :=
  invite_in "alpha" "end" (Some 172800)
            (Some (Datetime.datetime_max - 3600000000)) (Some false).

Definition no_input : Cli.console :=
  {| Cli.secret := Cli.EndOfInput; Cli.lines := [] |}.

Definition purge_args (token : string) : Purge.args :=
  {| Purge.arg_token := Some token;
     Purge.arg_user_id := Some 7;
     Purge.arg_sleep := 0.5%float |}.

Definition invites_args (token : string) (create only_if_none : bool)
  (channel : option Z) : Invites.args :=
  {| Invites.arg_token := Some token;
     Invites.arg_guild_id := Some 9;
     Invites.arg_include_revoked := false;
     Invites.arg_create := create;
     Invites.arg_only_if_none := only_if_none;
     Invites.arg_channel_id := channel;
     Invites.arg_max_age := 0;
     Invites.arg_max_uses := 0;
     Invites.arg_temporary := false;
     Invites.arg_unique := false;
     Invites.arg_reason := None |}.

Definition guilds_args (token : string) : Guilds.args :=
  {| Guilds.arg_token := Some token;
     Guilds.arg_include_counts := false;
     Guilds.arg_include_owner := false |}.

(** Stand-ins for the library functions the scripts are generic in. *)
Definition keep (s : string) : string := s.

Definition no_number (s : string) : option Z := None.

(** Renders a time as its count of microseconds. *)
Definition show_time (d : Datetime.datetime) : string :=
  NilZero.string_of_int (Z.to_int d).

End Samples.

(** ** The CSV output of the listing scripts *)

Module Csv.

(** [str(n)] for an [int], and [str(b)] for a [bool]. *)
Definition str_int (n : Z) : string := NilZero.string_of_int (Z.to_int n).

Definition str_bool (b : bool) : string := if b then "True" else "False".

(** [s.replace(",", " ")]. *)
Fixpoint replace_comma (s : string) : string :=
  match s with
  | EmptyString => EmptyString
  | String c r =>
      String (if Ascii.eqb c ","%char then " "%char else c) (replace_comma r)
  end.

(** [",".join(fields)]. *)
Definition join (fields : list string) : string := String.concat "," fields.

(** *** [List_Guilds.py]

    [[
    headers = ["id", "name"]
    if args.include_owner:
        headers.append("owner_id")
    if args.include_counts:
        headers.append("member_count")
    ]] *)
Definition guilds_headers (a : Guilds.args) : list string :=
  ["id"; "name"]
  ++ (if Guilds.arg_include_owner a then ["owner_id"] else [])
  ++ (if Guilds.arg_include_counts a then ["member_count"] else []).

(** [str(g.get(key, ""))] for a key that holds [None] or an [int]. *)
Definition str_get (x : option (option Z)) : string :=
  match x with
  | None => ""
  | Some None => "None"
  | Some (Some n) => str_int n
  end.

(** [[
    row = [str(g.get("id", "")), (g.get("name", "") or "").replace(",", " ")]
    if args.include_owner:
        row.append(str(g.get("owner_id", "")))
    if args.include_counts:
        row.append(str(g.get("member_count", "")))
    ]] *)
Definition guilds_row (a : Guilds.args) (g : Guilds.item) : list string :=
  [str_int (Guilds.id g); replace_comma (or_empty (Guilds.name g))]
  ++ (if Guilds.arg_include_owner a then [str_get (Guilds.owner_id g)] else [])
  ++ (if Guilds.arg_include_counts a
      then [str_get (Guilds.member_count g)] else []).

(** What [--format csv] hands to [print], one string per call: the
    header, then the row of each guild.  ([print] ends each with a line
    feed; a row is one line of the output unless a name holds a line
    break itself.) *)
Definition guilds_csv_printed (a : Guilds.args) (guilds : list Guilds.item)
  : list string :=
  join (guilds_headers a) :: map (fun g => join (guilds_row a g)) guilds.

(** *** [List_Guild_Invites.py] *)

Definition invites_headers : list string :=
  [ "url"; "code"; "channel_id"; "channel_name";
    "inviter_id"; "inviter_name";
    "uses"; "max_uses"; "temporary"; "revoked";
    "max_age_seconds"; "created_at"; "expires_at" ].

(** [str(x or "")] and [str(x or 0)] for [x] holding [None] or an [int]. *)
Definition str_or_empty (x : option Z) : string :=
  match x with
  | Some n => if truthy_int x then str_int n else ""
  | None => ""
  end.

Definition str_or_zero (x : option Z) : string :=
  match x with
  | Some n => if truthy_int x then str_int n else str_int 0
  | None => str_int 0
  end.

(** [[
    row = [
        r.get("url") or "",
        r.get("code") or "",
        str(r.get("channel_id") or ""),
        (r.get("channel_name") or "").replace(",", " "),
        ...
    ]
    ]] *)
Definition invites_row (r : Invites.record) : list string :=
  [ or_empty (Some (Invites.url r));
    or_empty (Some (Invites.code r));
    str_or_empty (Invites.channel_id r);
    replace_comma (or_empty (Invites.channel_name r));
    str_or_empty (Invites.inviter_id r);
    replace_comma (or_empty (Invites.inviter_name r));
    str_or_zero (Invites.uses r);
    str_or_zero (Invites.max_uses r);
    str_bool (truthy_bool (Invites.temporary r));
    str_bool (truthy_bool (Invites.revoked r));
    str_or_zero (Invites.max_age_seconds r);
    or_empty (Invites.created_at r);
    or_empty (Invites.expires_at r) ].

(** What [--format csv] hands to [print], one string per call. *)
Definition invites_csv_printed (invites : list Invites.record) : list string :=
  join invites_headers :: map (fun r => join (invites_row r)) invites.

End Csv.

(** ** Further sample worlds *)

Module MoreSamples.

Import Samples.

(** A history whose second own message makes [delete] raise outside
    [HTTPException]. *)
Definition crash : exn := OtherException "RuntimeError".

Definition crashing_message : message := own_message 302 (Raises crash).

Definition history_before_crash : list message :=
  [own_message 301 (Returns tt)].

Definition history_after_crash : list message :=
  [own_message 303 (Returns tt)].

Definition crashing_history : list message :=
  history_before_crash ++ crashing_message :: history_after_crash.

(** A DM channel whose history stops with an HTTP error after one
    message. *)
Definition server_error : exn := HTTPException "503".

Definition broken_dm : dm_channel :=
  {| chan_id := 50;
     chan_is_DMChannel := true;
     chan_history := [own_message 401 (Returns tt)];
     chan_history_end := Broken server_error |}.

Definition broken_partner : user :=
  {| user_id := 7; user_create_dm := Returns broken_dm |}.

Definition broken_bot : client :=
  {| client_user_id := 1;
     client_start := fun _ => StartReady (Returns tt);
     client_fetch_user := fun _ => Returns broken_partner;
     client_get_guild := fun _ => None;
     client_fetch_guild := fun _ => Raises NotFound;
     client_guilds := [] |}.

Definition crashing_bot : client :=
  client_of crashing_history (guild_with (Returns listed_invites)).

(** Arguments naming a user the platform does not know. *)
Definition stranger_args : Purge.args :=
  {| Purge.arg_token := Some "good";
     Purge.arg_user_id := Some 8;
     Purge.arg_sleep := 0.5%float |}.

(** Arguments naming a guild the bot is not in. *)
Definition foreign_guild_args : Invites.args :=
  {| Invites.arg_token := Some "good";
     Invites.arg_guild_id := Some 10;
     Invites.arg_include_revoked := false;
     Invites.arg_create := false;
     Invites.arg_only_if_none := false;
     Invites.arg_channel_id := None;
     Invites.arg_max_age := 0;
     Invites.arg_max_uses := 0;
     Invites.arg_temporary := false;
     Invites.arg_unique := false;
     Invites.arg_reason := None |}.

(** A parser that knows the numerals 7 and 42 only. *)
Definition parse_some (s : string) : option Z :=
  if String.eqb s "7" then Some 7
  else if String.eqb s "42" then Some 42
  else None.

(** A guild whose only invite is flagged revoked. *)
Definition revoked_invite : invite :=
  invite_in "general" "old" (Some 0) (Some 63900000000000000) (Some true).

Definition stale_guild : guild := guild_with (Returns [revoked_invite]).

(** A guild whose invites may not be listed, with two usable channels. *)
Definition unlistable_guild : guild := guild_with (Raises Forbidden).

(** The invite that [Samples.new_invite] hands back for a maximum age
    of 0. *)
Definition created_invite : invite :=
  invite_in "general" "fresh" (Some 0) (Some 63900000000000000) (Some false).

(** Three guilds, two of which differ in letter case only. *)
Definition three_guilds : list cached_guild :=
  [ {| cg_id := 1; cg_name := Some "beta";
       cg_owner_id := Some 7; cg_member_count := Some 2 |};
    {| cg_id := 2; cg_name := Some "Alpha, Inc";
       cg_owner_id := None; cg_member_count := Some 5 |};
    {| cg_id := 3; cg_name := None;
       cg_owner_id := Some 7; cg_member_count := None |} ].

Definition guilds_bot : client :=
  {| client_user_id := 1;
     client_start := fun _ => StartReady (Returns tt);
     client_fetch_user := fun _ => Raises NotFound;
     client_get_guild := fun _ => None;
     client_fetch_guild := fun _ => Raises NotFound;
     client_guilds := three_guilds |}.

Definition full_guilds_args : Guilds.args :=
  {| Guilds.arg_token := Some "good";
     Guilds.arg_include_counts := true;
     Guilds.arg_include_owner := true |}.

(** A terminal on which a blank line and a word are typed before the
    input ends, and arguments that leave the ID to the prompt. *)
Definition guild_prompt_console : Cli.console :=
  {| Cli.secret := Cli.EndOfInput;
     Cli.lines := [Cli.Typed ""; Cli.Typed "abc"; Cli.EndOfInput] |}.

Definition unnamed_guild_args : Invites.args :=
  {| Invites.arg_token := Some "good";
     Invites.arg_guild_id := None;
     Invites.arg_include_revoked := false;
     Invites.arg_create := false;
     Invites.arg_only_if_none := false;
     Invites.arg_channel_id := None;
     Invites.arg_max_age := 0;
     Invites.arg_max_uses := 0;
     Invites.arg_temporary := false;
     Invites.arg_unique := false;
     Invites.arg_reason := None |}.

(** A history in which the first own message cannot be deleted and the
    next two can, and arguments with [--sleep inf]. *)
Definition late_history : list message :=
  [ partner_message 602;
    own_message 603 (Raises Forbidden);
    own_message 604 (Returns tt);
    own_message 605 (Returns tt) ].

Definition late_bot : client :=
  client_of late_history (guild_with (Returns listed_invites)).

Definition endless_args : Purge.args :=
  {| Purge.arg_token := Some "good";
     Purge.arg_user_id := Some 7;
     Purge.arg_sleep := PrimFloat.infinity |}.

Definition unnamed_user_args : Purge.args :=
  {| Purge.arg_token := Some "good";
     Purge.arg_user_id := None;
     Purge.arg_sleep := 0.5%float |}.

(** A history whose first own message cannot be deleted because the
    connection is refused, an error below HTTP that the client library
    hands on as it is. *)
Definition connection_error : exn := OtherException "ClientConnectorError".

Definition unreachable_history : list message :=
  [ own_message 501 (Raises connection_error);
    own_message 502 (Returns tt) ].

Definition unreachable_bot : client :=
  client_of unreachable_history (guild_with (Returns listed_invites)).

End MoreSamples.

(* ================================================================== *)
(** * Part II: the vocabulary of the properties *)
(* ================================================================== *)

(** ** Order of a sorted list *)

Module SortTerms.

(** [x] may stand before [y]: the key of [y] is not smaller. *)
Definition precedes {A K} (key : A -> K) (lt : K -> K -> bool) (x y : A)
  : Prop :=
  lt (key y) (key x) = false.

End SortTerms.

(** ** Runs of the event loop *)

Module LifecycleTerms.

Import Lifecycle.

(** What [main] makes of the completion signal when it has the lines
    [if not done.result(): return 1]: [True] gives 0, [False] gives 1,
    and an exception stored in [done] leaves [main]. *)
Definition outcome_of (d : future) : outcome :=
  match d with
  | Resolved true => Exit 0
  | Resolved false => Exit 1
  | Failed e => Uncaught e
  | Pending => Uncaught InvalidStateError
  end.

Section Runs.

Variable R : Type.
Variable on_ready : M (world R) unit.
Variable checks_result : bool.
Variable epilogue : R -> list event.
Variable cl : client.
Variable token : string.

(** The steps from [p] visit the states of [l] in order and then stop. *)
Fixpoint visits (p : proc R) (l : list (proc R)) : Prop :=
  match l with
  | [] => step on_ready checks_result epilogue cl token p = None
  | q :: l' =>
      step on_ready checks_result epilogue cl token p = Some q
      /\ visits q l'
  end.

(** *** A run in which the ready notification is dispatched *)

Variable after_close : result unit.
Variable w0 : world R.

Definition after_handler : world R :=
  snd (on_ready (log [ClientStart token] w0)).

Definition after_task : result Z * world R :=
  run_returns after_close (log [ClientClose] after_handler).

Definition at_done_result : proc R :=
  mkProc AtDoneResult (RunEnded (fst after_task)) true true (snd after_task).

(** What [main] returns, read off the completion signal. *)
Definition verdict : outcome :=
  if checks_result then
    match done after_handler with
    | Resolved true => Exit 0
    | Resolved false => Exit 1
    | Failed e => Uncaught e
    | Pending => Uncaught InvalidStateError
    end
  else Exit 0.

Definition at_return : proc R :=
  mkProc (Finished verdict) (RunEnded (fst after_task)) true true
         match verdict with
         | Exit 0 => log (epilogue (store (snd after_task))) (snd after_task)
         | _ => snd after_task
         end.

(** The states the event loop goes through, in order. *)
Definition ready_path : list (proc R) :=
  [ mkProc AtWaitDone Scheduled false false w0;
    mkProc AtWaitDone (Connected after_close) false false
           (log [ClientStart token] w0);
    mkProc AtWaitDone (Connected after_close) true false after_handler;
    mkProc AtClose (Connected after_close) true false after_handler;
    mkProc AtAwaitTask (Connected after_close) true true
           (log [ClientClose] after_handler);
    mkProc AtAwaitTask (RunEnded (fst after_task)) true true (snd after_task);
    at_done_result;
    at_return ].

(** *** A run in which the handler does not resolve [done]: the state
    in which the loop comes to rest. *)
Definition handler_stalled : proc R :=
  mkProc AtWaitDone (Connected after_close) true false after_handler.

(** *** A run in which [client.start] raises [e] before the ready
    notification: the state in which the loop comes to rest. *)
Definition task_ended (e : exn) : proc R :=
  let '(r, w) := run_returns (Raises e) (log [ClientStart token] w0) in
  mkProc AtWaitDone (RunEnded r) false false w.

End Runs.

End LifecycleTerms.

(** ** What a handler may do to the completion signal and the session *)

Module HandlerTerms.

(** [m] leaves [done] alone and does not close the client. *)
Definition frame (R : Type) {A} (m : M (world R) A) : Prop :=
  forall w r w', m w = (r, w') ->
    done w' = done w /\ close_count (trace w') = close_count (trace w).

(** Started with [done] pending, [m] does not close the client and
    either returns with [done] resolved or raises with [done] pending. *)
Definition settles (R : Type) {A} (m : M (world R) A) : Prop :=
  forall w r w', done w = Pending -> m w = (r, w') ->
    close_count (trace w') = close_count (trace w)
    /\ match r with
       | Returns _ => done w' <> Pending
       | Raises _ => done w' = Pending
       end.

End HandlerTerms.

(** ** The DM purge *)

Module PurgeTerms.

Import Purge.

(** The message was written by the acting session. *)
Definition own (cl : client) (m : message) : bool :=
  msg_author_id m =? client_user_id cl.

(** Deleting the message returns, or raises an [HTTPException] (which
    includes [Forbidden] and [NotFound]). *)
Definition contained (m : message) : bool :=
  match msg_delete m with
  | Returns _ => true
  | Raises e => is_HTTPException e
  end.

Definition deletable (m : message) : bool :=
  match msg_delete m with
  | Returns _ => true
  | Raises _ => false
  end.

(** What the loop logs between a deletion and the next message. *)
Definition pause (sleep : float) : list event :=
  if PrimFloat.ltb 0%float sleep then [Sleep sleep] else [].

(** The pause between two deletions comes to an end: [--sleep] is not
    [inf]. *)
Definition pause_ends (sleep : float) : bool :=
  negb (PrimFloat.eqb sleep PrimFloat.infinity).

(** Whether the handler gets past a deletion that returned. *)
Definition after_pause (sleep : float) : wake :=
  if PrimFloat.ltb 0%float sleep then
    if PrimFloat.eqb sleep PrimFloat.infinity then Suspended else Resumed
  else Resumed.

(** What the handler makes of [done] when the loop is over: [True] at
    the end of the history, the exception that left the loop, and
    nothing while the loop is suspended. *)
Definition settled (r : result wake) : future :=
  match r with
  | Returns Resumed => Resolved true
  | Returns Suspended => Pending
  | Raises e => Failed e
  end.

Definition delete_diagnostic (m : message) (e : exn) : diagnostic :=
  if is_Forbidden e then ForbiddenDelete (msg_id m)
  else HTTPErrorDelete (msg_id m) e.

(** The messages handed to [message.delete()], oldest first. *)
Definition deletions (t : list event) : list message :=
  flat_map (fun e => match e with MessageDelete m => [m] | _ => [] end) t.

(** The state in which [on_ready] enters the loop. *)
Definition at_loop_start (cl : client) (dm : dm_channel) (w : world stats)
  : world stats :=
  mkWorld (store w) (done w)
          (trace w ++ [Stdout (LoggedIn (client_user_id cl));
                       Stdout (DMChannelFound (chan_id dm))]).

End PurgeTerms.

(** ** The invite engine *)

Module InvitesTerms.

Import Invites.

(** [ch] is at least as early as [c] in the order of the text channels:
    lower position, or the same position and an ID that is not larger. *)
Definition not_after (ch c : channel) : Prop :=
  ch_position ch < ch_position c
  \/ (ch_position ch = ch_position c /\ ch_id ch <= ch_id c).

(** A call returns, or raises an [HTTPException] (which includes
    [Forbidden] and [NotFound]). *)
Definition harmless {A} (r : result A) : bool :=
  match r with
  | Returns _ => true
  | Raises e => is_HTTPException e
  end.

Definition guild_resolves (cl : client) (guild_id : Z) (g : guild) : Prop :=
  client_get_guild cl guild_id = Some g
  \/ (client_get_guild cl guild_id = None
      /\ client_fetch_guild cl guild_id = Returns g).

(** The list [invites] after the fetch, and what the fetch logs. *)
Definition fetched_list (g : guild) : list invite :=
  match guild_invites g with
  | Returns l => l
  | Raises _ => []
  end.

Definition fetch_events (g : guild) : list event :=
  match guild_invites g with
  | Returns _ => [InvitesFetch]
  | Raises e =>
      if is_Forbidden e then [InvitesFetch]
      else [InvitesFetch; Stderr (FetchInvitesHTTPError e)]
  end.

(** How the [if should_create:] block goes. *)
Inductive attempt : Type :=
| NotWanted
| NoChannel
| Created (ch : channel) (inv : invite)
| Refused (ch : channel) (e : exn)
| Crashed (e : exn)
| CrashedInCall (ch : channel) (e : exn).

Definition creation_attempt (a : args) (g : guild) (fetched : list invite)
  : attempt :=
  if should_create a fetched then
    match choose_channel_for_invite g (arg_channel_id a) with
    | Raises e => Crashed e
    | Returns None => NoChannel
    | Returns (Some ch) =>
        match ch_create_invite ch with
        | None => Crashed (OtherException "AttributeError")
        | Some call =>
            match call (creation_args a) with
            | Returns inv => Created ch inv
            | Raises e =>
                if is_HTTPException e then Refused ch e
                else CrashedInCall ch e
            end
        end
    end
  else NotWanted.

Definition creation_diagnostic (e : exn) : diagnostic :=
  if is_Forbidden e then ForbiddenCreateInvite else CreateInviteHTTPError e.

Definition attempt_events (a : args) (att : attempt) : list event :=
  match att with
  | NotWanted | Crashed _ => []
  | NoChannel => [Stderr NoInviteChannel]
  | Created ch _ | CrashedInCall ch _ => [InviteCreate ch (creation_args a)]
  | Refused ch e =>
      [InviteCreate ch (creation_args a); Stderr (creation_diagnostic e)]
  end.

Definition attempt_listed (att : attempt) (fetched : list invite)
  : list invite :=
  match att with
  | Created _ inv => fetched ++ [inv]
  | _ => fetched
  end.

Definition attempt_record (isoformat : Datetime.datetime -> string)
  (att : attempt) : option record :=
  match att with
  | Created _ inv => Some (invite_record isoformat inv)
  | _ => None
  end.

Definition attempt_error (att : attempt) : option exn :=
  match att with
  | Crashed e | CrashedInCall _ e => Some e
  | _ => None
  end.

(** An invite is listed unless it is revoked and [--include-revoked] is
    not given. *)
Definition visible (a : args) (inv : invite) : bool :=
  arg_include_revoked a || negb (truthy_bool (inv_revoked inv)).

Definition shown (isoformat : Datetime.datetime -> string) (a : args)
  (l : list invite) : list record :=
  map (invite_record isoformat) (filter (visible a) l).

(** [r1] may be listed before [r2]: its channel name is smaller, or the
    names are equal and its code is not larger ([None] counts as the
    empty string). *)
Definition listed_before (r1 r2 : record) : Prop :=
  String.ltb (or_empty (channel_name r1)) (or_empty (channel_name r2)) = true
  \/ (or_empty (channel_name r1) = or_empty (channel_name r2)
      /\ String.ltb (code r2) (code r1) = false).

End InvitesTerms.

(** ** Teardown *)

Module RunTerms.

Import Lifecycle.

(** What the end of [run()] writes once the client is closed: nothing,
    unless the connection loop itself ends in [LoginFailure]. *)
Definition teardown_events (after_close : result unit) : list event :=
  match after_close with
  | Returns _ => []
  | Raises e => if is_LoginFailure e then [Stderr InvalidBotToken] else []
  end.

(** Where [main] stands against the state of the client and of [done]:
    up to [asyncio.wait] the client is open; from [client.close()] on
    [done] is resolved; after it the client is closed. *)
Definition safe {R} (p : proc R) : Prop :=
  match pc p with
  | AtCreateTask | AtWaitDone => closed p = false
  | AtClose => closed p = false /\ done (state p) <> Pending
  | AtAwaitTask | AtDoneResult | Finished _ =>
      closed p = true /\ done (state p) <> Pending
  end.

(** The closure [main] is left with after a run in which the ready
    notification was dispatched: what the handler left, then the close,
    the end of [run()], and, only when [main] returns 0, what it prints
    last. *)
Definition final_world {R} (after_close : result unit) (o : outcome)
  (printed : list event) (w : world R) : world R :=
  mkWorld (store w) (done w)
          (trace w ++ ClientClose :: teardown_events after_close
           ++ match o with
              | Exit 0 => printed
              | _ => []
              end).

(** The diagnostic of the set-up step of [Delete_Bot_DMs_With_User.on_ready]
    that fails, if one does: fetching the user, opening the DM channel,
    checking its type. *)
Definition setup_failure (cl : client) (user_id : Z) : option diagnostic :=
  match client_fetch_user cl user_id with
  | Raises e =>
      if is_NotFound e then Some UserNotFound
      else if is_HTTPException e then Some (FetchUserHTTPError e)
      else None
  | Returns u =>
      match user_create_dm u with
      | Raises e =>
          if is_HTTPException e then Some (CreateDMFailed e) else None
      | Returns dm =>
          if chan_is_DMChannel dm then None else Some UnexpectedChannelType
      end
  end.

End RunTerms.

(** ** Answers to a prompt for a number *)

Module PromptTerms.

Section Answers.

Variable strip : string -> string.
Variable parse_int : string -> option Z.

(** A typed line that is blank once stripped. *)
Definition blank (x : Cli.answer) : bool :=
  match x with
  | Cli.Typed line => negb (truthy_str (Some (strip line)))
  | _ => false
  end.

(** A typed line that is not blank and is not a number. *)
Definition invalid (x : Cli.answer) : bool :=
  match x with
  | Cli.Typed line =>
      truthy_str (Some (strip line))
      && match parse_int (strip line) with
         | Some _ => false
         | None => true
         end
  | _ => false
  end.

(** An answer after which the prompt is shown again. *)
Definition rejected (x : Cli.answer) : bool := blank x || invalid x.

(** The input is used up, or continues with end of input or an
    interrupt. *)
Definition abandoned (inputs : list Cli.answer) : bool :=
  match inputs with
  | [] => true
  | Cli.Typed _ :: _ => false
  | _ => true
  end.

End Answers.

Definition is_Input (e : event) : bool :=
  match e with Input _ => true | _ => false end.

Definition is_complaint (e : event) : bool :=
  match e with
  | Stderr InvalidUserId | Stderr DigitsOnly => true
  | _ => false
  end.

End PromptTerms.

(** ** Reading CSV lines and counting pauses *)

Module CsvTerms.

Fixpoint has_comma (s : string) : bool :=
  match s with
  | EmptyString => false
  | String c r => Ascii.eqb c ","%char || has_comma r
  end.

(** [line.split(",")]. *)
Fixpoint split_commas (s : string) : list string :=
  match s with
  | EmptyString => [EmptyString]
  | String c r =>
      if Ascii.eqb c ","%char then EmptyString :: split_commas r
      else match split_commas r with
           | f :: fs => String c f :: fs
           | [] => [String c EmptyString]
           end
  end.

End CsvTerms.

Module PauseTerms.

(** The number of [asyncio.sleep] calls logged. *)
Definition pauses (t : list event) : nat :=
  List.length
    (filter (fun e => match e with Sleep _ => true | _ => false end) t).

End PauseTerms.

(* ================================================================== *)
(** * Part III: properties *)
(* ================================================================== *)

(** ** Traces *)

Lemma close_count_app (t u : list event) :
  close_count (t ++ u) = (close_count t + close_count u)%nat.
Proof.
  unfold close_count. rewrite filter_app, length_app. reflexivity.
Qed.

Lemma close_count_log {R} (e : list event) (w : world R) :
  close_count (trace (Lifecycle.log e w))
  = (close_count (trace w) + close_count e)%nat.
Proof. unfold Lifecycle.log; simpl. apply close_count_app. Qed.

(** ** Sorting with a key *)

Module PySortFacts.

Import PySort SortTerms.

Section ByKey.

Variables A K : Type.
Variable key : A -> K.
Variable lt : K -> K -> bool.

(** [<] on the keys is asymmetric, and "not greater" is transitive. *)
Hypothesis lt_asym : forall x y, lt x y = true -> lt y x = false.
Hypothesis ge_trans :
  forall x y z, lt y x = false -> lt z y = false -> lt z x = false.

Local Abbreviation precedes := (SortTerms.precedes key lt).

Lemma insert_perm (x : A) (l : list A) :
  Permutation (insert key lt x l) (x :: l).
Proof.
  induction l as [|y l IH]; simpl; [apply Permutation_refl|].
  destruct (lt (key y) (key x)); [|apply Permutation_refl].
  apply perm_trans with (y :: x :: l); [now apply perm_skip | apply perm_swap].
Qed.

Lemma sorted_perm (l : list A) : Permutation (sorted key lt l) l.
Proof.
  induction l as [|x l IH]; simpl; [apply perm_nil|].
  apply perm_trans with (x :: sorted key lt l);
    [apply insert_perm | now apply perm_skip].
Qed.

Lemma insert_ordered (x : A) (l : list A) :
  StronglySorted precedes l -> StronglySorted precedes (insert key lt x l).
Proof.
  induction 1 as [|y l Hl IH Hy]; simpl.
  - constructor; constructor.
  - destruct (lt (key y) (key x)) eqn:E.
    + constructor; [exact IH|].
      apply Forall_forall. intros z Hz.
      apply (Permutation_in _ (insert_perm x l)) in Hz.
      destruct Hz as [<- | Hz].
      * apply lt_asym. exact E.
      * rewrite Forall_forall in Hy. now apply Hy.
    + constructor; [now constructor|].
      constructor; [exact E|].
      rewrite Forall_forall in *. intros z Hz.
      unfold SortTerms.precedes.
      apply ge_trans with (key y); [exact E | now apply Hy].
Qed.

Lemma sorted_ordered (l : list A) : StronglySorted precedes (sorted key lt l).
Proof.
  induction l as [|x l IH]; simpl; [constructor | now apply insert_ordered].
Qed.

(** The first element of the sorted list is a least element of the
    input. *)
Lemma sorted_head_least (l : list A) (c : A) (rest : list A) :
  sorted key lt l = c :: rest ->
  In c l /\ forall c', In c' l -> precedes c c'.
Proof.
  intros E. pose proof (sorted_ordered l) as Hs.
  pose proof (sorted_perm l) as Hp. rewrite E in Hs, Hp.
  split.
  - apply (Permutation_in _ Hp). now left.
  - intros c' Hin. apply (Permutation_in _ (Permutation_sym Hp)) in Hin.
    destruct Hin as [<- | Hin].
    + unfold SortTerms.precedes.
      destruct (lt (key c) (key c)) eqn:E'; [|reflexivity].
      now rewrite (lt_asym _ _ E') in E'.
    + inversion Hs as [|? ? _ Hall]; subst.
      rewrite Forall_forall in Hall. now apply Hall.
Qed.

Lemma sorted_nil_iff (l : list A) : sorted key lt l = [] <-> l = [].
Proof.
  split; [|now intros ->].
  intros E. pose proof (sorted_perm l) as Hp. rewrite E in Hp.
  now apply Permutation_nil.
Qed.

End ByKey.

(** The two tuple orders used by the scripts. *)

Lemma lt_int_pair_asym (x y : Z * Z) :
  lt_int_pair x y = true -> lt_int_pair y x = false.
Proof.
  unfold lt_int_pair. destruct x as [a b], y as [c d]. simpl.
  destruct (Z.ltb_spec a c), (Z.ltb_spec c a), (Z.eqb_spec a c),
    (Z.eqb_spec c a), (Z.ltb_spec b d), (Z.ltb_spec d b);
    simpl; intros; try reflexivity; try discriminate; lia.
Qed.

Lemma lt_int_pair_ge_trans (x y z : Z * Z) :
  lt_int_pair y x = false -> lt_int_pair z y = false ->
  lt_int_pair z x = false.
Proof.
  unfold lt_int_pair. destruct x as [a b], y as [c d], z as [e f]. simpl.
  destruct (Z.ltb_spec c a), (Z.ltb_spec e c), (Z.ltb_spec e a),
    (Z.eqb_spec c a), (Z.eqb_spec e c), (Z.eqb_spec e a),
    (Z.ltb_spec d b), (Z.ltb_spec f d), (Z.ltb_spec f b);
    simpl; intros; try reflexivity; try discriminate; lia.
Qed.

Lemma string_ltb_lt (s u : string) :
  String.ltb s u = true <-> String_as_OT.lt s u.
Proof.
  unfold String.ltb. rewrite <- String_as_OT.cmp_lt.
  unfold String_as_OT.cmp.
  destruct (String.compare s u); split; intros; congruence.
Qed.

Lemma string_ltb_irrefl (s : string) : String.ltb s s = false.
Proof.
  destruct (String.ltb s s) eqn:E; [|reflexivity].
  apply string_ltb_lt in E. apply String_as_OT.lt_not_eq in E.
  exfalso. apply E. reflexivity.
Qed.

Lemma string_ltb_trans (s u v : string) :
  String.ltb s u = true -> String.ltb u v = true -> String.ltb s v = true.
Proof.
  rewrite !string_ltb_lt. apply String_as_OT.lt_trans.
Qed.

(** Two strings are equal or one is smaller. *)
Lemma string_trichotomy (s u : string) :
  String.ltb s u = true \/ s = u \/ String.ltb u s = true.
Proof.
  unfold String.ltb. rewrite (String.compare_antisym u s).
  destruct (String.compare s u) eqn:E; simpl; auto.
  right; left. now apply String.compare_eq_iff.
Qed.

Lemma string_ltb_asym (s u : string) :
  String.ltb s u = true -> String.ltb u s = false.
Proof.
  intros H. destruct (String.ltb u s) eqn:E; [|reflexivity].
  pose proof (string_ltb_trans _ _ _ H E) as C.
  now rewrite string_ltb_irrefl in C.
Qed.

Lemma string_ge_trans (s u v : string) :
  String.ltb u s = false -> String.ltb v u = false -> String.ltb v s = false.
Proof.
  intros H1 H2. destruct (String.ltb v s) eqn:E; [|reflexivity].
  destruct (string_trichotomy s u) as [L | [-> | L]].
  - rewrite (string_ltb_trans _ _ _ E L) in H2. discriminate.
  - congruence.
  - congruence.
Qed.

Lemma lt_str_pair_asym (x y : string * string) :
  lt_str_pair x y = true -> lt_str_pair y x = false.
Proof.
  unfold lt_str_pair. destruct x as [a b], y as [c d]. simpl.
  intros H. apply orb_true_iff in H. apply orb_false_iff.
  destruct H as [H | H].
  - split; [now apply string_ltb_asym|].
    apply andb_false_iff. left.
    destruct (String.eqb_spec c a) as [->|]; [|reflexivity].
    now rewrite string_ltb_irrefl in H.
  - apply andb_true_iff in H. destruct H as [He Hl].
    apply String.eqb_eq in He. subst c.
    split; [apply string_ltb_irrefl|].
    apply andb_false_iff. right. now apply string_ltb_asym.
Qed.

Lemma lt_str_pair_ge_trans (x y z : string * string) :
  lt_str_pair y x = false -> lt_str_pair z y = false ->
  lt_str_pair z x = false.
Proof.
  unfold lt_str_pair. destruct x as [a b], y as [c d], z as [e f]. simpl.
  intros H1 H2.
  apply orb_false_iff in H1. destruct H1 as [L1 E1].
  apply orb_false_iff in H2. destruct H2 as [L2 E2].
  apply orb_false_iff. split; [exact (string_ge_trans _ _ _ L1 L2)|].
  destruct (String.eqb_spec e a) as [->|]; [|reflexivity]. simpl.
  destruct (String.eqb_spec a c) as [->|Hac].
  - rewrite ?String.eqb_refl in E1. rewrite ?String.eqb_refl in E2.
    simpl in E1, E2.
    exact (string_ge_trans _ _ _ E1 E2).
  - destruct (string_trichotomy a c) as [L | [-> | L]];
      [congruence | congruence | congruence].
Qed.

End PySortFacts.

(** ** The session lifecycle *)

Module LifecycleFacts.

Import Lifecycle LifecycleTerms.

Section Generic.

Variable R : Type.
Variable on_ready : M (world R) unit.
Variable checks_result : bool.
Variable epilogue : R -> list event.
Variable cl : client.
Variable token : string.

Local Abbreviation step := (step on_ready checks_result epilogue cl token).
Local Abbreviation exec := (exec on_ready checks_result epilogue cl token).
Local Abbreviation visits :=
  (LifecycleTerms.visits R on_ready checks_result epilogue cl token).

Lemma exec_stuck (p : proc R) (n : nat) : step p = None -> exec n p = p.
Proof. intros H. destruct n; simpl; [reflexivity | now rewrite H]. Qed.

Lemma exec_step (p p' : proc R) (n : nat) :
  step p = Some p' -> exec (S n) p = exec n p'.
Proof. intros H. simpl. now rewrite H. Qed.

Lemma exec_visits (l : list (proc R)) :
  forall p n, visits p l -> In (exec n p) (p :: l).
Proof.
  induction l as [|q l IH]; intros p n Hv; simpl in Hv.
  - left. symmetry. now apply exec_stuck.
  - destruct Hv as [Hs Hv]. destruct n as [|n].
    + now left.
    + right. rewrite (exec_step _ _ _ Hs). now apply IH.
Qed.

Lemma last_cons_any (l : list (proc R)) (q d d' : proc R) :
  last (q :: l) d = last (q :: l) d'.
Proof.
  revert q. induction l as [|x l IH]; intros q; [reflexivity|].
  change (last (x :: l) d = last (x :: l) d'). apply IH.
Qed.

Lemma exec_visits_last (l : list (proc R)) :
  forall p n, visits p l -> (List.length l <= n)%nat -> exec n p = last l p.
Proof.
  induction l as [|q l IH]; intros p n Hv Hn; simpl in Hv.
  - now apply exec_stuck.
  - destruct Hv as [Hs Hv]. destruct n as [|n]; [simpl in Hn; lia|].
    rewrite (exec_step _ _ _ Hs). simpl in Hn.
    rewrite (IH q n Hv) by lia.
    destruct l as [|x l]; [reflexivity|].
    change (last (x :: l) q = last (x :: l) p). apply last_cons_any.
Qed.

(** *** A run in which the ready notification is dispatched *)

Section Ready.

Variable after_close : result unit.
Hypothesis start_ready : client_start cl token = StartReady after_close.
Hypothesis epilogue_never_closes :
  forall r, close_count (epilogue r) = 0%nat.

Variable w0 : world R.
Hypothesis done_pending : done w0 = Pending.
Hypothesis not_closed_yet : close_count (trace w0) = 0%nat.

Local Abbreviation after_handler :=
  (LifecycleTerms.after_handler R on_ready token w0).

(** The handler resolves the completion signal ... *)
Hypothesis handler_resolves : done after_handler <> Pending.
(** ... and neither it nor the final printing closes the client. *)
Hypothesis handler_never_closes :
  close_count (trace after_handler)
  = close_count (trace (log [ClientStart token] w0)).
Local Abbreviation after_task :=
  (LifecycleTerms.after_task R on_ready token after_close w0).
Local Abbreviation at_done_result :=
  (LifecycleTerms.at_done_result R on_ready token after_close w0).
Local Abbreviation verdict :=
  (LifecycleTerms.verdict R on_ready checks_result token w0).
Local Abbreviation at_return :=
  (LifecycleTerms.at_return R on_ready checks_result epilogue token
     after_close w0).
Local Abbreviation ready_path :=
  (LifecycleTerms.ready_path R on_ready checks_result epilogue token
     after_close w0).


Lemma after_handler_resolved : done after_handler <> Pending.
Proof. exact handler_resolves. Qed.

Lemma after_task_done : done (snd after_task) = done after_handler.
Proof.
  unfold LifecycleTerms.after_task, run_returns.
  destruct after_close as [u|e]; [reflexivity|].
  destruct (is_LoginFailure e); reflexivity.
Qed.

Lemma after_task_store : store (snd after_task) = store after_handler.
Proof.
  unfold LifecycleTerms.after_task, run_returns.
  destruct after_close as [u|e]; [reflexivity|].
  destruct (is_LoginFailure e); reflexivity.
Qed.

Lemma after_handler_closes : close_count (trace after_handler) = 0%nat.
Proof.
  rewrite handler_never_closes.
  rewrite close_count_log, not_closed_yet. reflexivity.
Qed.

Lemma after_task_closes : close_count (trace (snd after_task)) = 1%nat.
Proof.
  unfold LifecycleTerms.after_task, run_returns.
  destruct after_close as [u|e]; simpl snd.
  - rewrite close_count_log, after_handler_closes. reflexivity.
  - destruct (is_LoginFailure e); simpl snd;
      rewrite ?close_count_log, after_handler_closes; reflexivity.
Qed.

Lemma at_return_spec :
  step at_done_result = Some at_return
  /\ pc at_return = Finished verdict
  /\ closed at_return = true
  /\ close_count (trace (state at_return)) = 1%nat
  /\ done (state at_return) = done after_handler.
Proof.
  pose proof after_task_closes as Hc.
  pose proof after_task_done as Hd.
  unfold LifecycleTerms.at_return, LifecycleTerms.verdict,
    LifecycleTerms.at_done_result, Lifecycle.step.
  simpl pc. cbv iota. simpl state. rewrite Hd.
  destruct checks_result.
  - destruct (done after_handler) as [|[|]|x]; simpl;
      rewrite ?close_count_app, ?epilogue_never_closes, ?Nat.add_0_r;
      repeat split; assumption.
  - simpl. rewrite close_count_app, epilogue_never_closes, Nat.add_0_r.
    repeat split; assumption.
Qed.

Lemma ready_path_visited : visits (start w0) ready_path.
Proof.
  pose proof after_handler_resolved as Hres.
  destruct at_return_spec as (Hlast & _).
  unfold LifecycleTerms.ready_path, start. cbn [LifecycleTerms.visits].
  repeat split.
  - unfold Lifecycle.step; simpl. rewrite done_pending.
    unfold background; simpl. rewrite start_ready. reflexivity.
  - unfold Lifecycle.step; simpl. rewrite done_pending.
    unfold background; simpl. unfold LifecycleTerms.after_handler.
    destruct (on_ready (log [ClientStart token] w0)); reflexivity.
  - unfold Lifecycle.step; simpl.
    destruct (done after_handler); [contradiction | reflexivity..].
  - unfold Lifecycle.step; simpl. unfold background; simpl.
    unfold LifecycleTerms.after_task.
    destruct (run_returns after_close (log [ClientClose] after_handler));
      reflexivity.
  - exact Hlast.
Qed.

(** The run ends after eight steps of the loop with [verdict]; the
    client has been closed once by then, and never more than once on the
    way. *)
Lemma ready_run_closes_once :
  (forall n, (8 <= n)%nat ->
     returned (exec n (start w0)) = Some verdict
     /\ done (state (exec n (start w0))) = done after_handler)
  /\ (forall n,
        close_count (trace (state (exec n (start w0))))
        = if closed (exec n (start w0)) then 1%nat else 0%nat)
  /\ (forall n,
        returned (exec n (start w0)) <> None ->
        closed (exec n (start w0)) = true).
Proof.
  pose proof ready_path_visited as Hv.
  destruct at_return_spec as (_ & Hpc & Hcl & Hcnt & Hdone).
  split; [|split].
  - intros n Hn.
    rewrite (exec_visits_last _ _ n Hv) by exact Hn.
    unfold LifecycleTerms.ready_path; simpl last. unfold returned. rewrite Hpc.
    split; [reflexivity | exact Hdone].
  - intros n. pose proof (exec_visits _ _ n Hv) as Hin.
    unfold LifecycleTerms.ready_path in Hin. simpl in Hin.
    repeat (destruct Hin as [<- | Hin]); try contradiction;
      rewrite ?Hcl, ?Hcnt; unfold LifecycleTerms.at_done_result;
      cbn [state closed start];
      rewrite ?after_task_closes, ?close_count_log, ?after_handler_closes,
        ?not_closed_yet;
      reflexivity.
  - intros n. pose proof (exec_visits _ _ n Hv) as Hin.
    unfold LifecycleTerms.ready_path in Hin. simpl in Hin.
    repeat (destruct Hin as [<- | Hin]); simpl;
      try congruence; try contradiction.
Qed.

(** In terms of what [main] hands back: its result and the trace. *)
Lemma ready_run_closed_before_return :
  (forall n, (8 <= n)%nat -> returned (exec n (start w0)) = Some verdict)
  /\ (forall n, (close_count (trace (state (exec n (start w0)))) <= 1)%nat)
  /\ (forall n, returned (exec n (start w0)) <> None ->
                close_count (trace (state (exec n (start w0)))) = 1%nat).
Proof.
  destruct ready_run_closes_once as (Hret & Hcnt & Hcl).
  split; [|split].
  - intros n Hn. apply (Hret n Hn).
  - intros n. rewrite Hcnt. destruct (closed (exec n (start w0))); lia.
  - intros n Hn. rewrite Hcnt, (Hcl n Hn). reflexivity.
Qed.

(** The exit code follows the completion signal. *)
Lemma ready_run_outcome :
  checks_result = true ->
  forall n, (8 <= n)%nat ->
    returned (exec n (start w0))
    = Some (outcome_of (done (state (exec n (start w0))))).
Proof.
  intros Hc n Hn.
  destruct ready_run_closes_once as (Hret & _).
  destruct (Hret n Hn) as [-> ->]. unfold LifecycleTerms.verdict.
  rewrite Hc. reflexivity.
Qed.

End Ready.

(** *** A run in which the handler does not resolve [done] *)

Section Stalls.

Variable after_close : result unit.
Hypothesis start_ready : client_start cl token = StartReady after_close.

Variable w0 : world R.
Hypothesis done_pending : done w0 = Pending.

Local Abbreviation after_handler :=
  (LifecycleTerms.after_handler R on_ready token w0).
Local Abbreviation handler_stalled :=
  (LifecycleTerms.handler_stalled R on_ready token after_close w0).

Hypothesis handler_stalls : done after_handler = Pending.
Hypothesis handler_never_closes :
  close_count (trace after_handler)
  = close_count (trace (log [ClientStart token] w0)).

Lemma handler_stalls_path :
  visits (start w0)
         [ mkProc AtWaitDone Scheduled false false w0;
           mkProc AtWaitDone (Connected after_close) false false
                  (log [ClientStart token] w0);
           handler_stalled ].
Proof.
  unfold start, LifecycleTerms.handler_stalled. cbn [LifecycleTerms.visits].
  repeat split.
  - unfold Lifecycle.step; simpl. rewrite done_pending.
    unfold background; simpl. rewrite start_ready. reflexivity.
  - unfold Lifecycle.step; simpl. rewrite done_pending.
    unfold background; simpl. unfold LifecycleTerms.after_handler.
    destruct (on_ready (log [ClientStart token] w0)); reflexivity.
  - unfold Lifecycle.step; simpl. rewrite handler_stalls. reflexivity.
Qed.

(** [main] stays suspended on [asyncio.wait({done})]: it never returns
    and never reaches [client.close()]; after three steps nothing
    changes any more. *)
Lemma handler_stalls_hangs :
  (forall n,
     returned (exec n (start w0)) = None
     /\ closed (exec n (start w0)) = false
     /\ done (state (exec n (start w0))) = Pending
     /\ close_count (trace (state (exec n (start w0))))
        = close_count (trace w0))
  /\ (forall n, (3 <= n)%nat -> exec n (start w0) = handler_stalled).
Proof.
  pose proof handler_stalls_path as Hv. split.
  - intros n. pose proof (exec_visits _ _ n Hv) as Hin. simpl in Hin.
    assert (Hlog : close_count (trace (log [ClientStart token] w0))
                   = close_count (trace w0)).
    { rewrite close_count_log. change (close_count [ClientStart token])
        with 0%nat. lia. }
    repeat (destruct Hin as [<- | Hin]); try contradiction;
      cbn [returned closed state pc start LifecycleTerms.handler_stalled];
      rewrite ?handler_stalls, ?handler_never_closes, ?Hlog; auto.
  - intros n Hn. rewrite (exec_visits_last _ _ n Hv) by exact Hn. reflexivity.
Qed.

End Stalls.

(** *** A run in which [client.start] raises before the ready notification *)

Section StartFails.

Variable e : exn.
Hypothesis start_raises : client_start cl token = StartRaises e.

Variable w0 : world R.
Hypothesis done_pending : done w0 = Pending.

Local Abbreviation task_ended := (LifecycleTerms.task_ended R token w0 e).

Lemma start_fails_path :
  visits (start w0) [mkProc AtWaitDone Scheduled false false w0; task_ended].
Proof.
  unfold start, LifecycleTerms.task_ended. cbn [LifecycleTerms.visits].
  repeat split.
  - unfold Lifecycle.step; simpl. rewrite done_pending.
    unfold background; simpl. rewrite start_raises. unfold run_returns.
    destruct (is_LoginFailure e); reflexivity.
  - unfold run_returns. destruct (is_LoginFailure e);
      unfold Lifecycle.step; simpl; rewrite done_pending; reflexivity.
Qed.

(** [main] stays suspended on [asyncio.wait({done})]: it never returns,
    never reaches [client.close()], and [done] stays pending.  After two
    steps nothing changes any more, and the value [run()] returned sits
    unread in the finished task. *)
Lemma start_fails_hangs :
  (forall n,
     returned (exec n (start w0)) = None
     /\ closed (exec n (start w0)) = false
     /\ done (state (exec n (start w0))) = Pending
     /\ close_count (trace (state (exec n (start w0))))
        = close_count (trace w0))
  /\ (forall n, (2 <= n)%nat -> exec n (start w0) = task_ended).
Proof.
  pose proof start_fails_path as Hv. split.
  - intros n. pose proof (exec_visits _ _ n Hv) as Hin. simpl in Hin.
    assert (Hte : returned task_ended = None
                  /\ closed task_ended = false
                  /\ done (state task_ended) = Pending
                  /\ close_count (trace (state task_ended))
                     = close_count (trace w0)).
    { unfold LifecycleTerms.task_ended, run_returns.
      destruct (is_LoginFailure e); simpl;
        rewrite ?close_count_app; simpl; rewrite ?Nat.add_0_r;
        repeat split; auto. }
    repeat (destruct Hin as [<- | Hin]); simpl; auto; try contradiction.
  - intros n Hn. rewrite (exec_visits_last _ _ n Hv) by exact Hn. reflexivity.
Qed.

End StartFails.

End Generic.

End LifecycleFacts.

(** ** What a handler may do to the completion signal and the session *)

Module HandlerFacts.

Import HandlerTerms.

Section Frames.

Variable R : Type.

Local Abbreviation frame := (HandlerTerms.frame R).
Local Abbreviation settles := (HandlerTerms.settles R).

Lemma frame_ret {A} (a : A) : frame (ret a).
Proof. intros w r w' H. inversion H; subst. auto. Qed.

Lemma frame_raise {A} (e : exn) : frame (@raise (world R) A e).
Proof. intros w r w' H. inversion H; subst. auto. Qed.

Lemma frame_await {A} (x : result A) : frame (await x).
Proof. intros w r w' H. inversion H; subst. auto. Qed.

Lemma frame_update (f : R -> R) : frame (update f).
Proof. intros w r w' H. inversion H; subst. auto. Qed.

Lemma frame_emit (e : event) : is_ClientClose e = false -> frame (emit e).
Proof.
  intros He w r w' H. inversion H; subst. simpl. split; [reflexivity|].
  rewrite close_count_app. unfold close_count at 2. simpl. rewrite He.
  simpl. lia.
Qed.

Lemma frame_bind {A B} (m : M (world R) A) (k : A -> M (world R) B) :
  frame m -> (forall a, frame (k a)) -> frame (bind m k).
Proof.
  intros Hm Hk w r w' H. unfold bind in H.
  destruct (m w) as [[a|e] w1] eqn:E; destruct (Hm _ _ _ E) as [D C].
  - destruct (Hk a _ _ _ H) as [D' C']. split; congruence.
  - inversion H; subst. auto.
Qed.

Lemma frame_try_except {A} (m : M (world R) A) (h : exn -> M (world R) A) :
  frame m -> (forall e, frame (h e)) -> frame (try_except m h).
Proof.
  intros Hm Hh w r w' H. unfold try_except in H.
  destruct (m w) as [[a|e] w1] eqn:E; destruct (Hm _ _ _ E) as [D C].
  - inversion H; subst. auto.
  - destruct (Hh e _ _ _ H) as [D' C']. split; congruence.
Qed.

Lemma frame_if {A} (b : bool) (m1 m2 : M (world R) A) :
  frame m1 -> frame m2 -> frame (if b then m1 else m2).
Proof. destruct b; auto. Qed.

Lemma settles_raise {A} (e : exn) : settles (@raise (world R) A e).
Proof. intros w r w' P H. inversion H; subst. auto. Qed.

Lemma settles_set_result (v : bool) : settles (@set_result R v).
Proof.
  intros w r w' P H. unfold set_result in H. rewrite P in H.
  inversion H; subst. simpl. split; [reflexivity | discriminate].
Qed.

Lemma settles_bind {A B} (m : M (world R) A) (k : A -> M (world R) B) :
  frame m -> (forall a, settles (k a)) -> settles (bind m k).
Proof.
  intros Hm Hk w r w' P H. unfold bind in H.
  destruct (m w) as [[a|e] w1] eqn:E; destruct (Hm _ _ _ E) as [D C].
  - assert (P1 : done w1 = Pending) by congruence.
    destruct (Hk a _ _ _ P1 H) as [C' D']. split; [congruence | exact D'].
  - inversion H; subst. split; congruence.
Qed.

Lemma settles_if {A} (b : bool) (m1 m2 : M (world R) A) :
  settles m1 -> settles m2 -> settles (if b then m1 else m2).
Proof. destruct b; auto. Qed.

(** [try: body  except Exception as exc: done.set_exception(exc)] around
    a body that settles always leaves [done] resolved. *)
Lemma guarded_resolves (body : M (world R) unit) :
  settles body ->
  forall w, done w = Pending ->
    done (snd (try_except body set_exception w)) <> Pending
    /\ close_count (trace (snd (try_except body set_exception w)))
       = close_count (trace w).
Proof.
  intros Hb w P. unfold try_except.
  destruct (body w) as [[u|e] w1] eqn:E; destruct (Hb _ _ _ P E) as [C D].
  - simpl. auto.
  - unfold set_exception. rewrite D. simpl. split; [discriminate | exact C].
Qed.

End Frames.

Create HintDb handler.

#[global] Hint Resolve frame_ret frame_raise frame_await frame_update
  frame_bind frame_try_except frame_if settles_raise settles_set_result
  settles_bind settles_if : handler.
#[global] Hint Extern 1 (frame _ (emit _)) =>
  (apply frame_emit; reflexivity) : handler.

End HandlerFacts.

(** ** The DM purge *)

Module PurgeFacts.

Import Purge HandlerTerms HandlerFacts PurgeTerms.

Section Handler.

Variable cl : client.
Variable user_id : Z.
Variable sleep : float.

Local Abbreviation purge_message := (purge_message cl sleep).
Local Abbreviation purge_history := (purge_history cl sleep).
Local Abbreviation on_ready_body := (on_ready_body cl user_id sleep).
Local Abbreviation on_ready := (on_ready cl user_id sleep).
Local Abbreviation own := (PurgeTerms.own cl).
Local Abbreviation pause := (PurgeTerms.pause sleep).
Local Abbreviation after_pause := (PurgeTerms.after_pause sleep).
Local Abbreviation at_loop_start := (PurgeTerms.at_loop_start cl).

Lemma asyncio_sleep_frame : frame stats (asyncio_sleep (R := stats) sleep).
Proof. unfold asyncio_sleep. auto with handler. Qed.

Lemma purge_message_frame (m : message) : frame stats (purge_message m).
Proof.
  unfold Purge.purge_message.
  destruct (negb (msg_author_id m =? client_user_id cl)); auto with handler.
  apply frame_try_except.
  - repeat (apply frame_bind; [auto with handler | intros _]).
    destruct (PrimFloat.ltb 0 sleep);
      [apply asyncio_sleep_frame | auto with handler].
  - intros e. destruct (is_Forbidden e); [auto 8 with handler|].
    destruct (is_HTTPException e); auto 8 with handler.
Qed.

Lemma purge_history_frame (h : list message) (fin : stream_end) :
  frame stats (purge_history h fin).
Proof.
  induction h as [|m h IH]; simpl.
  - destruct fin; auto with handler.
  - apply frame_bind; [apply purge_message_frame|].
    intros [|]; [exact IH | auto with handler].
Qed.

(** With a pause that ends, the handler gets past every deletion. *)
Lemma after_pause_resumes :
  pause_ends sleep = true -> after_pause = Resumed.
Proof.
  unfold pause_ends, PurgeTerms.after_pause. intros H.
  apply negb_true_iff in H. rewrite H.
  destruct (PrimFloat.ltb 0 sleep); reflexivity.
Qed.

(** *** One message *)

Lemma purge_message_skips (m : message) (w : world stats) :
  own m = false -> purge_message m w = (Returns Resumed, w).
Proof.
  unfold PurgeTerms.own, Purge.purge_message. intros ->. reflexivity.
Qed.

Lemma purge_message_deletes (m : message) (w : world stats) :
  own m = true -> deletable m = true ->
  purge_message m w
  = (Returns after_pause,
     mkWorld (count_deleted (store w)) (done w)
             (trace w ++ MessageDelete m :: pause)).
Proof.
  unfold PurgeTerms.own, deletable, PurgeTerms.pause, PurgeTerms.after_pause,
    Purge.purge_message.
  intros -> Hd.
  destruct (msg_delete m) as [[]|e]; [|discriminate].
  unfold try_except, asyncio_sleep, bind, emit, modify, await, update, ret.
  simpl.
  destruct (PrimFloat.ltb 0 sleep); simpl;
    rewrite <- ?app_assoc; reflexivity.
Qed.

Lemma purge_message_counts_failure (m : message) (e : exn) (w : world stats) :
  own m = true -> msg_delete m = Raises e -> is_HTTPException e = true ->
  purge_message m w
  = (Returns Resumed,
     mkWorld (count_failed (store w)) (done w)
             (trace w ++ [MessageDelete m; Stderr (delete_diagnostic m e)])).
Proof.
  unfold PurgeTerms.own, delete_diagnostic, Purge.purge_message. intros -> E He.
  unfold try_except, bind, emit, modify, await, update, ret. simpl. rewrite E.
  destruct (is_Forbidden e); [|rewrite He]; simpl;
    rewrite <- app_assoc; reflexivity.
Qed.

Lemma purge_message_aborts (m : message) (e : exn) (w : world stats) :
  own m = true -> msg_delete m = Raises e -> is_HTTPException e = false ->
  purge_message m w
  = (Raises e, mkWorld (store w) (done w) (trace w ++ [MessageDelete m])).
Proof.
  unfold PurgeTerms.own, Purge.purge_message. intros -> E He.
  unfold try_except, bind, emit, modify, await, update. simpl. rewrite E.
  destruct e; try discriminate; reflexivity.
Qed.

(** *** The loop over the history *)

Lemma deletions_app (t u : list event) :
  deletions (t ++ u) = deletions t ++ deletions u.
Proof. apply flat_map_app. Qed.

Lemma deletions_pause : deletions pause = [].
Proof.
  unfold PurgeTerms.pause. destruct (PrimFloat.ltb 0 sleep); reflexivity.
Qed.

(** The loop over [pre ++ post] is the loop over [pre] followed, unless
    the handler is suspended on the way, by the loop over [post]: the
    state after [pre] is a state of the whole run. *)
Lemma purge_history_app (pre post : list message) (fin : stream_end) :
  forall w,
    purge_history (pre ++ post) fin w
    = bind (purge_history pre Exhausted)
           (fun woke =>
              match woke with
              | Resumed => purge_history post fin
              | Suspended => ret Suspended
              end) w.
Proof.
  induction pre as [|m pre IH]; intros w; simpl.
  - reflexivity.
  - unfold bind.
    destruct (purge_message m w) as [[[|]|e] w1];
      [rewrite IH; reflexivity | reflexivity | reflexivity].
Qed.

(** Whatever the deletions do, and however the loop ends: only own
    messages are deleted, in the order of the history, and the two
    counters add up to the number of deletions attempted, less one when
    the loop was left by a deletion that raised outside
    [HTTPException]. *)
Lemma purge_history_accounts (h : list message) (fin : stream_end) :
  forall w r w',
    purge_history h fin w = (r, w') ->
    done w' = done w
    /\ exists l k,
         deletions (trace w') = deletions (trace w) ++ l
         /\ incl l (filter own h)
         /\ deleted (store w') + failed (store w') + k
            = deleted (store w) + failed (store w) + Z.of_nat (List.length l)
         /\ (k = 0
             \/ (k = 1
                 /\ exists m e,
                      In m h /\ own m = true /\ msg_delete m = Raises e
                      /\ is_HTTPException e = false /\ r = Raises e)).
Proof.
  induction h as [|m h IH]; intros w r w' H; simpl in H.
  - split; [destruct fin; inversion H; reflexivity|].
    exists [], 0. rewrite app_nil_r.
    destruct fin; inversion H; subst; repeat split;
      try apply incl_nil_l; try (now left); simpl; lia.
  - unfold bind in H. simpl filter.
    destruct (own m) eqn:Ho.
    + destruct (msg_delete m) as [[]|e] eqn:E.
      * rewrite purge_message_deletes in H
          by (try assumption; unfold deletable; now rewrite E).
        destruct after_pause.
        -- destruct (IH _ _ _ H) as (D & l & k & Hl & Hi & Hc & Hk).
           simpl in *.
           split; [exact D|]. exists (m :: l), k.
           rewrite Hl, deletions_app. simpl. rewrite deletions_pause. simpl.
           rewrite <- app_assoc. split; [reflexivity|]. split; [|split].
           ++ apply incl_cons; [now left | now apply incl_tl].
           ++ simpl List.length. lia.
           ++ destruct Hk as [Hk | (Hk & x & e & Hin & Hx)];
                [now left | right].
              split; [exact Hk|]. exists x, e. split; [now right | exact Hx].
        -- inversion H; subst. simpl. split; [reflexivity|].
           exists [m], 0. rewrite deletions_app. simpl.
           rewrite deletions_pause. split; [reflexivity|]. split; [|split].
           ++ apply incl_cons; [now left | apply incl_nil_l].
           ++ simpl. lia.
           ++ now left.
      * destruct (is_HTTPException e) eqn:He.
        -- rewrite (purge_message_counts_failure m e) in H by assumption.
           destruct (IH _ _ _ H) as (D & l & k & Hl & Hi & Hc & Hk).
           simpl in *.
           split; [exact D|]. exists (m :: l), k.
           rewrite Hl, deletions_app. simpl.
           rewrite <- app_assoc. split; [reflexivity|]. split; [|split].
           ++ apply incl_cons; [now left | now apply incl_tl].
           ++ simpl List.length. lia.
           ++ destruct Hk as [Hk | (Hk & x & e' & Hin & Hx)];
                [now left | right].
              split; [exact Hk|]. exists x, e'. split; [now right | exact Hx].
        -- rewrite (purge_message_aborts m e) in H by assumption.
           inversion H; subst. simpl. split; [reflexivity|].
           exists [m], 1. rewrite deletions_app. simpl.
           split; [reflexivity|]. split; [|split].
           ++ apply incl_cons; [now left | apply incl_nil_l].
           ++ lia.
           ++ right. split; [reflexivity|]. exists m, e.
              repeat split; try assumption. now left.
    + rewrite purge_message_skips in H by assumption.
      destruct (IH _ _ _ H) as (D & l & k & Hl & Hi & Hc & Hk).
      split; [exact D|]. exists l, k. repeat split; try assumption.
      destruct Hk as [Hk | (Hk & x & e & Hin & Hx)]; [now left | right].
      split; [exact Hk|]. exists x, e. split; [now right | exact Hx].
Qed.

(** The loop only adds to the deletions attempted before it. *)
Lemma purge_history_extends (h : list message) (fin : stream_end)
  (w : world stats) :
  exists l,
    deletions (trace (snd (purge_history h fin w)))
    = deletions (trace w) ++ l.
Proof.
  destruct (purge_history h fin w) as [r w'] eqn:E.
  destruct (purge_history_accounts _ _ _ _ _ E) as (_ & l & _ & Hl & _).
  exists l. exact Hl.
Qed.

(** With a pause that ends the loop is never left suspended. *)
Lemma purge_history_resumes (h : list message) (fin : stream_end) :
  pause_ends sleep = true ->
  forall w v w', purge_history h fin w = (Returns v, w') -> v = Resumed.
Proof.
  intros Hp. induction h as [|m h IH]; intros w v w' H; simpl in H.
  - destruct fin; inversion H; reflexivity.
  - unfold bind in H.
    destruct (own m) eqn:Ho.
    + destruct (msg_delete m) as [[]|e] eqn:E.
      * rewrite purge_message_deletes in H
          by (try assumption; unfold deletable; now rewrite E).
        rewrite (after_pause_resumes Hp) in H. exact (IH _ _ _ H).
      * destruct (is_HTTPException e) eqn:He.
        -- rewrite (purge_message_counts_failure m e) in H by assumption.
           exact (IH _ _ _ H).
        -- rewrite (purge_message_aborts m e) in H by assumption.
           discriminate.
    + rewrite purge_message_skips in H by assumption. exact (IH _ _ _ H).
Qed.

(** When no deletion raises outside [HTTPException] and the pause ends
    the loop runs to the end of the stream: every own message is
    attempted once, in order, and counted once. *)
Lemma purge_history_contained (h : list message) :
  pause_ends sleep = true ->
  forallb (fun m => implb (own m) (contained m)) h = true ->
  forall w, exists w',
    purge_history h Exhausted w = (Returns Resumed, w')
    /\ done w' = done w
    /\ close_count (trace w') = close_count (trace w)
    /\ deletions (trace w') = deletions (trace w) ++ filter own h
    /\ deleted (store w')
       = deleted (store w)
         + Z.of_nat (List.length (filter deletable (filter own h)))
    /\ failed (store w')
       = failed (store w)
         + Z.of_nat (List.length
                       (filter (fun m => negb (deletable m)) (filter own h))).
Proof.
  intros Hp.
  induction h as [|m h IH]; intros Hall w.
  - exists w. simpl. rewrite app_nil_r. repeat split; lia.
  - simpl in Hall. apply andb_true_iff in Hall. destruct Hall as [Hm Hall].
    cbn [Purge.purge_history]. unfold bind. cbn [filter].
    destruct (own m) eqn:Ho; cbn [implb] in Hm.
    + unfold contained in Hm.
      destruct (msg_delete m) as [[]|e] eqn:E.
      * assert (Hdel : deletable m = true)
          by (unfold deletable; now rewrite E).
        rewrite purge_message_deletes by assumption.
        rewrite (after_pause_resumes Hp).
        destruct (IH Hall
                    (mkWorld (count_deleted (store w)) (done w)
                             (trace w ++ MessageDelete m :: pause)))
          as (w' & Hrun & D & C & Hl & Hd & Hf).
        exists w'. cbn [store done trace count_deleted deleted failed] in *.
        rewrite Hrun, D, C, Hl, Hd, Hf.
        rewrite deletions_app, close_count_app.
        cbn [filter]. rewrite Hdel. cbn [negb List.length].
        replace (deletions (MessageDelete m :: pause)) with [m]
          by (change ([m] = [m] ++ deletions pause);
              now rewrite deletions_pause).
        replace (close_count (MessageDelete m :: pause)) with 0%nat
          by (unfold PurgeTerms.pause; destruct (PrimFloat.ltb 0 sleep);
              reflexivity).
        rewrite <- app_assoc, Nat2Z.inj_succ. cbn [app].
        repeat split; lia.
      * assert (Hdel : deletable m = false)
          by (unfold deletable; now rewrite E).
        rewrite (purge_message_counts_failure m e) by assumption.
        destruct (IH Hall
                    (mkWorld (count_failed (store w)) (done w)
                       (trace w
                        ++ [MessageDelete m;
                            Stderr (delete_diagnostic m e)])))
          as (w' & Hrun & D & C & Hl & Hd & Hf).
        exists w'. cbn [store done trace count_failed deleted failed] in *.
        rewrite Hrun, D, C, Hl, Hd, Hf.
        rewrite deletions_app, close_count_app.
        cbn [filter]. rewrite Hdel. cbn [negb List.length].
        change (deletions [MessageDelete m; Stderr (delete_diagnostic m e)])
          with [m].
        change (close_count [MessageDelete m; Stderr (delete_diagnostic m e)])
          with 0%nat.
        rewrite <- app_assoc, Nat2Z.inj_succ. cbn [app].
        repeat split; lia.
    + rewrite purge_message_skips by assumption. apply IH. exact Hall.
Qed.

(** The first own message after messages of other authors is handed to
    [delete], whatever happens then. *)
Lemma purge_history_attempts_next
  (skipped rest : list message) (next : message) (fin : stream_end)
  (w : world stats) :
  forallb (fun x => negb (own x)) skipped = true ->
  own next = true ->
  In next (deletions (trace (snd (purge_history (skipped ++ next :: rest)
                                                fin w)))).
Proof.
  intros Hs Hn. induction skipped as [|x skipped IH].
  - cbn [app Purge.purge_history]. unfold bind.
    assert (Hfirst : exists woke w1 t,
               purge_message next w = (woke, w1)
               /\ deletions (trace w1) = deletions (trace w) ++ next :: t).
    { destruct (msg_delete next) as [[]|e] eqn:E.
      - eexists _, _, _. split.
        + apply purge_message_deletes;
            [exact Hn | unfold deletable; now rewrite E].
        + cbn [trace]. rewrite deletions_app. cbn [deletions flat_map app].
          reflexivity.
      - destruct (is_HTTPException e) eqn:He.
        + eexists _, _, _. split.
          * apply (purge_message_counts_failure next e); assumption.
          * cbn [trace]. rewrite deletions_app. reflexivity.
        + eexists _, _, _. split.
          * apply (purge_message_aborts next e); assumption.
          * cbn [trace]. rewrite deletions_app. reflexivity. }
    destruct Hfirst as (woke & w1 & t & Hrun & Ht). rewrite Hrun.
    assert (Hin : In next (deletions (trace w1)))
      by (rewrite Ht; apply in_or_app; right; now left).
    destruct woke as [[|]|e]; cbn [snd]; try exact Hin.
    destruct (purge_history_extends rest fin w1) as (l & Hl).
    rewrite Hl. apply in_or_app. now left.
  - cbn [forallb] in Hs. apply andb_true_iff in Hs. destruct Hs as [Hx Hs].
    apply negb_true_iff in Hx.
    cbn [app Purge.purge_history]. unfold bind.
    rewrite purge_message_skips by exact Hx. exact (IH Hs).
Qed.

(** *** The handler as a whole *)

(** Once the set-up steps have succeeded the handler is the loop
    followed by what [settled] makes of its outcome. *)
Lemma on_ready_after_loop (u : user) (dm : dm_channel) (w : world stats) :
  client_fetch_user cl user_id = Returns u ->
  user_create_dm u = Returns dm ->
  chan_is_DMChannel dm = true ->
  done w = Pending ->
  on_ready w
  = (Returns tt,
     mkWorld
       (store (snd (purge_history (chan_history dm) (chan_history_end dm)
                                  (at_loop_start dm w))))
       (settled (fst (purge_history (chan_history dm) (chan_history_end dm)
                                    (at_loop_start dm w))))
       (trace (snd (purge_history (chan_history dm) (chan_history_end dm)
                                  (at_loop_start dm w))))).
Proof.
  intros Hu Hdm Hk P.
  unfold Purge.on_ready, Purge.on_ready_body. rewrite Hu, Hdm, Hk.
  unfold PurgeTerms.at_loop_start, try_except, bind, emit, modify. simpl.
  rewrite <- app_assoc. cbn [app].
  destruct (purge_history (chan_history dm) (chan_history_end dm) _)
    as [r w1] eqn:E.
  destruct (purge_history_frame _ _ _ _ _ E) as [D _]. cbn [done] in D.
  rewrite P in D.
  destruct r as [[|]|e]; cbn [fst snd settled].
  - unfold set_result, ret. rewrite D. reflexivity.
  - unfold ret. destruct w1 as [s d t]. cbn in D. subst d. reflexivity.
  - unfold set_exception, ret. rewrite D. reflexivity.
Qed.

(** With the setup steps succeeding, the stream ending normally, a
    pause that ends and no deletion raising outside [HTTPException],
    the handler resolves [done] with [True]; the counters are the
    numbers of own messages whose deletion returned and raised. *)
Lemma on_ready_completes (u : user) (dm : dm_channel) (w : world stats) :
  pause_ends sleep = true ->
  client_fetch_user cl user_id = Returns u ->
  user_create_dm u = Returns dm ->
  chan_is_DMChannel dm = true ->
  chan_history_end dm = Exhausted ->
  forallb (fun m => implb (own m) (contained m)) (chan_history dm) = true ->
  done w = Pending ->
  exists w_loop,
    purge_history (chan_history dm) Exhausted (at_loop_start dm w)
    = (Returns Resumed, w_loop)
    /\ on_ready w
       = (Returns tt, mkWorld (store w_loop) (Resolved true) (trace w_loop))
    /\ deletions (trace w_loop)
       = deletions (trace w) ++ filter own (chan_history dm)
    /\ deleted (store w_loop)
       = deleted (store w)
         + Z.of_nat (List.length
                       (filter deletable (filter own (chan_history dm))))
    /\ failed (store w_loop)
       = failed (store w)
         + Z.of_nat (List.length
                       (filter (fun m => negb (deletable m))
                               (filter own (chan_history dm)))).
Proof.
  intros Hp Hu Hdm Hk Hend Hall P.
  destruct (purge_history_contained _ Hp Hall (at_loop_start dm w))
    as (w' & Hrun & D & _ & Hl & Hd & Hf).
  exists w'. split; [exact Hrun|].
  rewrite (on_ready_after_loop u dm w Hu Hdm Hk P), Hend, Hrun.
  cbn [fst snd settled].
  rewrite Hl, Hd, Hf. cbn [PurgeTerms.at_loop_start store trace].
  rewrite deletions_app. cbn [deletions flat_map app].
  rewrite app_nil_r. repeat split; reflexivity.
Qed.

(** The body of the handler leaves [done] resolved when it comes to its
    end and pending when it raises or is left suspended; it does not
    close the client. *)
Lemma purge_body_outcome (w : world stats) (r : result wake)
  (w' : world stats) :
  done w = Pending ->
  on_ready_body w = (r, w') ->
  close_count (trace w') = close_count (trace w)
  /\ match r with
     | Returns Resumed => done w' <> Pending
     | _ => done w' = Pending
     end.
Proof.
  intros P. unfold Purge.on_ready_body.
  assert (Hfail : forall d,
            (emit (Stderr d) ;; set_result false ;; ret Resumed) w = (r, w') ->
            close_count (trace w') = close_count (trace w)
            /\ match r with
               | Returns Resumed => done w' <> Pending
               | _ => done w' = Pending
               end).
  { intros d. unfold bind, emit, modify, set_result, ret. cbn. rewrite P.
    intros H; inversion H; subst r w'. cbn [trace done].
    rewrite close_count_app. split; [cbn; lia | discriminate]. }
  destruct (client_fetch_user cl user_id) as [u|e].
  - destruct (user_create_dm u) as [dm|e].
    + destruct (negb (chan_is_DMChannel dm)); [apply Hfail|].
      unfold bind at 1. unfold emit at 1, modify at 1.
      set (w1 := mkWorld (store w) (done w)
                   (trace w ++ [Stdout (DMChannelFound (chan_id dm))])).
      unfold bind.
      destruct (purge_history (chan_history dm) (chan_history_end dm) w1)
        as [r2 w2] eqn:E.
      destruct (purge_history_frame _ _ _ _ _ E) as [D C].
      subst w1. cbn [done trace] in D, C. rewrite P in D.
      rewrite close_count_app in C.
      change (close_count [Stdout (DMChannelFound (chan_id dm))])
        with 0%nat in C.
      rewrite Nat.add_0_r in C.
      destruct r2 as [[|]|e].
      * unfold set_result, ret. rewrite D.
        intros H; inversion H; subst r w'. cbn [trace done].
        split; [exact C | discriminate].
      * unfold ret. intros H; inversion H; subst r w'. split; assumption.
      * intros H; inversion H; subst r w'. split; assumption.
    + destruct (is_HTTPException e); [apply Hfail|].
      unfold raise. intros H; inversion H; subst r w'.
      split; [reflexivity | exact P].
  - destruct (is_NotFound e); [apply Hfail|].
    destruct (is_HTTPException e); [apply Hfail|].
    unfold raise. intros H; inversion H; subst r w'.
    split; [reflexivity | exact P].
Qed.

(** The handler never closes the client. *)
Lemma purge_handler_never_closes (w : world stats) :
  done w = Pending ->
  close_count (trace (snd (on_ready w))) = close_count (trace w).
Proof.
  intros P. unfold Purge.on_ready, bind, emit, modify, try_except.
  set (w1 := mkWorld (store w) (done w)
               (trace w ++ [Stdout (LoggedIn (client_user_id cl))])).
  destruct (on_ready_body w1) as [r w2] eqn:E.
  destruct (purge_body_outcome w1 r w2 P E) as [C D].
  assert (C1 : close_count (trace w1) = close_count (trace w)).
  { subst w1. cbn [trace]. rewrite close_count_app.
    change (close_count [Stdout (LoggedIn (client_user_id cl))]) with 0%nat.
    lia. }
  destruct r as [v|e].
  - unfold ret. cbn [snd]. congruence.
  - unfold set_exception, ret. rewrite D. cbn [snd trace]. congruence.
Qed.

(** With a pause that ends the handler resolves the completion signal,
    however it ends. *)
Lemma purge_body_resumes (w : world stats) (v : wake) (w' : world stats) :
  pause_ends sleep = true ->
  on_ready_body w = (Returns v, w') -> v = Resumed.
Proof.
  intros Hp. unfold Purge.on_ready_body.
  assert (Hfail : forall d,
            (emit (Stderr d) ;; set_result false ;; ret Resumed) w
            = (Returns v, w') -> v = Resumed).
  { intros d. unfold bind, emit, modify, set_result, ret. cbn.
    destruct (done w); intros H; inversion H; reflexivity. }
  destruct (client_fetch_user cl user_id) as [u|e].
  - destruct (user_create_dm u) as [dm|e].
    + destruct (negb (chan_is_DMChannel dm)); [apply Hfail|].
      unfold bind at 1. unfold emit at 1, modify at 1. unfold bind.
      destruct (purge_history (chan_history dm) (chan_history_end dm) _)
        as [r w2] eqn:E.
      destruct r as [x|e]; [|discriminate].
      rewrite (purge_history_resumes _ _ Hp _ _ _ E).
      unfold set_result, ret. destruct (done w2); intros H; inversion H;
        reflexivity.
    + destruct (is_HTTPException e); [apply Hfail | discriminate].
  - destruct (is_NotFound e); [apply Hfail|].
    destruct (is_HTTPException e); [apply Hfail | discriminate].
Qed.

Lemma purge_handler_resolves (w : world stats) :
  pause_ends sleep = true ->
  done w = Pending -> done (snd (on_ready w)) <> Pending.
Proof.
  intros Hp P. unfold Purge.on_ready, bind, emit, modify, try_except.
  set (w1 := mkWorld (store w) (done w)
               (trace w ++ [Stdout (LoggedIn (client_user_id cl))])).
  destruct (on_ready_body w1) as [r w2] eqn:E.
  destruct (purge_body_outcome w1 r w2 P E) as [_ D].
  destruct r as [v|e].
  - rewrite (purge_body_resumes w1 v w2 Hp E) in D. exact D.
  - unfold set_exception, ret. rewrite D. cbn [snd done]. discriminate.
Qed.

(** C3 (as amended).  In the purge loop a message whose deletion raises
    [Forbidden] or another [HTTPException] adds exactly one to [failed]
    (and nothing to [deleted]), a diagnostic naming the message is
    written to standard error, and the loop goes on with the messages
    after it: the next own message is handed to [delete], and once the
    stream is exhausted [done] is resolved with [True].  The stream is
    exhausted, with every own message after the failed one handed to
    [delete], whenever no other deletion raises outside [HTTPException]
    and the pause between deletions ends. *)
Theorem failed_deletion_is_contained
  (u : user) (dm : dm_channel) (pre post : list message) (m : message)
  (e : exn) (w : world stats) :
  client_fetch_user cl user_id = Returns u ->
  user_create_dm u = Returns dm ->
  chan_is_DMChannel dm = true ->
  chan_history dm = pre ++ m :: post ->
  own m = true ->
  msg_delete m = Raises e ->
  is_HTTPException e = true ->
  done w = Pending ->
  (forall w_before,
     purge_history pre Exhausted (at_loop_start dm w)
     = (Returns Resumed, w_before) ->
     exists w_after,
       purge_message m w_before = (Returns Resumed, w_after)
       /\ failed (store w_after) = failed (store w_before) + 1
       /\ deleted (store w_after) = deleted (store w_before)
       /\ trace w_after
          = trace w_before
            ++ [MessageDelete m; Stderr (delete_diagnostic m e)]
       /\ purge_history (chan_history dm) (chan_history_end dm)
                        (at_loop_start dm w)
          = purge_history post (chan_history_end dm) w_after
       /\ (forall skipped next rest,
             post = skipped ++ next :: rest ->
             forallb (fun x => negb (own x)) skipped = true ->
             own next = true ->
             In next (deletions (trace (snd (on_ready w)))))
       /\ (forall w_loop,
             purge_history post (chan_history_end dm) w_after
             = (Returns Resumed, w_loop) ->
             on_ready w
             = (Returns tt,
                mkWorld (store w_loop) (Resolved true) (trace w_loop))))
  /\ (pause_ends sleep = true ->
      chan_history_end dm = Exhausted ->
      forallb (fun x => implb (own x) (contained x)) (pre ++ post) = true ->
      exists w_before w_after w_loop,
        purge_history pre Exhausted (at_loop_start dm w)
        = (Returns Resumed, w_before)
        /\ purge_message m w_before = (Returns Resumed, w_after)
        /\ purge_history post Exhausted w_after = (Returns Resumed, w_loop)
        /\ deletions (trace w_loop)
           = deletions (trace w_after) ++ filter own post
        /\ on_ready w
           = (Returns tt,
              mkWorld (store w_loop) (Resolved true) (trace w_loop))).
Proof.
  intros Hu Hdm Hk Hh Ho He Hhttp P.
  assert (Hgo : forall w1 w2 fin,
            purge_history pre Exhausted (at_loop_start dm w)
            = (Returns Resumed, w1) ->
            purge_message m w1 = (Returns Resumed, w2) ->
            purge_history (pre ++ m :: post) fin (at_loop_start dm w)
            = purge_history post fin w2).
  { intros w1 w2 fin H1 H2. rewrite purge_history_app. unfold bind at 1.
    rewrite H1. cbn [Purge.purge_history]. unfold bind at 1. rewrite H2.
    reflexivity. }
  split.
  - intros w_before Hpre.
    pose proof (purge_message_counts_failure m e w_before Ho He Hhttp) as Hm.
    eexists. split; [exact Hm|]. cbn [store trace count_failed failed deleted].
    split; [reflexivity|]. split; [reflexivity|]. split; [reflexivity|].
    assert (Heq : purge_history (chan_history dm) (chan_history_end dm)
                                (at_loop_start dm w)
                  = purge_history post (chan_history_end dm)
                      (mkWorld (count_failed (store w_before)) (done w_before)
                         (trace w_before
                          ++ [MessageDelete m;
                              Stderr (delete_diagnostic m e)])))
      by (rewrite Hh; exact (Hgo _ _ _ Hpre Hm)).
    split; [exact Heq|]. split.
    + intros skipped next rest Hpost Hs Hn.
      rewrite (on_ready_after_loop u dm w Hu Hdm Hk P). cbn [snd trace].
      rewrite Heq, Hpost. apply purge_history_attempts_next; assumption.
    + intros w_loop Hend.
      rewrite (on_ready_after_loop u dm w Hu Hdm Hk P), Heq, Hend.
      reflexivity.
  - intros Hp Hend Hall.
    rewrite forallb_app in Hall. apply andb_true_iff in Hall.
    destruct Hall as [Hpre Hpost].
    destruct (purge_history_contained _ Hp Hpre (at_loop_start dm w))
      as (w1 & Hrun1 & D1 & _).
    pose proof (purge_message_counts_failure m e w1 Ho He Hhttp) as Hm.
    set (w2 := mkWorld (count_failed (store w1)) (done w1)
                 (trace w1
                  ++ [MessageDelete m; Stderr (delete_diagnostic m e)]))
      in Hm.
    destruct (purge_history_contained _ Hp Hpost w2)
      as (w3 & Hrun3 & D3 & _ & Hl3 & _).
    exists w1, w2, w3.
    split; [exact Hrun1|]. split; [exact Hm|]. split; [exact Hrun3|].
    split; [exact Hl3|].
    rewrite (on_ready_after_loop u dm w Hu Hdm Hk P), Hh, Hend.
    rewrite (Hgo _ _ Exhausted Hrun1 Hm), Hrun3. reflexivity.
Qed.


End Handler.

Import Samples MoreSamples.

(** C3 as stated fails.  A deletion that raises a transport error
    outside [HTTPException] is not counted as failed, and the message
    after it is not handed to [delete]. *)
Lemma transport_error_counterexample :
  ~ (forall (cl : client) (sleep : float) (m : message) (e : exn)
            (w : world stats),
       own cl m = true ->
       msg_delete m = Raises e ->
       failed (store (snd (Purge.purge_message cl sleep m w)))
       = failed (store w) + 1)
  /\ ~ (forall (cl : client) (sleep : float) (m next : message) (e : exn)
               (w : world stats),
          own cl m = true ->
          own cl next = true ->
          msg_delete m = Raises e ->
          In next
             (deletions
                (trace (snd (Purge.purge_history cl sleep [m; next]
                                                 Exhausted w))))).
Proof.
  split.
  - intros H.
    specialize (H unreachable_bot 0.5%float
                  (own_message 501 (Raises connection_error))
                  connection_error fresh_stats eq_refl eq_refl).
    vm_compute in H. discriminate H.
  - intros H.
    specialize (H unreachable_bot 0.5%float
                  (own_message 501 (Raises connection_error))
                  (own_message 502 (Returns tt))
                  connection_error fresh_stats eq_refl eq_refl eq_refl).
    vm_compute in H. destruct H as [H | []]. discriminate H.
Qed.


Lemma failed_deletion_is_contained_witness :
  (client_fetch_user bot 7 = Returns (partner history)
   /\ user_create_dm (partner history) = Returns (dm history)
   /\ chan_is_DMChannel (dm history) = true
   /\ chan_history (dm history)
      = [own_message 101 (Returns tt); partner_message 102]
        ++ own_message 103 (Raises Forbidden)
           :: [own_message 104 (Returns tt)]
   /\ own bot (own_message 103 (Raises Forbidden)) = true
   /\ msg_delete (own_message 103 (Raises Forbidden)) = Raises Forbidden
   /\ is_HTTPException Forbidden = true
   /\ done fresh_stats = Pending)
  /\ (exists w_before w_after,
        Purge.purge_history bot 0.5%float
          [own_message 101 (Returns tt); partner_message 102] Exhausted
          (at_loop_start bot (dm history) fresh_stats)
        = (Returns Resumed, w_before)
        /\ Purge.purge_message bot 0.5%float
             (own_message 103 (Raises Forbidden)) w_before
           = (Returns Resumed, w_after)
        /\ failed (store w_after) = failed (store w_before) + 1
        /\ deleted (store w_after) = deleted (store w_before)
        /\ In (own_message 104 (Returns tt))
              (deletions
                 (trace (snd (Purge.on_ready bot 7 0.5%float fresh_stats)))))
  /\ (exists w_loop,
        Purge.on_ready bot 7 0.5%float fresh_stats
        = (Returns tt, mkWorld (store w_loop) (Resolved true) (trace w_loop))).
Proof.
  split; [repeat split|].
  destruct (failed_deletion_is_contained bot 7 0.5%float (partner history)
              (dm history)
              [own_message 101 (Returns tt); partner_message 102]
              [own_message 104 (Returns tt)]
              (own_message 103 (Raises Forbidden)) Forbidden fresh_stats
              eq_refl eq_refl eq_refl eq_refl eq_refl eq_refl eq_refl eq_refl)
    as [Hlocal Hwhole].
  split.
  - destruct (Hlocal
                (snd (Purge.purge_history bot 0.5%float
                        [own_message 101 (Returns tt); partner_message 102]
                        Exhausted
                        (at_loop_start bot (dm history) fresh_stats)))
                eq_refl)
      as (w_after & Hm & Hf & Hd & _ & _ & Hnext & _).
    eexists _, w_after. split; [reflexivity|].
    split; [exact Hm|]. split; [exact Hf|]. split; [exact Hd|].
    apply (Hnext [] (own_message 104 (Returns tt)) []); reflexivity.
  - destruct (Hwhole eq_refl eq_refl eq_refl)
      as (w_before & w_after & w_loop & _ & _ & _ & _ & Hrun).
    exists w_loop. exact Hrun.
Defined.


End PurgeFacts.

(** ** The invite engine *)

Module InvitesFacts.

Import Invites HandlerTerms HandlerFacts InvitesTerms.

(** *** The expiry of an invite *)

Lemma expiry_some (inv : invite) (age : Z) (created : Datetime.datetime) :
  inv_max_age inv = Some age ->
  inv_created_at inv = Some created ->
  0 < age ->
  0 <= created ->
  created + age * 1000000 <= Datetime.datetime_max ->
  expiry inv = Some (created + age * 1000000).
Proof.
  intros Ha Hc Hpos Hvalid Hfits. unfold expiry. rewrite Ha, Hc.
  unfold truthy_int.
  destruct (Z.eqb_spec age 0) as [|_]; [lia|].
  destruct (Z.ltb_spec 0 age) as [_|]; [|lia]. cbn [negb andb].
  unfold Datetime.timedelta_seconds, Datetime.timedelta_max_days.
  unfold Datetime.datetime_max in Hfits.
  assert (Hdays : 0 <= age / 86400 <= 999999999).
  { split; [apply Z.div_pos; lia | apply Z.div_le_upper_bound; lia]. }
  rewrite Z.abs_eq by lia.
  destruct (Z.leb_spec (age / 86400) 999999999) as [_|]; [|lia].
  unfold Datetime.add, Datetime.datetime_max. cbv zeta.
  destruct (Z.leb_spec 0 (created + age * 1000000)) as [_|]; [|lia].
  destruct (Z.leb_spec (created + age * 1000000)
                       (3652059 * 86400 * 1000000 - 1)) as [_|]; [|lia].
  reflexivity.
Qed.

Lemma expiry_none (inv : invite) :
  inv_max_age inv = None
  \/ (exists age, inv_max_age inv = Some age /\ age <= 0)
  \/ inv_created_at inv = None
  \/ (exists age created,
        inv_max_age inv = Some age /\ inv_created_at inv = Some created
        /\ Datetime.datetime_max < created + age * 1000000) ->
  expiry inv = None.
Proof.
  unfold expiry.
  intros [Ha | [(age & Ha & Hle) | [Hc | (age & created & Ha & Hc & Hover)]]].
  - rewrite Ha. reflexivity.
  - rewrite Ha. destruct (inv_created_at inv); [|reflexivity].
    destruct (Z.ltb_spec 0 age) as [|_]; [lia|].
    now rewrite andb_false_r.
  - rewrite Hc. destruct (inv_max_age inv); reflexivity.
  - rewrite Ha, Hc.
    destruct (truthy_int (Some age) && (0 <? age)); [|reflexivity].
    destruct (Datetime.timedelta_seconds age) as [td|e] eqn:E;
      [|reflexivity].
    unfold Datetime.timedelta_seconds in E.
    destruct (Z.abs (age / 86400) <=? Datetime.timedelta_max_days);
      [|discriminate].
    inversion E; subst td. unfold Datetime.add. cbv zeta.
    destruct (Z.leb_spec (created + age * 1000000) Datetime.datetime_max)
      as [|_]; [lia|].
    now rewrite andb_false_r.
Qed.

(** C9 (as amended).  The derived expiry of a record is
    [createdAt + maxAgeSeconds] whenever [maxAgeSeconds > 0], the invite
    has a creation time and the sum is still a [datetime] (not past the
    year 9999); in every other case it is none: no maximum age, a maximum
    age of zero or less, no creation time, or a sum out of range. *)
Theorem expiry_is_creation_plus_max_age
  (isoformat : Datetime.datetime -> string) (inv : invite) :
  (forall age created,
     inv_max_age inv = Some age ->
     inv_created_at inv = Some created ->
     0 < age ->
     0 <= created ->
     created + age * 1000000 <= Datetime.datetime_max ->
     expires_at (invite_record isoformat inv)
     = Some (isoformat (created + age * 1000000)))
  /\ (inv_max_age inv = None
      \/ (exists age, inv_max_age inv = Some age /\ age <= 0)
      \/ inv_created_at inv = None
      \/ (exists age created,
            inv_max_age inv = Some age /\ inv_created_at inv = Some created
            /\ Datetime.datetime_max < created + age * 1000000) ->
      expires_at (invite_record isoformat inv) = None).
Proof.
  split.
  - intros age created Ha Hc Hpos Hvalid Hfits. cbn [invite_record expires_at].
    now rewrite (expiry_some inv age created).
  - intros H. cbn [invite_record expires_at]. now rewrite expiry_none.
Qed.

(** *** Channel resolution *)

Lemma precedes_not_after (ch c : channel) :
  SortTerms.precedes position_key PySort.lt_int_pair ch c ->
  not_after ch c.
Proof.
  unfold SortTerms.precedes, PySort.lt_int_pair, position_key, not_after.
  simpl.
  destruct (Z.ltb_spec (ch_position c) (ch_position ch)),
    (Z.eqb_spec (ch_position c) (ch_position ch)),
    (Z.ltb_spec (ch_id c) (ch_id ch));
    simpl; intros; try discriminate; lia.
Qed.

(** C6 (as amended).  (1) An explicit, non-zero channel ID decides
    alone: the channel from the cache, else the fetched channel, and no
    channel at all when the fetch fails with [NotFound], [Forbidden] or
    another [HTTPException]; there is no fallback from an explicit ID.
    Without an explicit ID (absent or 0): (2) the system channel if set;
    else (3) a text channel of lowest position, ties broken by lowest
    ID; else (4) the first guild channel with a [create_invite]
    attribute, if any.  With two text channels at positions 3 and 1 the
    one at position 1 is chosen. *)
Theorem channel_resolution_order (g : guild) (preferred_id : option Z) :
  (forall id,
     preferred_id = Some id -> id <> 0 ->
     (forall ch, guild_get_channel g id = Some ch ->
        choose_channel_for_invite g preferred_id = Returns (Some ch))
     /\ (guild_get_channel g id = None ->
         forall ch, guild_fetch_channel g id = Returns ch ->
           choose_channel_for_invite g preferred_id = Returns (Some ch))
     /\ (guild_get_channel g id = None ->
         forall e, guild_fetch_channel g id = Raises e ->
           is_HTTPException e = true ->
           choose_channel_for_invite g preferred_id = Returns None))
  /\ (preferred_id = None \/ preferred_id = Some 0 ->
      (forall ch, guild_system_channel g = Some ch ->
         choose_channel_for_invite g preferred_id = Returns (Some ch))
      /\ (guild_system_channel g = None ->
          guild_text_channels g <> [] ->
          exists ch,
            choose_channel_for_invite g preferred_id = Returns (Some ch)
            /\ In ch (guild_text_channels g)
            /\ forall c, In c (guild_text_channels g) -> not_after ch c)
      /\ (guild_system_channel g = None ->
          guild_text_channels g = [] ->
          choose_channel_for_invite g preferred_id
          = Returns (find has_create_invite (guild_channels g))))
  /\ choose_channel_for_invite
       (Samples.guild_with (Returns Samples.listed_invites)) None
     = Returns (Some (Samples.text_channel 12 1)).
Proof.
  split; [|split; [|reflexivity]].
  - intros id -> Hid. unfold choose_channel_for_invite, truthy_int.
    destruct (Z.eqb_spec id 0) as [|_]; [contradiction|]. cbn [negb].
    repeat split.
    + intros ch ->. reflexivity.
    + intros -> ch ->. reflexivity.
    + intros -> e -> He. rewrite He, !orb_true_r. reflexivity.
  - intros Hnone.
    assert (Hskip : (if truthy_int preferred_id then preferred_id else None)
                    = None)
      by (destruct Hnone as [-> | ->]; reflexivity).
    unfold choose_channel_for_invite. rewrite Hskip. repeat split.
    + intros ch ->. reflexivity.
    + intros -> Htext.
      destruct (PySort.sorted position_key PySort.lt_int_pair
                              (guild_text_channels g)) as [|ch rest] eqn:E.
      * apply PySortFacts.sorted_nil_iff in E. contradiction.
      * destruct (PySortFacts.sorted_head_least _ _ position_key
                    PySort.lt_int_pair PySortFacts.lt_int_pair_asym
                    PySortFacts.lt_int_pair_ge_trans _ _ _ E) as [Hin Hmin].
        exists ch. repeat split; [exact Hin|].
        intros c Hc. apply precedes_not_after. now apply Hmin.
    + intros -> ->. reflexivity.
Qed.

Section Handler.

Variable isoformat : Datetime.datetime -> string.
Variable cl : client.
Variable guild_id : Z.
Variable a : args.

Local Abbreviation invite_record := (invite_record isoformat).
Local Abbreviation resolve_guild := (resolve_guild cl guild_id).
Local Abbreviation create_invite := (create_invite a).
Local Abbreviation maybe_create := (maybe_create isoformat a).
Local Abbreviation collect := (collect isoformat a).
Local Abbreviation on_ready_body := (on_ready_body isoformat cl guild_id a).
Local Abbreviation on_ready := (on_ready isoformat cl guild_id a).
Local Abbreviation guild_resolves := (InvitesTerms.guild_resolves cl guild_id).
Local Abbreviation creation_attempt := (InvitesTerms.creation_attempt a).
Local Abbreviation attempt_events := (InvitesTerms.attempt_events a).
Local Abbreviation attempt_record := (InvitesTerms.attempt_record isoformat).
Local Abbreviation visible := (InvitesTerms.visible a).
Local Abbreviation shown := (InvitesTerms.shown isoformat a).

Lemma resolve_guild_frame : frame results resolve_guild.
Proof.
  unfold Invites.resolve_guild.
  destruct (client_get_guild cl guild_id); [auto with handler|].
  apply frame_try_except; [auto with handler|].
  intros e. destruct (is_HTTPException e); auto with handler.
Qed.

Lemma fetch_invites_frame (g : guild) : frame results (fetch_invites g).
Proof.
  unfold fetch_invites. apply frame_try_except; [auto with handler|].
  intros e. destruct (is_Forbidden e); [auto with handler|].
  destruct (is_HTTPException e); auto with handler.
Qed.

Lemma create_invite_frame (ch : channel) : frame results (create_invite ch).
Proof.
  unfold Invites.create_invite.
  destruct (ch_create_invite ch); auto with handler.
Qed.

Lemma maybe_create_frame (g : guild) (l : list invite) :
  frame results (maybe_create g l).
Proof.
  unfold Invites.maybe_create.
  destruct (should_create a l); [|auto with handler].
  apply frame_bind; [auto with handler|].
  intros [ch|]; [|auto with handler].
  apply frame_try_except.
  - apply frame_bind; [apply create_invite_frame | auto with handler].
  - intros e. destruct (is_Forbidden e); [auto with handler|].
    destruct (is_HTTPException e); auto with handler.
Qed.

Lemma invites_collect_frame (l : list invite) : frame results (collect l).
Proof.
  induction l as [|inv l IH]; simpl; [auto with handler|].
  apply frame_bind; [|intros _; exact IH].
  destruct (negb (arg_include_revoked a)
            && truthy_bool (revoked (invite_record inv)));
    auto with handler.
Qed.

Lemma invites_body_settles : settles results on_ready_body.
Proof.
  unfold Invites.on_ready_body.
  apply settles_bind; [apply resolve_guild_frame|].
  intros [g|]; [|auto with handler].
  apply settles_bind; [apply fetch_invites_frame | intros fetched].
  apply settles_bind; [apply maybe_create_frame | intros created].
  apply settles_bind; [apply invites_collect_frame | intros _].
  apply settles_bind; [destruct (fst created); auto with handler | intros _].
  auto with handler.
Qed.

Lemma invites_handler_resolves (w : world results) :
  done w = Pending ->
  done (snd (on_ready w)) <> Pending
  /\ close_count (trace (snd (on_ready w))) = close_count (trace w).
Proof. apply guarded_resolves. apply invites_body_settles. Qed.

(** *** The phases of [on_ready] *)

Lemma resolve_guild_spec (g : guild) (w : world results) :
  guild_resolves g -> resolve_guild w = (Returns (Some g), w).
Proof.
  unfold Invites.resolve_guild. intros [-> | [-> ->]]; reflexivity.
Qed.

Lemma fetch_invites_spec (g : guild) (w : world results) :
  harmless (guild_invites g) = true ->
  fetch_invites g w
  = (Returns (fetched_list g), Lifecycle.log (fetch_events g) w).
Proof.
  unfold fetch_invites, fetched_list, fetch_events, harmless.
  unfold try_except, bind, emit, modify, await, Lifecycle.log.
  destruct (guild_invites g) as [l|e]; intros H; cbn.
  - reflexivity.
  - destruct (is_Forbidden e); [reflexivity|]. rewrite H. cbn.
    rewrite <- app_assoc. reflexivity.
Qed.

Lemma maybe_create_spec (g : guild) (fetched : list invite)
  (w : world results) :
  let att := creation_attempt g fetched in
  maybe_create g fetched w
  = (match attempt_error att with
     | Some e => Raises e
     | None => Returns (attempt_record att, attempt_listed att fetched)
     end,
     Lifecycle.log (attempt_events att) w).
Proof.
  destruct w as [s d t].
  unfold Invites.maybe_create, creation_attempt, Lifecycle.log. cbv zeta.
  destruct (should_create a fetched); cbn;
    [|rewrite app_nil_r; reflexivity].
  unfold bind, await.
  destruct (choose_channel_for_invite g (arg_channel_id a)) as [[ch|]|e];
    cbn; try (rewrite app_nil_r; reflexivity); try reflexivity.
  unfold try_except, bind, Invites.create_invite.
  destruct (ch_create_invite ch) as [call|]; cbn;
    [|rewrite app_nil_r; reflexivity].
  unfold bind, emit, modify, await. cbn.
  destruct (call (creation_args a)) as [inv|e]; cbn; [reflexivity|].
  destruct (is_Forbidden e) eqn:F.
  - assert (H : is_HTTPException e = true) by (destruct e; easy).
    rewrite H. cbn. unfold creation_diagnostic, ret. rewrite F.
    rewrite <- app_assoc. reflexivity.
  - destruct (is_HTTPException e); cbn; [|reflexivity].
    unfold creation_diagnostic, ret. rewrite F.
    rewrite <- app_assoc. reflexivity.
Qed.

Lemma collect_spec (l : list invite) :
  forall w,
    collect l w
    = (Returns tt,
       mkWorld (mkResults (invites (store w) ++ shown l)
                          (created_invite (store w)))
               (done w) (trace w)).
Proof.
  unfold InvitesTerms.shown.
  induction l as [|inv l IH]; intros [[ivs cr] d t]; cbn [Invites.collect].
  - cbn. rewrite app_nil_r. reflexivity.
  - unfold bind. cbn [filter]. unfold InvitesTerms.visible at 1.
    cbn [Invites.invite_record revoked].
    destruct (arg_include_revoked a); cbn [negb andb orb].
    + unfold update, modify, append_invite. rewrite IH. cbn.
      rewrite <- app_assoc. reflexivity.
    + destruct (truthy_bool (inv_revoked inv)); cbn [negb].
      * unfold ret. rewrite IH. reflexivity.
      * unfold update, modify, append_invite. rewrite IH. cbn.
        rewrite <- app_assoc. reflexivity.
Qed.

(** The whole handler, once the guild resolves and the fetch of the
    invites does not raise outside [HTTPException]. *)
Lemma on_ready_spec (g : guild) (w : world results) :
  done w = Pending ->
  guild_resolves g ->
  harmless (guild_invites g) = true ->
  let att := creation_attempt g (fetched_list g) in
  on_ready w
  = (Returns tt,
     mkWorld
       (match attempt_error att with
        | Some _ => store w
        | None =>
            mkResults
              (PySort.sorted sort_key PySort.lt_str_pair
                 (invites (store w)
                  ++ shown (attempt_listed att (fetched_list g))))
              (match attempt_record att with
               | Some r => Some r
               | None => created_invite (store w)
               end)
        end)
       (match attempt_error att with
        | Some e => Failed e
        | None => Resolved true
        end)
       (trace w ++ fetch_events g ++ attempt_events att)).
Proof.
  intros P Hg Hf. cbv zeta.
  unfold Invites.on_ready, Invites.on_ready_body, try_except.
  unfold bind at 1. rewrite (resolve_guild_spec g w Hg).
  unfold bind at 1. rewrite (fetch_invites_spec g w Hf).
  unfold bind at 1. rewrite maybe_create_spec. cbv zeta.
  destruct w as [[ivs cr] d t]. cbn [done] in P. subst d.
  destruct (creation_attempt g (fetched_list g)) as [| |ch inv|ch e|e|ch e];
    cbn [attempt_error InvitesTerms.attempt_record attempt_listed
         InvitesTerms.attempt_events fst snd];
    unfold bind; rewrite ?collect_spec;
    unfold update, modify, set_result, set_exception, sort_invites,
      Lifecycle.log, ret;
    cbn; rewrite <- ?app_assoc; reflexivity.
Qed.

(** *** Conditional creation *)

Lemma should_create_iff (fetched : list invite) :
  should_create a fetched = true
  <-> arg_create a = true
      /\ (arg_only_if_none a = false \/ fetched = []).
Proof.
  unfold should_create.
  destruct (arg_create a), (arg_only_if_none a), fetched as [|x l]; cbn;
    intuition (try discriminate; auto).
Qed.

(** A creation call is logged exactly when creation is wanted and a
    channel with [create_invite] is resolved. *)
Lemma attempt_calls (g : guild) (fetched : list invite) :
  existsb is_InviteCreate (attempt_events (creation_attempt g fetched))
  = should_create a fetched
    && match choose_channel_for_invite g (arg_channel_id a) with
       | Returns (Some ch) => has_create_invite ch
       | _ => false
       end.
Proof.
  unfold InvitesTerms.creation_attempt, has_create_invite.
  destruct (should_create a fetched); [|reflexivity].
  destruct (choose_channel_for_invite g (arg_channel_id a)) as [[ch|]|e];
    try reflexivity.
  destruct (ch_create_invite ch) as [call|]; [|reflexivity].
  destruct (call (creation_args a)) as [inv|e]; [reflexivity|].
  destruct (is_HTTPException e); reflexivity.
Qed.

Lemma fetch_events_first (g : guild) :
  exists later,
    fetch_events g = InvitesFetch :: later
    /\ existsb is_InviteCreate later = false.
Proof.
  unfold fetch_events. destruct (guild_invites g) as [l|e].
  - exists []. split; reflexivity.
  - destruct (is_Forbidden e); eexists; split; reflexivity.
Qed.

(** C5 (as amended).  Once the guild resolves and the invite list has
    been fetched (or its fetch failed with an [HTTPException]), a
    creation call is issued if and only if [--create] is set, and
    [--only-if-none] is unset or the fetched list is empty, and
    [choose_channel_for_invite] resolves a channel that has
    [create_invite].  The fetch is logged before any creation call, so
    the emptiness check sees the list as fetched.  With [--only-if-none]
    and a fetched invite there is no creation call and [created_invite]
    stays as it was ([None]). *)
Theorem creation_call_iff (g : guild) (w : world results) :
  done w = Pending ->
  guild_resolves g ->
  harmless (guild_invites g) = true ->
  existsb is_InviteCreate (trace w) = false ->
  (existsb is_InviteCreate (trace (snd (on_ready w))) = true
   <-> arg_create a = true
       /\ (arg_only_if_none a = false \/ fetched_list g = [])
       /\ exists ch,
            choose_channel_for_invite g (arg_channel_id a)
            = Returns (Some ch)
            /\ has_create_invite ch = true)
  /\ (exists later,
        trace (snd (on_ready w)) = trace w ++ InvitesFetch :: later
        /\ existsb is_InviteCreate later
           = existsb is_InviteCreate (trace (snd (on_ready w))))
  /\ (arg_only_if_none a = true ->
      fetched_list g <> [] ->
      existsb is_InviteCreate (trace (snd (on_ready w))) = false
      /\ created_invite (store (snd (on_ready w)))
         = created_invite (store w)).
Proof.
  intros P Hg Hf Hquiet.
  rewrite (on_ready_spec g w P Hg Hf). cbv zeta. cbn [snd trace store].
  destruct (fetch_events_first g) as (later & Hfe & Hlater).
  rewrite !existsb_app, Hquiet, Hfe. cbn [existsb is_InviteCreate orb].
  rewrite Hlater, attempt_calls. cbn [orb].
  split; [|split].
  - rewrite andb_true_iff, should_create_iff.
    split.
    + intros [[Hc Hn] Hch].
      destruct (choose_channel_for_invite g (arg_channel_id a))
        as [[ch|]|e]; try discriminate.
      repeat split; try assumption. exists ch. split; [reflexivity|exact Hch].
    + intros (Hc & Hn & ch & -> & Hch). repeat split; assumption.
  - exists (later ++ attempt_events (creation_attempt g (fetched_list g))).
    split; [reflexivity|].
    rewrite existsb_app, Hlater, attempt_calls. reflexivity.
  - intros Hn Hne.
    assert (Hs : should_create a (fetched_list g) = false).
    { destruct (should_create a (fetched_list g)) eqn:E; [|reflexivity].
      apply should_create_iff in E. destruct E as [_ [E | E]]; congruence. }
    rewrite Hs. split; [reflexivity|].
    unfold InvitesTerms.creation_attempt. rewrite Hs. reflexivity.
Qed.

(** *** Forbidden is contained *)

Lemma choose_channel_returns (g : guild) (preferred_id : option Z) :
  (forall id, harmless (guild_fetch_channel g id) = true) ->
  exists c, choose_channel_for_invite g preferred_id = Returns c.
Proof.
  intros H. unfold choose_channel_for_invite.
  destruct (if truthy_int preferred_id then preferred_id else None) as [id|].
  - destruct (guild_get_channel g id); [eexists; reflexivity|].
    specialize (H id). unfold harmless in H.
    destruct (guild_fetch_channel g id) as [ch|e]; [eexists; reflexivity|].
    rewrite H, !orb_true_r. eexists; reflexivity.
  - destruct (guild_system_channel g); [eexists; reflexivity|].
    destruct (PySort.sorted position_key PySort.lt_int_pair
                            (guild_text_channels g));
      eexists; reflexivity.
Qed.

(** C8.  Once the guild resolves, [Forbidden] does not make the handler
    resolve [done] with anything but [True].  [Forbidden] from
    [guild.invites()] gives the empty list, without a diagnostic, and
    the handler goes on.  [Forbidden] from [create_invite], or no
    channel to create in, gives a diagnostic only: [created_invite]
    stays [None] and the invites listed are the fetched ones.  In
    general, as long as every call that raises raises an
    [HTTPException] ([Forbidden] included) and the chosen channel has
    [create_invite], [done] is resolved with [True]. *)
Theorem forbidden_is_not_failure (g : guild) (w : world results) :
  done w = Pending ->
  store w = no_results ->
  guild_resolves g ->
  (guild_invites g = Raises Forbidden ->
   fetch_invites g w = (Returns [], Lifecycle.log [InvitesFetch] w))
  /\ (harmless (guild_invites g) = true ->
      should_create a (fetched_list g) = true ->
      forall ch call,
        choose_channel_for_invite g (arg_channel_id a) = Returns (Some ch) ->
        ch_create_invite ch = Some call ->
        call (creation_args a) = Raises Forbidden ->
        on_ready w
        = (Returns tt,
           mkWorld
             (mkResults (PySort.sorted sort_key PySort.lt_str_pair
                                       (shown (fetched_list g)))
                        None)
             (Resolved true)
             (trace w ++ fetch_events g
              ++ [InviteCreate ch (creation_args a);
                  Stderr ForbiddenCreateInvite])))
  /\ (harmless (guild_invites g) = true ->
      should_create a (fetched_list g) = true ->
      choose_channel_for_invite g (arg_channel_id a) = Returns None ->
      on_ready w
      = (Returns tt,
         mkWorld
           (mkResults (PySort.sorted sort_key PySort.lt_str_pair
                                     (shown (fetched_list g)))
                      None)
           (Resolved true)
           (trace w ++ fetch_events g ++ [Stderr NoInviteChannel])))
  /\ (harmless (guild_invites g) = true ->
      (forall id, harmless (guild_fetch_channel g id) = true) ->
      (forall ch,
         choose_channel_for_invite g (arg_channel_id a) = Returns (Some ch) ->
         exists call,
           ch_create_invite ch = Some call
           /\ harmless (call (creation_args a)) = true) ->
      done (snd (on_ready w)) = Resolved true).
Proof.
  intros P Hs Hg. split; [|split; [|split]].
  - intros Hf. rewrite fetch_invites_spec by (now rewrite Hf).
    unfold fetched_list, fetch_events. rewrite Hf. reflexivity.
  - intros Hf Hsc ch call Hch Hattr Hcall.
    rewrite (on_ready_spec g w P Hg Hf). cbv zeta.
    unfold InvitesTerms.creation_attempt. rewrite Hsc, Hch, Hattr, Hcall. cbn.
    rewrite Hs. reflexivity.
  - intros Hf Hsc Hch.
    rewrite (on_ready_spec g w P Hg Hf). cbv zeta.
    unfold InvitesTerms.creation_attempt. rewrite Hsc, Hch. cbn.
    rewrite Hs. reflexivity.
  - intros Hf Hfetch Hcap.
    rewrite (on_ready_spec g w P Hg Hf). cbv zeta. cbn [snd done].
    unfold InvitesTerms.creation_attempt.
    destruct (should_create a (fetched_list g)); [|reflexivity].
    destruct (choose_channel_returns g (arg_channel_id a) Hfetch)
      as [[ch|] Hch]; rewrite Hch; [|reflexivity].
    destruct (Hcap ch Hch) as (call & -> & Hh). unfold harmless in Hh.
    destruct (call (creation_args a)) as [inv|e]; [reflexivity|].
    rewrite Hh. reflexivity.
Qed.

(** *** Runs that end in failure *)

Lemma resolve_guild_fails (e : exn) (w : world results) :
  client_get_guild cl guild_id = None ->
  client_fetch_guild cl guild_id = Raises e ->
  resolve_guild w
  = (if is_HTTPException e then Returns None else Raises e, w).
Proof.
  unfold Invites.resolve_guild, try_except, bind, await. intros -> ->.
  destruct (is_HTTPException e); reflexivity.
Qed.

Lemma fetch_invites_crashes (g : guild) (e : exn) (w : world results) :
  guild_invites g = Raises e ->
  is_HTTPException e = false ->
  fetch_invites g w = (Raises e, Lifecycle.log [InvitesFetch] w).
Proof.
  unfold fetch_invites, try_except, bind, emit, modify, await, Lifecycle.log.
  intros -> He. cbn.
  assert (F : is_Forbidden e = false) by (destruct e; easy).
  rewrite F, He. reflexivity.
Qed.

(** The handler resolves [done] with [True] only if the guild resolved
    and fetching its invites did not raise outside [HTTPException]. *)
Lemma resolved_true_inv (w : world results) :
  done w = Pending ->
  done (snd (on_ready w)) = Resolved true ->
  exists g, guild_resolves g /\ harmless (guild_invites g) = true.
Proof.
  intros P Hdone.
  assert (Hinv : forall g, guild_resolves g ->
                   harmless (guild_invites g) = true).
  { intros g Hg. unfold harmless.
    destruct (guild_invites g) as [l|e] eqn:E; [reflexivity|].
    destruct (is_HTTPException e) eqn:He; [reflexivity|]. exfalso.
    unfold Invites.on_ready, Invites.on_ready_body, try_except in Hdone.
    unfold bind at 1 in Hdone. rewrite (resolve_guild_spec g w Hg) in Hdone.
    unfold bind at 1 in Hdone.
    rewrite (fetch_invites_crashes g e w E He) in Hdone.
    unfold set_exception in Hdone. cbn in Hdone. rewrite P in Hdone.
    discriminate Hdone. }
  destruct (client_get_guild cl guild_id) as [g|] eqn:Eg.
  - assert (Hg : guild_resolves g) by (left; exact Eg).
    exists g. split; [exact Hg | exact (Hinv g Hg)].
  - destruct (client_fetch_guild cl guild_id) as [g|e] eqn:Ef.
    + assert (Hg : guild_resolves g) by (right; split; assumption).
      exists g. split; [exact Hg | exact (Hinv g Hg)].
    + exfalso.
      unfold Invites.on_ready, Invites.on_ready_body, try_except in Hdone.
      unfold bind at 1 in Hdone.
      rewrite (resolve_guild_fails e w Eg Ef) in Hdone.
      destruct (is_HTTPException e);
        unfold bind, emit, modify, set_result, set_exception in Hdone;
        cbn in Hdone; rewrite P in Hdone; discriminate Hdone.
Qed.

(** *** The order of the listing *)

Lemma or_empty_some (c : string) : or_empty (Some c) = c.
Proof. destruct c; reflexivity. Qed.

Lemma precedes_listed_before (r1 r2 : record) :
  SortTerms.precedes sort_key PySort.lt_str_pair r1 r2 ->
  listed_before r1 r2.
Proof.
  unfold SortTerms.precedes, PySort.lt_str_pair, sort_key, listed_before.
  cbn [fst snd]. rewrite !or_empty_some. intros H.
  apply orb_false_iff in H. destruct H as [Hn Hc].
  destruct (PySortFacts.string_trichotomy (or_empty (channel_name r1))
              (or_empty (channel_name r2))) as [L | [E | L]].
  - now left.
  - right. split; [exact E|]. rewrite E, String.eqb_refl in Hc. exact Hc.
  - congruence.
Qed.

Lemma strongly_sorted_weaken {T} (P Q : T -> T -> Prop) (l : list T) :
  (forall x y, P x y -> Q x y) -> StronglySorted P l -> StronglySorted Q l.
Proof.
  intros HPQ. induction 1 as [|x l Hl IH Hx]; constructor; [exact IH|].
  rewrite Forall_forall in *. auto.
Qed.

(** C7.  Whenever the handler resolves [done] with [True], the invites
    it leaves in [results] are the records of the invites in memory (the
    fetched ones, with the created one appended if there is one) that
    are not revoked, or of all of them with [--include-revoked], and
    they are ordered by channel name and then by code, ascending.
    Invites in channels named zeta and alpha are listed alpha first. *)
Theorem listing_filtered_and_sorted (w : world results) :
  done w = Pending ->
  store w = no_results ->
  done (snd (on_ready w)) = Resolved true ->
  (exists g listed,
     guild_resolves g
     /\ (listed = fetched_list g
         \/ exists inv, listed = fetched_list g ++ [inv])
     /\ Permutation (invites (store (snd (on_ready w))))
                    (map invite_record (filter visible listed))
     /\ StronglySorted listed_before (invites (store (snd (on_ready w)))))
  /\ map channel_name
         (invites
            (store
               (snd (Invites.on_ready Samples.show_time Samples.bot 9
                       (Samples.invites_args "good" false false None)
                       (mkWorld no_results Pending [])))))
     = [Some "alpha"; Some "zeta"].
Proof.
  intros P Hs Hdone. split; [|reflexivity].
  destruct (resolved_true_inv w P Hdone) as (g & Hg & Hf).
  rewrite (on_ready_spec g w P Hg Hf) in *. cbv zeta in *.
  cbn [snd done store] in *.
  destruct (attempt_error (creation_attempt g (fetched_list g)))
    as [e|]; [discriminate|].
  exists g, (attempt_listed (creation_attempt g (fetched_list g))
                            (fetched_list g)).
  rewrite Hs. cbn [invites no_results app].
  split; [exact Hg | split; [|split]].
  - destruct (creation_attempt g (fetched_list g)); cbn; eauto.
  - apply PySortFacts.sorted_perm.
  - apply strongly_sorted_weaken
      with (P := SortTerms.precedes sort_key PySort.lt_str_pair).
    + apply precedes_listed_before.
    + apply PySortFacts.sorted_ordered.
      * apply PySortFacts.lt_str_pair_asym.
      * apply PySortFacts.lt_str_pair_ge_trans.
Qed.

End Handler.

(** *** The claims at sample inputs *)

Import Samples.

(** C9 as stated fails.  An invite with a positive maximum age has no
    expiry when it carries no creation time, or when creation time plus
    maximum age is past the last [datetime]. *)
Lemma expiry_counterexample :
  ~ (forall inv age,
       inv_max_age inv = Some age -> 0 < age ->
       expires_at (invite_record show_time inv) <> None)
  /\ ~ (forall inv age created,
          inv_max_age inv = Some age ->
          inv_created_at inv = Some created -> 0 < age ->
          expires_at (invite_record show_time inv)
          = Some (show_time (created + age * 1000000))).
Proof.
  split.
  - intros H. apply (H undated_invite 60); reflexivity.
  - intros H.
    specialize (H last_hour_invite 172800
                  (Datetime.datetime_max - 3600000000)
                  eq_refl eq_refl eq_refl).
    discriminate H.
Qed.

Lemma expiry_is_creation_plus_max_age_witness :
  (inv_max_age hour_invite = Some 3600
   /\ inv_created_at hour_invite = Some 63900000000000000
   /\ 0 < 3600
   /\ 0 <= 63900000000000000
   /\ 63900000000000000 + 3600 * 1000000 <= Datetime.datetime_max)
  /\ expires_at (invite_record show_time hour_invite)
     = Some (show_time (63900000000000000 + 3600 * 1000000))
  /\ inv_created_at undated_invite = None
  /\ expires_at (invite_record show_time undated_invite) = None.
Proof.
  split; [repeat split; try reflexivity; discriminate|].
  split; [|split; [reflexivity|]].
  - apply (proj1 (expiry_is_creation_plus_max_age show_time hour_invite));
      try reflexivity; discriminate.
  - apply (proj2 (expiry_is_creation_plus_max_age show_time undated_invite)).
    right; right; left. reflexivity.
Defined.

(** C6 as stated fails.  With an explicit channel ID that cannot be
    resolved and a system channel set, the fallback order of the
    specification selects the system channel; the code selects no
    channel. *)
Lemma explicit_channel_counterexample :
  guild_get_channel guild_with_system 42 = None
  /\ guild_fetch_channel guild_with_system 42 = Raises NotFound
  /\ InvitesSpec.spec_choose_channel guild_with_system (Some 42)
     = guild_system_channel guild_with_system
  /\ guild_system_channel guild_with_system = Some (text_channel 10 0)
  /\ choose_channel_for_invite guild_with_system (Some 42) = Returns None
  /\ choose_channel_for_invite guild_with_system (Some 42)
     <> Returns (InvitesSpec.spec_choose_channel guild_with_system (Some 42)).
Proof. repeat split. discriminate. Qed.

Lemma channel_resolution_order_witness :
  (guild_get_channel guild_with_system 42 = None
   /\ guild_fetch_channel guild_with_system 42 = Raises NotFound
   /\ choose_channel_for_invite guild_with_system (Some 42) = Returns None)
  /\ (guild_system_channel (guild_with (Returns listed_invites)) = None
      /\ exists ch,
           choose_channel_for_invite (guild_with (Returns listed_invites)) None
           = Returns (Some ch)
           /\ In ch two_channels
           /\ forall c, In c two_channels -> not_after ch c).
Proof.
  split.
  - split; [reflexivity | split; [reflexivity|]].
    destruct (channel_resolution_order guild_with_system (Some 42))
      as (Hexplicit & _).
    destruct (Hexplicit 42 eq_refl) as (_ & _ & Hfail);
      [discriminate|].
    apply (Hfail eq_refl NotFound); reflexivity.
  - split; [reflexivity|].
    destruct (channel_resolution_order
                (guild_with (Returns listed_invites)) None)
      as (_ & Hfallback & _).
    destruct (Hfallback (or_introl eq_refl)) as (_ & Htext & _).
    apply Htext; [reflexivity | discriminate].
Defined.

(** C5 as stated fails.  With [--create] set and [--only-if-none]
    unset, in a guild where no channel can be resolved, the condition of
    the claim holds and no creation call is issued. *)
Lemma creation_without_channel_counterexample :
  ~ (existsb is_InviteCreate
       (trace (snd (Invites.on_ready show_time (client_of [] bare_guild) 9
                      (invites_args "good" true false None) fresh_results)))
     = true
     <-> arg_create (invites_args "good" true false None) = true
         /\ (arg_only_if_none (invites_args "good" true false None) = false
             \/ fetched_list bare_guild = [])).
Proof.
  intros [_ H].
  assert (C : arg_create (invites_args "good" true false None) = true
              /\ (arg_only_if_none (invites_args "good" true false None)
                  = false
                  \/ fetched_list bare_guild = []))
    by (split; [reflexivity | left; reflexivity]).
  specialize (H C). discriminate H.
Qed.

Lemma creation_call_iff_witness :
  (done fresh_results = Pending
   /\ guild_resolves bot 9 (guild_with (Returns listed_invites))
   /\ harmless (guild_invites (guild_with (Returns listed_invites))) = true
   /\ existsb is_InviteCreate (trace fresh_results) = false)
  /\ (existsb is_InviteCreate
        (trace (snd (Invites.on_ready show_time bot 9
                       (invites_args "good" true true None) fresh_results)))
      = false
      /\ created_invite
           (store (snd (Invites.on_ready show_time bot 9
                          (invites_args "good" true true None)
                          fresh_results)))
         = created_invite (store fresh_results)).
Proof.
  assert (Hg : guild_resolves bot 9 (guild_with (Returns listed_invites)))
    by (left; reflexivity).
  split; [repeat split; exact Hg|].
  destruct (creation_call_iff show_time bot 9
              (invites_args "good" true true None)
              (guild_with (Returns listed_invites)) fresh_results
              eq_refl Hg eq_refl eq_refl) as (_ & _ & Hnone).
  apply Hnone; [reflexivity | discriminate].
Defined.

Lemma listing_filtered_and_sorted_witness :
  (done fresh_results = Pending
   /\ store fresh_results = no_results
   /\ done (snd (Invites.on_ready show_time bot 9
                   (invites_args "good" true false None) fresh_results))
      = Resolved true)
  /\ exists g listed,
       guild_resolves bot 9 g
       /\ (listed = fetched_list g
           \/ exists inv, listed = fetched_list g ++ [inv])
       /\ Permutation
            (invites
               (store (snd (Invites.on_ready show_time bot 9
                              (invites_args "good" true false None)
                              fresh_results))))
            (map (invite_record show_time)
                 (filter (visible (invites_args "good" true false None))
                         listed))
       /\ StronglySorted listed_before
            (invites
               (store (snd (Invites.on_ready show_time bot 9
                              (invites_args "good" true false None)
                              fresh_results)))).
Proof.
  split; [split; [reflexivity | split; reflexivity]|].
  apply (proj1 (listing_filtered_and_sorted show_time bot 9
                  (invites_args "good" true false None) fresh_results
                  eq_refl eq_refl eq_refl)).
Defined.

Lemma forbidden_is_not_failure_witness :
  (guild_resolves (client_of [] locked_guild) 9 locked_guild
   /\ guild_invites locked_guild = Raises Forbidden
   /\ choose_channel_for_invite locked_guild None
      = Returns (Some (locked_channel 11 3)))
  /\ fetch_invites locked_guild fresh_results
     = (Returns [], Lifecycle.log [InvitesFetch] fresh_results)
  /\ Invites.on_ready show_time (client_of [] locked_guild) 9
       (invites_args "good" true false None) fresh_results
     = (Returns tt,
        mkWorld (mkResults [] None) (Resolved true)
                [InvitesFetch;
                 InviteCreate (locked_channel 11 3)
                   (creation_args (invites_args "good" true false None));
                 Stderr ForbiddenCreateInvite])
  /\ done (snd (Invites.on_ready show_time (client_of [] locked_guild) 9
                  (invites_args "good" true false None) fresh_results))
     = Resolved true.
Proof.
  assert (Hg : guild_resolves (client_of [] locked_guild) 9 locked_guild)
    by (left; reflexivity).
  split; [repeat split; exact Hg|].
  destruct (forbidden_is_not_failure show_time (client_of [] locked_guild) 9
              (invites_args "good" true false None) locked_guild
              fresh_results eq_refl eq_refl Hg)
    as (Hfetch & Hcreate & _ & Hall).
  split; [|split].
  - apply Hfetch. reflexivity.
  - apply (Hcreate eq_refl eq_refl (locked_channel 11 3)
             (fun _ => Raises Forbidden)); reflexivity.
  - apply Hall.
    + reflexivity.
    + intros id. reflexivity.
    + intros ch Hch. inversion Hch; subst ch.
      exists (fun _ => Raises Forbidden). split; reflexivity.
Defined.

End InvitesFacts.

(** ** Guild enumeration *)

Module GuildsFacts.

Import Guilds HandlerTerms HandlerFacts.

Section Handler.

Variable lower : string -> string.
Variable cl : client.
Variable a : args.

Lemma guilds_collect_frame (l : list cached_guild) :
  frame (list item) (collect a l).
Proof.
  induction l as [|g l IH]; simpl; auto with handler.
Qed.

Lemma guilds_handler_resolves (w : world (list item)) :
  done w = Pending ->
  done (snd (on_ready lower cl a w)) <> Pending
  /\ close_count (trace (snd (on_ready lower cl a w))) = close_count (trace w).
Proof.
  apply guarded_resolves.
  apply settles_bind; [apply guilds_collect_frame | intros _].
  auto with handler.
Qed.

End Handler.

End GuildsFacts.

(** ** The three [main] coroutines *)

Module MainFacts.

Import Lifecycle LifecycleTerms LifecycleFacts.

(** The prompts neither open nor close a client. *)
Lemma read_token_quiet (flag : option string) (con : Cli.console) :
  close_count (snd (Cli.read_token flag con)) = 0%nat
  /\ existsb is_ClientStart (snd (Cli.read_token flag con)) = false.
Proof.
  unfold Cli.read_token. destruct (truthy_str flag); [split; reflexivity|].
  destruct (Cli.secret con) as [tok| |]; try (split; reflexivity).
  destruct (truthy_str (Some tok)); split; reflexivity.
Qed.

(** [read_token] hands on a token only when it is not empty. *)
Lemma read_token_nonempty (flag : option string) (con : Cli.console)
  (token : string) (t : list event) :
  Cli.read_token flag con = (inl token, t) -> token <> "".
Proof.
  unfold Cli.read_token.
  destruct flag as [[|c s]|]; simpl;
    try (destruct (Cli.secret con) as [[|c' s'] | |]; simpl);
    intros H; inversion H; subst; discriminate.
Qed.

Section Prompts.

Variable strip : string -> string.
Variable parse_int : string -> option Z.

Lemma ask_user_id_quiet (inputs : list Cli.answer) :
  close_count (snd (Cli.ask_user_id strip parse_int inputs)) = 0%nat.
Proof.
  induction inputs as [|[line| |] rest IH]; try reflexivity.
  cbn [Cli.ask_user_id].
  destruct (Cli.ask_user_id strip parse_int rest) as [r l]. simpl in IH.
  destruct (negb (truthy_str (Some (strip line)))); [exact IH|].
  destruct (parse_int (strip line)); [reflexivity | exact IH].
Qed.

Lemma prompt_for_int_quiet (text : string) (inputs : list Cli.answer) :
  close_count (snd (Cli.prompt_for_int strip parse_int text inputs)) = 0%nat.
Proof.
  induction inputs as [|[line| |] rest IH]; try reflexivity.
  cbn [Cli.prompt_for_int].
  destruct (Cli.prompt_for_int strip parse_int text rest) as [r l]. simpl in IH.
  destruct (negb (truthy_str (Some (strip line)))); [exact IH|].
  destruct (parse_int (strip line)); [reflexivity | exact IH].
Qed.

(** *** [Delete_Bot_DMs_With_User.main] *)

Section PurgeMain.

Variable a : Purge.args.
Variable con : Cli.console.
Variable cl : client.
Variables (token : string) (t t' : list event) (uid : Z).

Hypothesis token_read :
  Cli.read_token (Purge.arg_token a) con = (inl token, t).
Hypothesis user_known :
  match Purge.arg_user_id a with
  | Some n => (inl n, [])
  | None => Cli.ask_user_id strip parse_int (Cli.lines con)
  end = (inl uid, t').

Lemma purge_main_session (fuel : nat) :
  Purge.main strip parse_int a con cl fuel
  = let p :=
      exec (Purge.on_ready cl uid (Purge.arg_sleep a)) true Purge.summary
           cl token fuel (start (mkWorld Purge.no_stats Pending (t ++ t'))) in
    (returned p, state p).
Proof.
  unfold Purge.main. rewrite token_read. cbv zeta. rewrite user_known.
  reflexivity.
Qed.

Lemma purge_prompts_quiet : close_count (t ++ t') = 0%nat.
Proof.
  rewrite close_count_app.
  pose proof (read_token_quiet (Purge.arg_token a) con) as [H _].
  rewrite token_read in H. simpl in H. rewrite H.
  destruct (Purge.arg_user_id a).
  - inversion user_known; subst. reflexivity.
  - pose proof (ask_user_id_quiet (Cli.lines con)) as H'.
    rewrite user_known in H'. exact H'.
Qed.

(** When the ready notification is dispatched and the pause between
    deletions ends, [main] returns within eight steps of the event loop,
    whatever else the handler does; the client is closed exactly once
    before it returns and never more than once. *)
Lemma purge_main_closes_once (after_close : result unit) :
  PurgeTerms.pause_ends (Purge.arg_sleep a) = true ->
  client_start cl token = StartReady after_close ->
  (exists o, forall fuel, (8 <= fuel)%nat ->
     fst (Purge.main strip parse_int a con cl fuel) = Some o)
  /\ (forall fuel,
        (close_count (trace (snd (Purge.main strip parse_int a con cl fuel)))
         <= 1)%nat)
  /\ (forall fuel,
        fst (Purge.main strip parse_int a con cl fuel) <> None ->
        close_count (trace (snd (Purge.main strip parse_int a con cl fuel)))
        = 1%nat).
Proof.
  intros Hp Hstart.
  destruct (ready_run_closed_before_return _
              (Purge.on_ready cl uid (Purge.arg_sleep a)) true Purge.summary
              cl token after_close Hstart
              (fun _ => eq_refl)
              (mkWorld Purge.no_stats Pending (t ++ t')) eq_refl
              purge_prompts_quiet
              (PurgeFacts.purge_handler_resolves cl uid (Purge.arg_sleep a)
                 (log [ClientStart token]
                    (mkWorld Purge.no_stats Pending (t ++ t'))) Hp eq_refl)
              (PurgeFacts.purge_handler_never_closes cl uid
                 (Purge.arg_sleep a)
                 (log [ClientStart token]
                    (mkWorld Purge.no_stats Pending (t ++ t'))) eq_refl))
    as (Hret & Hle & Hone).
  split; [|split].
  - eexists. intros fuel Hf. rewrite purge_main_session. apply (Hret fuel Hf).
  - intros fuel. rewrite purge_main_session. apply Hle.
  - intros fuel. rewrite purge_main_session. apply Hone.
Qed.

(** [main] returns 0 when the handler resolved [done] with [True], 1
    when it resolved it with [False], and lets the exception through
    when the handler stored one. *)
Lemma purge_main_outcome (after_close : result unit) :
  PurgeTerms.pause_ends (Purge.arg_sleep a) = true ->
  client_start cl token = StartReady after_close ->
  forall fuel, (8 <= fuel)%nat ->
    fst (Purge.main strip parse_int a con cl fuel)
    = Some (outcome_of
              (done (snd (Purge.main strip parse_int a con cl fuel)))).
Proof.
  intros Hp Hstart fuel Hf. rewrite purge_main_session. cbv zeta.
  cbn [fst snd].
  apply (ready_run_outcome _
           (Purge.on_ready cl uid (Purge.arg_sleep a)) true Purge.summary
           cl token after_close Hstart
           (fun _ => eq_refl)
           (mkWorld Purge.no_stats Pending (t ++ t')) eq_refl
           purge_prompts_quiet
           (PurgeFacts.purge_handler_resolves cl uid (Purge.arg_sleep a)
              (log [ClientStart token]
                    (mkWorld Purge.no_stats Pending (t ++ t'))) Hp eq_refl)
           (PurgeFacts.purge_handler_never_closes cl uid
              (Purge.arg_sleep a)
              (log [ClientStart token]
                    (mkWorld Purge.no_stats Pending (t ++ t'))) eq_refl)
           eq_refl fuel Hf).
Qed.

(** When [client.start] raises before the ready notification, [main]
    never returns and never closes the client. *)
Lemma purge_main_hangs (e : exn) :
  client_start cl token = StartRaises e ->
  forall fuel,
    fst (Purge.main strip parse_int a con cl fuel) = None
    /\ close_count (trace (snd (Purge.main strip parse_int a con cl fuel)))
       = 0%nat
    /\ done (snd (Purge.main strip parse_int a con cl fuel)) = Pending.
Proof.
  intros Hstart fuel.
  destruct (start_fails_hangs _
              (Purge.on_ready cl uid (Purge.arg_sleep a)) true Purge.summary
              cl token e Hstart
              (mkWorld Purge.no_stats Pending (t ++ t')) eq_refl)
    as [Hall _].
  destruct (Hall fuel) as (Hret & _ & Hd & Hc).
  rewrite purge_main_session. cbv zeta. cbn [fst snd].
  rewrite Hret, Hd, Hc. cbn [trace]. rewrite purge_prompts_quiet.
  repeat split.
Qed.

End PurgeMain.

(** *** [List_Guild_Invites.main] *)

Section InvitesMain.

Variable isoformat : Datetime.datetime -> string.
Variable a : Invites.args.
Variable con : Cli.console.
Variable cl : client.
Variables (token : string) (t t' : list event) (gid : Z).

Hypothesis token_read :
  Cli.read_token (Invites.arg_token a) con = (inl token, t).
Hypothesis guild_known :
  match Invites.arg_guild_id a with
  | Some n => (Some n, [])
  | None => Cli.prompt_for_int strip parse_int "Guild ID: " (Cli.lines con)
  end = (Some gid, t').

Local Abbreviation main := (Invites.main isoformat strip parse_int a con cl).

Lemma invites_main_session (fuel : nat) :
  main fuel
  = let p :=
      exec (Invites.on_ready isoformat cl gid a) true
           (fun _ => [Stdout Report]) cl token fuel
           (start (mkWorld Invites.no_results Pending (t ++ t'))) in
    (returned p, state p).
Proof.
  unfold Invites.main. rewrite token_read. cbv zeta. rewrite guild_known.
  reflexivity.
Qed.

Lemma invites_prompts_quiet : close_count (t ++ t') = 0%nat.
Proof.
  rewrite close_count_app.
  pose proof (read_token_quiet (Invites.arg_token a) con) as [H _].
  rewrite token_read in H. simpl in H. rewrite H.
  destruct (Invites.arg_guild_id a).
  - inversion guild_known; subst. reflexivity.
  - pose proof (prompt_for_int_quiet "Guild ID: " (Cli.lines con)) as H'.
    rewrite guild_known in H'. exact H'.
Qed.

Lemma invites_main_closes_once (after_close : result unit) :
  client_start cl token = StartReady after_close ->
  (exists o, forall fuel, (8 <= fuel)%nat -> fst (main fuel) = Some o)
  /\ (forall fuel, (close_count (trace (snd (main fuel))) <= 1)%nat)
  /\ (forall fuel,
        fst (main fuel) <> None ->
        close_count (trace (snd (main fuel))) = 1%nat).
Proof.
  intros Hstart.
  destruct (ready_run_closed_before_return _
              (Invites.on_ready isoformat cl gid a) true
              (fun _ => [Stdout Report])
              cl token after_close Hstart
              (fun _ => eq_refl)
              (mkWorld Invites.no_results Pending (t ++ t')) eq_refl
              invites_prompts_quiet
              (proj1 (InvitesFacts.invites_handler_resolves
                        isoformat cl gid a
                        (log [ClientStart token]
                           (mkWorld Invites.no_results Pending (t ++ t')))
                        eq_refl))
              (proj2 (InvitesFacts.invites_handler_resolves
                        isoformat cl gid a
                        (log [ClientStart token]
                           (mkWorld Invites.no_results Pending (t ++ t')))
                        eq_refl)))
    as (Hret & Hle & Hone).
  split; [|split].
  - eexists. intros fuel Hf. rewrite invites_main_session.
    apply (Hret fuel Hf).
  - intros fuel. rewrite invites_main_session. apply Hle.
  - intros fuel. rewrite invites_main_session. apply Hone.
Qed.

Lemma invites_main_outcome (after_close : result unit) :
  client_start cl token = StartReady after_close ->
  forall fuel, (8 <= fuel)%nat ->
    fst (main fuel) = Some (outcome_of (done (snd (main fuel)))).
Proof.
  intros Hstart fuel Hf. rewrite invites_main_session. cbv zeta.
  cbn [fst snd].
  apply (ready_run_outcome _
           (Invites.on_ready isoformat cl gid a) true
           (fun _ => [Stdout Report])
           cl token after_close Hstart
           (fun _ => eq_refl)
           (mkWorld Invites.no_results Pending (t ++ t')) eq_refl
           invites_prompts_quiet
           (proj1 (InvitesFacts.invites_handler_resolves
                     isoformat cl gid a
                        (log [ClientStart token]
                           (mkWorld Invites.no_results Pending (t ++ t')))
                        eq_refl))
           (proj2 (InvitesFacts.invites_handler_resolves
                     isoformat cl gid a
                        (log [ClientStart token]
                           (mkWorld Invites.no_results Pending (t ++ t')))
                        eq_refl))
           eq_refl fuel Hf).
Qed.

Lemma invites_main_hangs (e : exn) :
  client_start cl token = StartRaises e ->
  forall fuel,
    fst (main fuel) = None
    /\ close_count (trace (snd (main fuel))) = 0%nat
    /\ done (snd (main fuel)) = Pending.
Proof.
  intros Hstart fuel.
  destruct (start_fails_hangs _
              (Invites.on_ready isoformat cl gid a) true
              (fun _ => [Stdout Report])
              cl token e Hstart
              (mkWorld Invites.no_results Pending (t ++ t')) eq_refl)
    as [Hall _].
  destruct (Hall fuel) as (Hret & _ & Hd & Hc).
  rewrite invites_main_session. cbv zeta. cbn [fst snd].
  rewrite Hret, Hd, Hc. cbn [trace]. rewrite invites_prompts_quiet.
  repeat split.
Qed.

End InvitesMain.

End Prompts.

(** *** [List_Guilds.main] *)

Section GuildsMain.

Variable lower : string -> string.
Variable a : Guilds.args.
Variable con : Cli.console.
Variable cl : client.
Variables (token : string) (t : list event).

Hypothesis token_read :
  Cli.read_token (Guilds.arg_token a) con = (inl token, t).

Local Abbreviation main := (Guilds.main lower cl a con).

Lemma guilds_main_session (fuel : nat) :
  main fuel
  = let p :=
      exec (Guilds.on_ready lower cl a) false (fun _ => [Stdout Report])
           cl token fuel (start (mkWorld [] Pending t)) in
    (returned p, state p).
Proof. unfold Guilds.main. rewrite token_read. reflexivity. Qed.

Lemma guilds_prompt_quiet : close_count t = 0%nat.
Proof.
  pose proof (read_token_quiet (Guilds.arg_token a) con) as [H _].
  rewrite token_read in H. exact H.
Qed.

Lemma guilds_main_closes_once (after_close : result unit) :
  client_start cl token = StartReady after_close ->
  (forall fuel, (8 <= fuel)%nat -> fst (main fuel) = Some (Exit 0))
  /\ (forall fuel, (close_count (trace (snd (main fuel))) <= 1)%nat)
  /\ (forall fuel,
        fst (main fuel) <> None ->
        close_count (trace (snd (main fuel))) = 1%nat).
Proof.
  intros Hstart.
  destruct (ready_run_closed_before_return _
              (Guilds.on_ready lower cl a) false (fun _ => [Stdout Report])
              cl token after_close Hstart
              (fun _ => eq_refl)
              (mkWorld [] Pending t) eq_refl guilds_prompt_quiet
              (proj1 (GuildsFacts.guilds_handler_resolves lower cl a
                        (log [ClientStart token] (mkWorld [] Pending t)) eq_refl))
              (proj2 (GuildsFacts.guilds_handler_resolves lower cl a
                        (log [ClientStart token] (mkWorld [] Pending t)) eq_refl)))
    as (Hret & Hle & Hone).
  split; [|split].
  - intros fuel Hf. rewrite guilds_main_session. apply (Hret fuel Hf).
  - intros fuel. rewrite guilds_main_session. apply Hle.
  - intros fuel. rewrite guilds_main_session. apply Hone.
Qed.

Lemma guilds_main_hangs (e : exn) :
  client_start cl token = StartRaises e ->
  forall fuel,
    fst (main fuel) = None
    /\ close_count (trace (snd (main fuel))) = 0%nat
    /\ done (snd (main fuel)) = Pending.
Proof.
  intros Hstart fuel.
  destruct (start_fails_hangs _
              (Guilds.on_ready lower cl a) false (fun _ => [Stdout Report])
              cl token e Hstart (mkWorld [] Pending t) eq_refl)
    as [Hall _].
  destruct (Hall fuel) as (Hret & _ & Hd & Hc).
  rewrite guilds_main_session. cbv zeta. cbn [fst snd].
  rewrite Hret, Hd, Hc. cbn [trace]. rewrite guilds_prompt_quiet.
  repeat split.
Qed.

End GuildsMain.

(** *** The claims about [main] *)

Import Samples.

(** C1.  The client is not closed on every path.  With a token the
    platform rejects ([client.start] raises [LoginFailure]) the scripts
    start the client and then stay suspended on [asyncio.wait({done})]:
    however long the event loop runs, [main] has not returned and
    [client.close()] has not been called.  (On every run in which the
    ready notification is dispatched and the handler is not left
    suspended in a pause that never ends, the client is closed exactly
    once before [main] returns: [purge_main_closes_once],
    [invites_main_closes_once].) *)
Theorem rejected_token_leaves_session_open :
  forall fuel : nat,
    let purge := Purge.main keep no_number (purge_args "bad") no_input bot in
    let invites :=
      Invites.main show_time keep no_number
                   (invites_args "bad" false false None) no_input bot in
    (fst (purge fuel) = None
     /\ close_count (trace (snd (purge fuel))) = 0%nat
     /\ trace (snd (purge (S (S fuel))))
        = [ClientStart "bad"; Stderr InvalidBotToken])
    /\ (fst (invites fuel) = None
        /\ close_count (trace (snd (invites fuel))) = 0%nat
        /\ trace (snd (invites (S (S fuel))))
           = [ClientStart "bad"; Stderr InvalidBotToken]).
Proof.
  intros fuel. cbv zeta. split.
  - destruct (purge_main_hangs keep no_number (purge_args "bad") no_input bot
                "bad" [] [] 7 eq_refl eq_refl LoginFailure eq_refl fuel)
      as (Hret & Hc & _).
    split; [exact Hret | split; [exact Hc|]].
    rewrite (purge_main_session keep no_number (purge_args "bad") no_input bot
               "bad" [] [] 7 eq_refl eq_refl).
    cbv zeta. cbn [snd].
    destruct (start_fails_hangs _
                (Purge.on_ready bot 7 (Purge.arg_sleep (purge_args "bad")))
                true Purge.summary bot "bad" LoginFailure eq_refl
                (mkWorld Purge.no_stats Pending ([] ++ [])) eq_refl)
      as [_ Hend].
    rewrite (Hend (S (S fuel))) by lia. reflexivity.
  - destruct (invites_main_hangs keep no_number show_time
                (invites_args "bad" false false None) no_input bot
                "bad" [] [] 9 eq_refl eq_refl LoginFailure eq_refl fuel)
      as (Hret & Hc & _).
    split; [exact Hret | split; [exact Hc|]].
    rewrite (invites_main_session keep no_number show_time
               (invites_args "bad" false false None) no_input bot
               "bad" [] [] 9 eq_refl eq_refl).
    cbv zeta. cbn [snd].
    destruct (start_fails_hangs _
                (Invites.on_ready show_time bot 9
                   (invites_args "bad" false false None))
                true (fun _ => [Stdout Report]) bot "bad" LoginFailure eq_refl
                (mkWorld Invites.no_results Pending ([] ++ [])) eq_refl)
      as [_ Hend].
    rewrite (Hend (S (S fuel))) by lia. reflexivity.
Qed.

(** C2.  With a rejected token the program does not exit with code 3.
    [run()] prints the diagnostic and returns 3, but that value stays in
    the finished task: [main] waits for [done], which nothing resolves,
    and never returns, in [Delete_Bot_DMs_With_User.py] and in
    [List_Guilds.py] alike. *)
Theorem rejected_token_never_exits :
  forall fuel : nat,
    fst (Purge.main keep no_number (purge_args "bad") no_input bot fuel)
    = None
    /\ fst (Guilds.main keep bot (guilds_args "bad") no_input fuel) = None
    /\ (let p :=
          exec (Purge.on_ready bot 7 0.5%float) true Purge.summary bot "bad"
               (S (S fuel)) (start (mkWorld Purge.no_stats Pending [])) in
        run_task p = RunEnded (Returns 3) /\ pc p = AtWaitDone)
    /\ (let p :=
          exec (Guilds.on_ready keep bot (guilds_args "bad")) false
               (fun _ => [Stdout Report]) bot "bad"
               (S (S fuel)) (start (mkWorld [] Pending [])) in
        run_task p = RunEnded (Returns 3) /\ pc p = AtWaitDone).
Proof.
  intros fuel. repeat split.
  - apply (purge_main_hangs keep no_number (purge_args "bad") no_input bot
             "bad" [] [] 7 eq_refl eq_refl LoginFailure eq_refl fuel).
  - apply (guilds_main_hangs keep (guilds_args "bad") no_input bot
             "bad" [] eq_refl LoginFailure eq_refl fuel).
  - destruct (start_fails_hangs _ (Purge.on_ready bot 7 0.5%float)
                true Purge.summary bot "bad" LoginFailure eq_refl
                (mkWorld Purge.no_stats Pending []) eq_refl) as [_ Hend].
    rewrite (Hend (S (S fuel))) by lia. reflexivity.
  - destruct (start_fails_hangs _ (Purge.on_ready bot 7 0.5%float)
                true Purge.summary bot "bad" LoginFailure eq_refl
                (mkWorld Purge.no_stats Pending []) eq_refl) as [_ Hend].
    rewrite (Hend (S (S fuel))) by lia. reflexivity.
  - destruct (start_fails_hangs _ (Guilds.on_ready keep bot (guilds_args "bad"))
                false (fun _ => [Stdout Report]) bot "bad" LoginFailure eq_refl
                (mkWorld [] Pending []) eq_refl) as [_ Hend].
    rewrite (Hend (S (S fuel))) by lia. reflexivity.
  - destruct (start_fails_hangs _ (Guilds.on_ready keep bot (guilds_args "bad"))
                false (fun _ => [Stdout Report]) bot "bad" LoginFailure eq_refl
                (mkWorld [] Pending []) eq_refl) as [_ Hend].
    rewrite (Hend (S (S fuel))) by lia. reflexivity.
Qed.

(** C10.  Without the [--token] flag, an empty answer to the secret
    prompt makes [main] return 2 at once: the run is the same as when
    the prompt is cut off by end of input, the diagnostic is printed,
    and no client is ever started.  More generally the token that the
    start-up code hands on, from the flag or from the prompt, is never
    the empty string. *)
Theorem empty_token_exits_2 :
  forall (strip lower : string -> string) (parse_int : string -> option Z)
         (cl : client) (fuel : nat) (inputs : list Cli.answer)
         (uid : option Z) (sleep : float) (counts owner : bool),
    let typed_nothing :=
      {| Cli.secret := Cli.Typed ""; Cli.lines := inputs |} in
    let cut_off :=
      {| Cli.secret := Cli.EndOfInput; Cli.lines := inputs |} in
    let pa :=
      {| Purge.arg_token := None; Purge.arg_user_id := uid;
         Purge.arg_sleep := sleep |} in
    let ga :=
      {| Guilds.arg_token := None; Guilds.arg_include_counts := counts;
         Guilds.arg_include_owner := owner |} in
    Purge.main strip parse_int pa typed_nothing cl fuel
    = (Some (Exit 2),
       mkWorld Purge.no_stats Pending [Getpass; Stderr NoBotToken])
    /\ Purge.main strip parse_int pa typed_nothing cl fuel
       = Purge.main strip parse_int pa cut_off cl fuel
    /\ Guilds.main lower cl ga typed_nothing fuel
       = (Some (Exit 2), mkWorld [] Pending [Getpass; Stderr NoBotToken])
    /\ Guilds.main lower cl ga typed_nothing fuel
       = Guilds.main lower cl ga cut_off fuel
    /\ existsb is_ClientStart
         (trace (snd (Purge.main strip parse_int pa typed_nothing cl fuel)))
       = false
    /\ existsb is_ClientStart
         (trace (snd (Guilds.main lower cl ga typed_nothing fuel)))
       = false
    /\ (forall flag con,
          match Cli.read_token flag con with
          | (inl token, _) => token <> ""
          | (inr _, _) => True
          end).
Proof.
  intros. repeat split.
  intros flag con0.
  destruct (Cli.read_token flag con0) as [[token|code] t] eqn:E; [|exact I].
  exact (read_token_nonempty flag con0 token t E).
Qed.

End MainFacts.

(** ** Runs of the event loop, whatever the handler and the gateway do *)

Module RunFacts.

Import Lifecycle LifecycleTerms LifecycleFacts RunTerms.

Section AnyRun.

Variable R : Type.
Variable on_ready : M (world R) unit.
Variable checks_result : bool.
Variable epilogue : R -> list event.
Variable cl : client.
Variable token : string.

Local Abbreviation step := (step on_ready checks_result epilogue cl token).
Local Abbreviation exec := (exec on_ready checks_result epilogue cl token).

Lemma run_returns_keeps_done (r : result unit) (w : world R) :
  done (snd (run_returns r w)) = done w.
Proof.
  unfold run_returns. destruct r as [u|e]; [reflexivity|].
  destruct (is_LoginFailure e); reflexivity.
Qed.

(** The other coroutines do not move [main] and do not close the
    client; once the client is closed they leave [done] alone. *)
Lemma background_keeps (p q : proc R) :
  background on_ready cl token p = Some q ->
  pc q = pc p /\ closed q = closed p
  /\ (closed p = true -> done (state q) = done (state p)).
Proof.
  unfold background. destruct (run_task p) as [| |ac|r]; try discriminate.
  - destruct (client_start cl token) as [e|ac].
    + pose proof (run_returns_keeps_done (Raises e)
                    (log [ClientStart token] (state p))) as D.
      destruct (run_returns (Raises e) (log [ClientStart token] (state p)))
        as [r w'].
      intros H; inversion H; subst q. cbn. repeat split. intros _. exact D.
    + intros H; inversion H; subst q. cbn. repeat split.
  - destruct (closed p) eqn:C.
    + pose proof (run_returns_keeps_done ac (state p)) as D.
      destruct (run_returns ac (state p)) as [r w'].
      intros H; inversion H; subst q. cbn. repeat split; auto.
    + destruct (ready_fired p); [discriminate|].
      destruct (on_ready (state p)) as [r w'].
      intros H; inversion H; subst q. cbn. repeat split; auto. discriminate.
Qed.

Lemma step_safe (p q : proc R) : step p = Some q -> safe p -> safe q.
Proof.
  unfold Lifecycle.step, safe.
  destruct (pc p) eqn:Epc.
  - intros H S; inversion H; subst q. cbn. exact S.
  - destruct (done (state p)) eqn:D.
    + intros H S. destruct (background_keeps p q H) as (Hpc & Hcl & _).
      rewrite Hpc, Epc, Hcl. exact S.
    + intros H S; inversion H; subst q. cbn. rewrite D.
      split; [exact S | discriminate].
    + intros H S; inversion H; subst q. cbn. rewrite D.
      split; [exact S | discriminate].
  - intros H [_ S]; inversion H; subst q. cbn. split; [reflexivity | exact S].
  - intros H [C S].
    destruct (run_task p) as [| |ac|r] eqn:T;
      try (destruct (background_keeps p q H) as (Hpc & Hcl & Hd);
           rewrite Hpc, Epc, Hcl, (Hd C); split; assumption).
    inversion H; subst q. cbn. split; assumption.
  - intros H [C S].
    destruct checks_result; [destruct (done (state p)) as [|[|]|e] eqn:D|];
      inversion H; subst q; cbn; rewrite ?D; split;
      try assumption; try discriminate;
      try (exfalso; apply S; reflexivity).
  - discriminate.
Qed.

Lemma exec_safe (n : nat) : forall p, safe p -> safe (exec n p).
Proof.
  induction n as [|n IH]; intros p S; [exact S|]. simpl.
  destruct (step p) as [q|] eqn:E; [|exact S].
  apply IH. exact (step_safe p q E S).
Qed.

(** X1.  However long the event loop runs, whatever the handler does
    and however [client.start] behaves: [main] has not returned unless
    the client has been closed, and the client is not closed while the
    completion signal is still pending. *)
Theorem closed_before_return (w0 : world R) (n : nat) :
  (returned (exec n (start w0)) = None
   \/ closed (exec n (start w0)) = true)
  /\ (closed (exec n (start w0)) = false
      \/ done (state (exec n (start w0))) <> Pending).
Proof.
  assert (S : safe (exec n (start w0))) by (apply exec_safe; reflexivity).
  unfold safe, returned in *.
  destruct (pc (exec n (start w0))); auto; destruct S; auto.
Qed.

End AnyRun.

(** *** Runs in which the ready notification is dispatched *)

Section ReadyRun.

Variable R : Type.
Variable on_ready : M (world R) unit.
Variable checks_result : bool.
Variable epilogue : R -> list event.
Variable cl : client.
Variable token : string.
Variable after_close : result unit.

Hypothesis start_ready : client_start cl token = StartReady after_close.
Hypothesis epilogue_never_closes :
  forall r, close_count (epilogue r) = 0%nat.

Variable w0 : world R.
Hypothesis done_pending : done w0 = Pending.
Hypothesis not_closed_yet : close_count (trace w0) = 0%nat.

Local Abbreviation exec := (exec on_ready checks_result epilogue cl token).
Local Abbreviation after_handler :=
  (LifecycleTerms.after_handler R on_ready token w0).
Local Abbreviation verdict :=
  (LifecycleTerms.verdict R on_ready checks_result token w0).

Hypothesis handler_resolves : done after_handler <> Pending.
Hypothesis handler_never_closes :
  close_count (trace after_handler)
  = close_count (trace (log [ClientStart token] w0)).

(** From the eighth step on the loop rests in the state in which [main]
    has returned. *)
Lemma ready_run_final (n : nat) :
  (8 <= n)%nat ->
  returned (exec n (start w0)) = Some verdict
  /\ state (exec n (start w0))
     = final_world after_close verdict (epilogue (store after_handler))
                   after_handler.
Proof.
  intros Hn.
  pose proof (ready_path_visited R on_ready checks_result epilogue cl token
                after_close start_ready epilogue_never_closes w0
                done_pending not_closed_yet handler_resolves
                handler_never_closes) as Hv.
  rewrite (exec_visits_last _ _ _ _ _ _ _ _ n Hv) by exact Hn.
  cbn [LifecycleTerms.ready_path last]. unfold LifecycleTerms.at_return.
  cbn [returned pc state]. split; [reflexivity|].
  unfold final_world, LifecycleTerms.after_task, run_returns, log,
    teardown_events.
  destruct after_close as [u|e]; [|destruct (is_LoginFailure e)];
    cbn [snd store done trace];
    (destruct verdict as [[| |]|]; cbn [store done trace];
     rewrite <- ?app_assoc; cbn [app]; rewrite ?app_nil_r; reflexivity).
Qed.

End ReadyRun.

(** *** [Delete_Bot_DMs_With_User.main] from start to end *)

Section PurgeRun.

Import PurgeTerms.

Variable strip : string -> string.
Variable parse_int : string -> option Z.
Variable a : Purge.args.
Variable con : Cli.console.
Variable cl : client.
Variables (token : string) (t t' : list event) (uid : Z).
Variable after_close : result unit.

Hypothesis token_read :
  Cli.read_token (Purge.arg_token a) con = (inl token, t).
Hypothesis user_known :
  match Purge.arg_user_id a with
  | Some n => (inl n, [])
  | None => Cli.ask_user_id strip parse_int (Cli.lines con)
  end = (inl uid, t').
Hypothesis start_ready : client_start cl token = StartReady after_close.

Local Abbreviation main := (Purge.main strip parse_int a con cl).
Local Abbreviation on_ready := (Purge.on_ready cl uid (Purge.arg_sleep a)).

(** The closure when the ready notification arrives. *)
Local Abbreviation at_ready :=
  (mkWorld Purge.no_stats Pending ((t ++ t') ++ [ClientStart token])).

(** When the handler resolves [done], [main] is the prompts, the start
    of the client, the handler, the teardown and, on exit code 0 only,
    the summary. *)
Lemma purge_main_composed (fuel : nat) :
  done (snd (on_ready at_ready)) <> Pending ->
  (8 <= fuel)%nat ->
  main fuel
  = (Some (outcome_of (done (snd (on_ready at_ready)))),
     final_world after_close (outcome_of (done (snd (on_ready at_ready))))
                 (Purge.summary (store (snd (on_ready at_ready))))
                 (snd (on_ready at_ready))).
Proof.
  intros Hres Hf.
  rewrite (MainFacts.purge_main_session strip parse_int a con cl token t t'
             uid token_read user_known fuel).
  cbv zeta.
  destruct (ready_run_final Purge.stats on_ready true Purge.summary cl token
              after_close start_ready
              (fun _ => eq_refl)
              (mkWorld Purge.no_stats Pending (t ++ t')) eq_refl
              (MainFacts.purge_prompts_quiet strip parse_int a con token t t'
                 uid token_read user_known)
              Hres
              (PurgeFacts.purge_handler_never_closes cl uid
                 (Purge.arg_sleep a) at_ready eq_refl)
              fuel Hf) as [-> ->].
  reflexivity.
Qed.

(** When the handler is left suspended, [main] stays suspended on
    [asyncio.wait({done})]: it never returns and never closes the
    client, and from the third step of the loop on nothing changes. *)
Lemma purge_main_suspended :
  done (snd (on_ready at_ready)) = Pending ->
  (forall fuel,
     fst (main fuel) = None
     /\ close_count (trace (snd (main fuel))) = 0%nat)
  /\ (forall fuel, (3 <= fuel)%nat ->
        snd (main fuel) = snd (on_ready at_ready)).
Proof.
  intros Hstall.
  destruct (handler_stalls_hangs Purge.stats on_ready true Purge.summary cl
              token after_close start_ready
              (mkWorld Purge.no_stats Pending (t ++ t')) eq_refl Hstall
              (PurgeFacts.purge_handler_never_closes cl uid
                 (Purge.arg_sleep a) at_ready eq_refl))
    as [Hall Hend].
  split.
  - intros fuel.
    rewrite (MainFacts.purge_main_session strip parse_int a con cl token t t'
               uid token_read user_known fuel).
    cbv zeta. cbn [fst snd].
    destruct (Hall fuel) as (Hret & _ & _ & Hc). split; [exact Hret|].
    rewrite Hc. cbn [trace].
    apply (MainFacts.purge_prompts_quiet strip parse_int a con token t t'
             uid token_read user_known).
  - intros fuel Hf.
    rewrite (MainFacts.purge_main_session strip parse_int a con cl token t t'
               uid token_read user_known fuel).
    cbv zeta. cbn [snd]. rewrite (Hend fuel Hf). reflexivity.
Qed.

(** The prompts hand no message to [delete]. *)
Lemma ask_user_id_deletes_nothing (inputs : list Cli.answer) :
  deletions (snd (Cli.ask_user_id strip parse_int inputs)) = [].
Proof.
  induction inputs as [|[line| |] rest IH]; try reflexivity.
  cbn [Cli.ask_user_id].
  destruct (Cli.ask_user_id strip parse_int rest) as [r l]. simpl in IH.
  destruct (negb (truthy_str (Some (strip line)))); [exact IH|].
  destruct (parse_int (strip line)); [reflexivity | exact IH].
Qed.

Lemma prompts_delete_nothing : deletions (t ++ t') = [].
Proof.
  unfold deletions. rewrite flat_map_app.
  assert (Ht : deletions t = []).
  { revert token_read. unfold Cli.read_token.
    destruct (truthy_str (Purge.arg_token a)).
    - intros H; inversion H; reflexivity.
    - destruct (Cli.secret con) as [tok| |]; try discriminate.
      destruct (truthy_str (Some tok)); intros H; inversion H; reflexivity. }
  assert (Ht' : deletions t' = []).
  { destruct (Purge.arg_user_id a).
    - inversion user_known; reflexivity.
    - pose proof (ask_user_id_deletes_nothing (Cli.lines con)) as H.
      rewrite user_known in H. exact H. }
  unfold deletions in Ht, Ht'. rewrite Ht, Ht'. reflexivity.
Qed.

Lemma on_ready_setup_fails (d : diagnostic) (w : world Purge.stats) :
  setup_failure cl uid = Some d ->
  done w = Pending ->
  on_ready w
  = (Returns tt,
     mkWorld (store w) (Resolved false)
             (trace w ++ [Stdout (LoggedIn (client_user_id cl)); Stderr d])).
Proof.
  unfold setup_failure, Purge.on_ready, Purge.on_ready_body.
  intros Hd P.
  destruct (client_fetch_user cl uid) as [u|e].
  - destruct (user_create_dm u) as [dm|e].
    + destruct (chan_is_DMChannel dm); [discriminate|].
      inversion Hd; subst d.
      unfold try_except, bind, emit, modify, set_result. cbn. rewrite P.
      rewrite <- app_assoc. reflexivity.
    + destruct (is_HTTPException e); [|discriminate].
      inversion Hd; subst d.
      unfold try_except, bind, emit, modify, set_result. cbn. rewrite P.
      rewrite <- app_assoc. reflexivity.
  - destruct (is_NotFound e).
    + inversion Hd; subst d.
      unfold try_except, bind, emit, modify, set_result. cbn. rewrite P.
      rewrite <- app_assoc. reflexivity.
    + destruct (is_HTTPException e); [|discriminate].
      inversion Hd; subst d.
      unfold try_except, bind, emit, modify, set_result. cbn. rewrite P.
      rewrite <- app_assoc. reflexivity.
Qed.

(** X2.  When a set-up step of the purge fails (the user is not found
    or cannot be fetched, the DM channel cannot be opened, or it is not
    a DM channel), [main] returns 1: one diagnostic is printed, the
    client is then closed, no message is handed to [delete], the
    counters stay at zero and no summary is printed. *)
Theorem purge_setup_failure_exits_1 (d : diagnostic) (fuel : nat) :
  setup_failure cl uid = Some d ->
  (8 <= fuel)%nat ->
  main fuel
  = (Some (Exit 1),
     mkWorld Purge.no_stats (Resolved false)
             (t ++ t'
              ++ [ClientStart token; Stdout (LoggedIn (client_user_id cl));
                  Stderr d; ClientClose]
              ++ teardown_events after_close)).
Proof.
  intros Hd Hf.
  pose proof (on_ready_setup_fails d at_ready Hd eq_refl) as Hor.
  rewrite purge_main_composed; [|rewrite Hor; discriminate | exact Hf].
  rewrite Hor.
  unfold final_world. cbn [snd done store trace outcome_of].
  rewrite <- !app_assoc. cbn [app]. rewrite app_nil_r. reflexivity.
Qed.

Lemma deletions_app_start :
  deletions ((t ++ t') ++ [ClientStart token]) = [].
Proof.
  unfold deletions. rewrite flat_map_app.
  pose proof prompts_delete_nothing as H. unfold deletions in H.
  rewrite H. reflexivity.
Qed.

(** X3.  When the set-up succeeds, the pause between deletions ends,
    the stream ends normally and no deletion raises outside
    [HTTPException], [main] returns 0; the counters are the numbers of
    own messages whose deletion returned and raised, and the summary
    with these two numbers is the last thing printed, after the client
    has been closed. *)
Theorem purge_success_reports_counts
  (u : user) (dm : dm_channel) (fuel : nat) :
  pause_ends (Purge.arg_sleep a) = true ->
  client_fetch_user cl uid = Returns u ->
  user_create_dm u = Returns dm ->
  chan_is_DMChannel dm = true ->
  chan_history_end dm = Exhausted ->
  forallb (fun m => implb (own cl m) (contained m)) (chan_history dm) = true ->
  (8 <= fuel)%nat ->
  exists w_loop,
    Purge.purge_history cl (Purge.arg_sleep a) (chan_history dm) Exhausted
      (at_loop_start cl dm at_ready)
    = (Returns Resumed, w_loop)
    /\ main fuel
       = (Some (Exit 0),
          mkWorld (store w_loop) (Resolved true)
                  (trace w_loop
                   ++ ClientClose :: teardown_events after_close
                   ++ [Stdout (PurgeSummary (Purge.deleted (store w_loop))
                                            (Purge.failed (store w_loop)))]))
    /\ deletions (trace w_loop) = filter (own cl) (chan_history dm)
    /\ Purge.deleted (store w_loop)
       = Z.of_nat (List.length
                     (filter deletable (filter (own cl) (chan_history dm))))
    /\ Purge.failed (store w_loop)
       = Z.of_nat (List.length
                     (filter (fun m => negb (deletable m))
                             (filter (own cl) (chan_history dm)))).
Proof.
  intros Hp Hu Hdm Hk Hend Hall Hf.
  destruct (PurgeFacts.on_ready_completes cl uid (Purge.arg_sleep a) u dm
              at_ready Hp Hu Hdm Hk Hend Hall eq_refl)
    as (w_loop & Hloop & Hrun & Hdel & Hd & Hfl).
  exists w_loop. split; [exact Hloop|].
  rewrite purge_main_composed; [|rewrite Hrun; discriminate | exact Hf].
  rewrite Hrun.
  cbn [snd done store trace outcome_of] in *. unfold final_world.
  cbn [store done trace Purge.summary Purge.no_stats Purge.deleted
       Purge.failed] in *.
  split; [reflexivity|]. split; [|split; [exact Hd | exact Hfl]].
  rewrite Hdel, deletions_app_start. reflexivity.
Qed.

(** X4.  A deletion that raises outside [HTTPException] ends the
    purge at once (the pause between the deletions before it having
    ended): the attempt is counted in neither counter, no later message
    is handed to [delete], the exception is stored in [done], the
    client is still closed, and [main] ends with that exception without
    printing the summary. *)
Theorem purge_crash_stops_the_loop
  (u : user) (dm : dm_channel) (pre post : list message) (m : message)
  (e : exn) (fuel : nat) :
  pause_ends (Purge.arg_sleep a) = true ->
  client_fetch_user cl uid = Returns u ->
  user_create_dm u = Returns dm ->
  chan_is_DMChannel dm = true ->
  chan_history dm = pre ++ m :: post ->
  forallb (fun x => implb (own cl x) (contained x)) pre = true ->
  own cl m = true ->
  msg_delete m = Raises e ->
  is_HTTPException e = false ->
  (8 <= fuel)%nat ->
  exists w_pre,
    Purge.purge_history cl (Purge.arg_sleep a) pre Exhausted
      (at_loop_start cl dm at_ready)
    = (Returns Resumed, w_pre)
    /\ main fuel
       = (Some (Uncaught e),
          mkWorld (store w_pre) (Failed e)
                  (trace w_pre
                   ++ [MessageDelete m; ClientClose]
                   ++ teardown_events after_close))
    /\ deletions (trace w_pre) = filter (own cl) pre.
Proof.
  intros Hp Hu Hdm Hk Hh Hpre Ho He Hhttp Hf.
  destruct (PurgeFacts.purge_history_contained cl (Purge.arg_sleep a) pre
              Hp Hpre (at_loop_start cl dm at_ready))
    as (w_pre & Hrun & D & _ & Hdel & _).
  exists w_pre. split; [exact Hrun|]. split.
  - assert (Hor : on_ready at_ready
                  = (Returns tt,
                     mkWorld (store w_pre) (Failed e)
                             (trace w_pre ++ [MessageDelete m]))).
    { assert (Hloop :
        Purge.purge_history cl (Purge.arg_sleep a) (chan_history dm)
          (chan_history_end dm) (at_loop_start cl dm at_ready)
        = (Raises e,
           mkWorld (store w_pre) (done w_pre)
                   (trace w_pre ++ [MessageDelete m]))).
      { rewrite Hh, PurgeFacts.purge_history_app. unfold bind at 1.
        rewrite Hrun. cbn [Purge.purge_history]. unfold bind at 1.
        rewrite (PurgeFacts.purge_message_aborts cl (Purge.arg_sleep a) m e
                   w_pre Ho He Hhttp).
        reflexivity. }
      rewrite (PurgeFacts.on_ready_after_loop cl uid (Purge.arg_sleep a)
                 u dm at_ready Hu Hdm Hk eq_refl), Hloop.
      reflexivity. }
    rewrite purge_main_composed; [|rewrite Hor; discriminate | exact Hf].
    rewrite Hor.
    cbn [snd done store trace outcome_of]. unfold final_world.
    cbn [store done trace]. rewrite <- !app_assoc, app_nil_r. reflexivity.
  - rewrite Hdel. cbn [at_loop_start trace]. rewrite PurgeFacts.deletions_app.
    rewrite deletions_app_start. reflexivity.
Qed.

(** X5.  An error while paging the history is not contained, whatever
    its class: after the messages already received have been processed
    (own ones deleted and counted, the pause between deletions having
    ended), the exception, [Forbidden] and [HTTPException] included, is
    stored in [done] and [main] ends with it instead of returning 1;
    the counts are never printed. *)
Theorem purge_broken_stream_is_fatal
  (u : user) (dm : dm_channel) (e : exn) (fuel : nat) :
  pause_ends (Purge.arg_sleep a) = true ->
  client_fetch_user cl uid = Returns u ->
  user_create_dm u = Returns dm ->
  chan_is_DMChannel dm = true ->
  chan_history_end dm = Broken e ->
  forallb (fun x => implb (own cl x) (contained x)) (chan_history dm)
  = true ->
  (8 <= fuel)%nat ->
  exists w_loop,
    Purge.purge_history cl (Purge.arg_sleep a) (chan_history dm) Exhausted
      (at_loop_start cl dm at_ready)
    = (Returns Resumed, w_loop)
    /\ main fuel
       = (Some (Uncaught e),
          mkWorld (store w_loop) (Failed e)
                  (trace w_loop
                   ++ ClientClose :: teardown_events after_close))
    /\ deletions (trace w_loop) = filter (own cl) (chan_history dm).
Proof.
  intros Hp Hu Hdm Hk Hend Hall Hf.
  destruct (PurgeFacts.purge_history_contained cl (Purge.arg_sleep a) _
              Hp Hall (at_loop_start cl dm at_ready))
    as (w_loop & Hrun & D & _ & Hdel & _).
  exists w_loop. split; [exact Hrun|]. split.
  - assert (Hor : on_ready at_ready
                  = (Returns tt,
                     mkWorld (store w_loop) (Failed e) (trace w_loop))).
    { assert (Hloop :
        Purge.purge_history cl (Purge.arg_sleep a) (chan_history dm)
          (chan_history_end dm) (at_loop_start cl dm at_ready)
        = (Raises e, w_loop)).
      { rewrite Hend, <- (app_nil_r (chan_history dm)).
        rewrite PurgeFacts.purge_history_app. unfold bind at 1.
        rewrite Hrun. reflexivity. }
      rewrite (PurgeFacts.on_ready_after_loop cl uid (Purge.arg_sleep a)
                 u dm at_ready Hu Hdm Hk eq_refl), Hloop.
      destruct w_loop; reflexivity. }
    rewrite purge_main_composed; [|rewrite Hor; discriminate | exact Hf].
    rewrite Hor.
    cbn [snd done store trace outcome_of]. unfold final_world.
    cbn [store done trace]. rewrite app_nil_r. reflexivity.
  - rewrite Hdel. cbn [at_loop_start trace]. rewrite PurgeFacts.deletions_app.
    rewrite deletions_app_start. reflexivity.
Qed.

(** X20.  With [--sleep inf] the purge deletes one message and stops
    for ever: once the first deletion of an own message has returned,
    the handler is suspended in [asyncio.sleep] and never resumed.  No
    later message is handed to [delete], [done] stays pending, and
    [main] never returns, never closes the client and never prints the
    summary. *)
Theorem infinite_sleep_suspends_purge
  (u : user) (dm : dm_channel) (pre post : list message) (m : message) :
  Purge.arg_sleep a = PrimFloat.infinity ->
  client_fetch_user cl uid = Returns u ->
  user_create_dm u = Returns dm ->
  chan_is_DMChannel dm = true ->
  chan_history dm = pre ++ m :: post ->
  forallb (fun x => implb (own cl x) (contained x && negb (deletable x))) pre
  = true ->
  own cl m = true ->
  deletable m = true ->
  (forall fuel,
     fst (main fuel) = None
     /\ close_count (trace (snd (main fuel))) = 0%nat)
  /\ (forall fuel, (3 <= fuel)%nat ->
        done (snd (main fuel)) = Pending
        /\ Purge.deleted (store (snd (main fuel))) = 1
        /\ deletions (trace (snd (main fuel))) = filter (own cl) pre ++ [m]
        /\ exists before,
             trace (snd (main fuel))
             = before ++ [MessageDelete m; Sleep PrimFloat.infinity]).
Proof.
  intros Hinf Hu Hdm Hk Hh Hpre Ho Hdel.
  assert (Hloop : forall w,
            exists w1,
              Purge.purge_history cl PrimFloat.infinity pre Exhausted w
              = (Returns Resumed, w1)
              /\ Purge.deleted (store w1) = Purge.deleted (store w)
              /\ deletions (trace w1)
                 = deletions (trace w) ++ filter (own cl) pre).
  { clear Hh. induction pre as [|x l IH]; intros w.
    - exists w. cbn. rewrite app_nil_r. repeat split.
    - cbn [forallb] in Hpre. apply andb_true_iff in Hpre.
      destruct Hpre as [Hx Hl].
      cbn [Purge.purge_history filter]. unfold bind.
      destruct (own cl x) eqn:Hox; cbn [implb] in Hx.
      + apply andb_true_iff in Hx. destruct Hx as [Hc Hn].
        unfold contained, deletable in Hc, Hn.
        destruct (msg_delete x) as [[]|e] eqn:E; [discriminate|].
        rewrite (PurgeFacts.purge_message_counts_failure cl
                   PrimFloat.infinity x e w Hox E Hc).
        destruct (IH Hl
                    (mkWorld (Purge.count_failed (store w)) (done w)
                       (trace w
                        ++ [MessageDelete x;
                            Stderr (delete_diagnostic x e)])))
          as (w1 & Hrun & Hd1 & Hl1).
        exists w1. split; [exact Hrun|]. split; [exact Hd1|].
        rewrite Hl1. cbn [trace]. rewrite PurgeFacts.deletions_app.
        rewrite <- app_assoc. reflexivity.
      + rewrite (PurgeFacts.purge_message_skips cl PrimFloat.infinity x w Hox).
        apply IH. exact Hl. }
  destruct (Hloop (at_loop_start cl dm at_ready)) as (w1 & Hrun & Hd1 & Hl1).
  assert (Hor : on_ready at_ready
                = (Returns tt,
                   mkWorld (Purge.count_deleted (store w1)) Pending
                           (trace w1
                            ++ [MessageDelete m; Sleep PrimFloat.infinity]))).
  { assert (Hwhole :
      Purge.purge_history cl PrimFloat.infinity (chan_history dm)
        (chan_history_end dm) (at_loop_start cl dm at_ready)
      = (Returns Suspended,
         mkWorld (Purge.count_deleted (store w1)) (done w1)
                 (trace w1 ++ [MessageDelete m; Sleep PrimFloat.infinity]))).
    { rewrite Hh, PurgeFacts.purge_history_app. unfold bind at 1.
      rewrite Hrun. cbn [Purge.purge_history]. unfold bind at 1.
      rewrite (PurgeFacts.purge_message_deletes cl PrimFloat.infinity m w1
                 Ho Hdel).
      reflexivity. }
    rewrite (PurgeFacts.on_ready_after_loop cl uid (Purge.arg_sleep a)
               u dm at_ready Hu Hdm Hk eq_refl), Hinf, Hwhole.
    reflexivity. }
  destruct purge_main_suspended as [Hall Hend]; [rewrite Hor; reflexivity|].
  split; [exact Hall|].
  intros fuel Hf. rewrite (Hend fuel Hf), Hor. cbn [snd done store trace].
  split; [reflexivity|]. split.
  - cbn [Purge.count_deleted Purge.deleted]. rewrite Hd1. reflexivity.
  - split.
    + rewrite PurgeFacts.deletions_app, Hl1.
      cbn [at_loop_start trace]. rewrite PurgeFacts.deletions_app.
      rewrite deletions_app_start. reflexivity.
    + exists (trace w1). reflexivity.
Qed.

End PurgeRun.

(** *** [List_Guild_Invites.main] from start to end *)

Section InvitesRun.

Import Invites InvitesTerms.

Variable isoformat : Datetime.datetime -> string.
Variable strip : string -> string.
Variable parse_int : string -> option Z.
Variable a : Invites.args.
Variable con : Cli.console.
Variable cl : client.
Variables (token : string) (t t' : list event) (gid : Z).
Variable after_close : result unit.

Hypothesis token_read :
  Cli.read_token (Invites.arg_token a) con = (inl token, t).
Hypothesis guild_known :
  match Invites.arg_guild_id a with
  | Some n => (Some n, [])
  | None => Cli.prompt_for_int strip parse_int "Guild ID: " (Cli.lines con)
  end = (Some gid, t').
Hypothesis start_ready : client_start cl token = StartReady after_close.

Local Abbreviation main := (Invites.main isoformat strip parse_int a con cl).
Local Abbreviation on_ready := (Invites.on_ready isoformat cl gid a).
Local Abbreviation at_ready :=
  (mkWorld Invites.no_results Pending ((t ++ t') ++ [ClientStart token])).

Lemma invites_main_composed (fuel : nat) :
  (8 <= fuel)%nat ->
  main fuel
  = (Some (outcome_of (done (snd (on_ready at_ready)))),
     final_world after_close (outcome_of (done (snd (on_ready at_ready))))
                 [Stdout Report] (snd (on_ready at_ready))).
Proof.
  intros Hf.
  rewrite (MainFacts.invites_main_session strip parse_int isoformat a con cl
             token t t' gid token_read guild_known fuel).
  cbv zeta.
  destruct (ready_run_final Invites.results on_ready true
              (fun _ => [Stdout Report]) cl token
              after_close start_ready
              (fun _ => eq_refl)
              (mkWorld Invites.no_results Pending (t ++ t')) eq_refl
              (MainFacts.invites_prompts_quiet strip parse_int a con token
                 t t' gid token_read guild_known)
              (proj1 (InvitesFacts.invites_handler_resolves
                        isoformat cl gid a at_ready eq_refl))
              (proj2 (InvitesFacts.invites_handler_resolves
                        isoformat cl gid a at_ready eq_refl))
              fuel Hf) as [-> ->].
  reflexivity.
Qed.

(** X9.  When the guild is neither in the cache nor fetchable
    ([fetch_guild] raises an [HTTPException]), [main] returns 1 after
    one diagnostic and the teardown: the invites are not fetched,
    nothing is created and nothing is reported. *)
Theorem unknown_guild_exits_1 (e : exn) (fuel : nat) :
  client_get_guild cl gid = None ->
  client_fetch_guild cl gid = Raises e ->
  is_HTTPException e = true ->
  (8 <= fuel)%nat ->
  main fuel
  = (Some (Exit 1),
     mkWorld Invites.no_results (Resolved false)
             (t ++ t'
              ++ [ClientStart token; Stderr GuildUnavailable; ClientClose]
              ++ teardown_events after_close)).
Proof.
  intros Hg Hf He Hfuel.
  assert (Hor : on_ready at_ready
                = (Returns tt,
                   mkWorld Invites.no_results (Resolved false)
                           (trace at_ready ++ [Stderr GuildUnavailable]))).
  { unfold Invites.on_ready, Invites.on_ready_body, try_except.
    unfold bind at 1.
    rewrite (InvitesFacts.resolve_guild_fails cl gid e at_ready Hg Hf), He.
    reflexivity. }
  rewrite (invites_main_composed fuel Hfuel), Hor.
  cbn [snd done store trace outcome_of]. unfold final_world.
  cbn [store done trace]. rewrite <- !app_assoc, app_nil_r. reflexivity.
Qed.

End InvitesRun.

End RunFacts.

(** ** The prompts for a user or guild ID *)

Module PromptFacts.

Import PromptTerms.

Section Prompts.

Variable strip : string -> string.
Variable parse_int : string -> option Z.

Local Abbreviation ask_user_id := (Cli.ask_user_id strip parse_int).
Local Abbreviation prompt_for_int := (Cli.prompt_for_int strip parse_int).
Local Abbreviation blank := (PromptTerms.blank strip).
Local Abbreviation invalid := (PromptTerms.invalid strip parse_int).
Local Abbreviation rejected := (PromptTerms.rejected strip parse_int).

(** A rejected answer costs one prompt, and one complaint unless the
    line was blank; the loop then goes on with the rest of the input. *)
Lemma ask_user_id_rejects (x : Cli.answer) (rest : list Cli.answer) :
  rejected x = true ->
  ask_user_id (x :: rest)
  = (fst (ask_user_id rest),
     Input "Target user ID: "
     :: (if invalid x then [Stderr InvalidUserId] else [])
     ++ snd (ask_user_id rest)).
Proof.
  unfold PromptTerms.rejected, PromptTerms.blank, PromptTerms.invalid.
  destruct x as [line| |]; try discriminate. cbn [Cli.ask_user_id].
  destruct (ask_user_id rest) as [r l]. cbn [fst snd].
  destruct (truthy_str (Some (strip line))); cbn [negb andb orb];
    [|reflexivity].
  destruct (parse_int (strip line)); [discriminate | reflexivity].
Qed.

Lemma prompt_for_int_rejects (text : string) (x : Cli.answer)
  (rest : list Cli.answer) :
  rejected x = true ->
  prompt_for_int text (x :: rest)
  = (fst (prompt_for_int text rest),
     Input text
     :: (if invalid x then [Stderr DigitsOnly] else [])
     ++ snd (prompt_for_int text rest)).
Proof.
  unfold PromptTerms.rejected, PromptTerms.blank, PromptTerms.invalid.
  destruct x as [line| |]; try discriminate. cbn [Cli.prompt_for_int].
  destruct (prompt_for_int text rest) as [r l]. cbn [fst snd].
  destruct (truthy_str (Some (strip line))); cbn [negb andb orb];
    [|reflexivity].
  destruct (parse_int (strip line)); [discriminate | reflexivity].
Qed.

Lemma count_cons_input (P : event -> bool) (e : event) (l : list event) :
  List.length (filter P (e :: l))
  = ((if P e then 1 else 0) + List.length (filter P l))%nat.
Proof. cbn [filter]. destruct (P e); reflexivity. Qed.

(** X6.  The prompt for the user ID takes the first line that is a
    number once stripped: every line before it that is blank or not a
    number is asked again (one prompt each, and one complaint for each
    line that is not blank), and nothing after it is read. *)
Theorem ask_user_id_takes_first_number
  (skipped : list Cli.answer) (line : string) (n : Z)
  (rest : list Cli.answer) :
  forallb rejected skipped = true ->
  truthy_str (Some (strip line)) = true ->
  parse_int (strip line) = Some n ->
  fst (ask_user_id (skipped ++ Cli.Typed line :: rest)) = inl n
  /\ List.length
       (filter is_Input
               (snd (ask_user_id (skipped ++ Cli.Typed line :: rest))))
     = S (List.length skipped)
  /\ List.length
       (filter is_complaint
               (snd (ask_user_id (skipped ++ Cli.Typed line :: rest))))
     = List.length (filter invalid skipped)
  /\ ask_user_id (skipped ++ Cli.Typed line :: rest)
     = ask_user_id (skipped ++ [Cli.Typed line]).
Proof.
  intros Hs Ht Hp.
  assert (Hlast : forall tail,
             ask_user_id (Cli.Typed line :: tail)
             = (inl n, [Input "Target user ID: "])).
  { intros tail. cbn [Cli.ask_user_id]. rewrite Ht, Hp. cbn [negb].
    destruct (ask_user_id tail); reflexivity. }
  assert (Hrun : forall tail,
             ask_user_id (skipped ++ Cli.Typed line :: tail)
             = (inl n,
                flat_map
                  (fun x =>
                     Input "Target user ID: "
                     :: (if invalid x then [Stderr InvalidUserId] else []))
                  skipped
                ++ [Input "Target user ID: "])).
  { intros tail. induction skipped as [|x skipped IH]; cbn [app flat_map].
    - apply Hlast.
    - cbn [forallb] in Hs. apply andb_true_iff in Hs.
      destruct Hs as [Hx Hs].
      rewrite (ask_user_id_rejects x _ Hx), (IH Hs). cbn [fst snd].
      rewrite <- app_assoc. reflexivity. }
  rewrite !Hrun. cbn [fst snd]. split; [reflexivity|].
  rewrite !filter_app, !length_app. cbn.
  split; [|split; [|reflexivity]].
  - rewrite Nat.add_comm. cbn. f_equal. clear.
    induction skipped as [|x skipped IH]; [reflexivity|].
    cbn [flat_map app]. rewrite count_cons_input, filter_app, length_app.
    cbn [is_Input]. rewrite IH.
    destruct (invalid x); reflexivity.
  - rewrite Nat.add_0_r. clear.
    induction skipped as [|x skipped IH]; [reflexivity|].
    cbn [flat_map app filter]. fold (filter invalid skipped).
    destruct (invalid x); cbn [app filter is_complaint List.length];
      rewrite ?filter_app, ?length_app, IH; reflexivity.
Qed.

(** X7.  When the input ends, or is interrupted, before any line is a
    number, the prompt for the user ID gives exit code 2 and its last
    output is the diagnostic that no user ID was provided. *)
Theorem ask_user_id_abandoned
  (skipped rest : list Cli.answer) :
  forallb rejected skipped = true ->
  abandoned rest = true ->
  fst (ask_user_id (skipped ++ rest)) = inr 2
  /\ exists before,
       snd (ask_user_id (skipped ++ rest))
       = before ++ [Input "Target user ID: "; Stderr NoUserId]
  /\ fst (prompt_for_int "Guild ID: " (skipped ++ rest)) = None.
Proof.
  intros Hs Hr.
  assert (Hstop : ask_user_id rest
                  = (inr 2, [Input "Target user ID: "; Stderr NoUserId])
                  /\ fst (prompt_for_int "Guild ID: " rest) = None).
  { destruct rest as [|[line| |] tail]; try discriminate;
      split; reflexivity. }
  destruct Hstop as [Hstop Hstop'].
  induction skipped as [|x skipped IH]; cbn [app].
  - rewrite Hstop, Hstop'. split; [reflexivity|].
    exists []. split; reflexivity.
  - cbn [forallb] in Hs. apply andb_true_iff in Hs. destruct Hs as [Hx Hs].
    destruct (IH Hs) as (I1 & before & I2 & I3).
    rewrite (ask_user_id_rejects x _ Hx).
    rewrite (prompt_for_int_rejects "Guild ID: " x _ Hx). cbn [fst snd].
    split; [exact I1|].
    exists (Input "Target user ID: "
            :: (if invalid x then [Stderr InvalidUserId] else []) ++ before).
    split; [|exact I3]. rewrite I2.
    cbn [app]. rewrite <- app_assoc. reflexivity.
Qed.

(** X8.  The inline loop of [Delete_Bot_DMs_With_User.main] and
    [prompt_for_int] of [List_Guild_Invites.py] accept the same
    answers: on every input they yield the same number or both give
    up, after the same number of prompts.  A number they yield is the
    value of one of the typed lines, and when they give up the exit
    code is 2. *)
Theorem prompts_agree (text : string) (inputs : list Cli.answer) :
  fst (prompt_for_int text inputs)
  = match fst (ask_user_id inputs) with
    | inl n => Some n
    | inr _ => None
    end
  /\ List.length (filter is_Input (snd (prompt_for_int text inputs)))
     = List.length (filter is_Input (snd (ask_user_id inputs)))
  /\ match fst (ask_user_id inputs) with
     | inl n =>
         exists line,
           In (Cli.Typed line) inputs /\ parse_int (strip line) = Some n
     | inr code => code = 2
     end.
Proof.
  induction inputs as [|[line| |] rest IH];
    try (repeat split; reflexivity).
  cbn [Cli.ask_user_id Cli.prompt_for_int].
  destruct (ask_user_id rest) as [r l].
  destruct (prompt_for_int text rest) as [r' l'].
  cbn [fst snd] in IH. destruct IH as (I1 & I2 & I3).
  destruct (negb (truthy_str (Some (strip line)))).
  - cbn [fst snd]. rewrite !count_cons_input. cbn [is_Input].
    split; [exact I1|]. split; [now rewrite I2|].
    destruct r as [n|code]; [|exact I3].
    destruct I3 as (line' & Hin & Hp). exists line'.
    split; [now right | exact Hp].
  - destruct (parse_int (strip line)) as [n|] eqn:Hp.
    + cbn [fst snd]. repeat split. exists line. split; [now left | exact Hp].
    + cbn [fst snd]. rewrite !count_cons_input. cbn [is_Input].
      split; [exact I1|]. split; [now rewrite I2|].
      destruct r as [n|code]; [|exact I3].
      destruct I3 as (line' & Hin & Hp'). exists line'.
      split; [now right | exact Hp'].
Qed.

End Prompts.

End PromptFacts.

(** ** More on the invite engine *)

Module InvitesMore.

Import Invites InvitesTerms.

(** X10.  [choose_channel_for_invite] yields no channel in exactly two
    situations: an explicit (non-zero) channel ID that is not cached and
    whose fetch raises an [HTTPException]; or no explicit ID, no system
    channel, no text channel, and no guild channel with a
    [create_invite] attribute. *)
Theorem no_channel_iff (g : guild) (preferred_id : option Z) :
  choose_channel_for_invite g preferred_id = Returns None
  <-> (exists id e,
         preferred_id = Some id /\ id <> 0
         /\ guild_get_channel g id = None
         /\ guild_fetch_channel g id = Raises e
         /\ is_HTTPException e = true)
      \/ (truthy_int preferred_id = false
          /\ guild_system_channel g = None
          /\ guild_text_channels g = []
          /\ forallb (fun c => negb (has_create_invite c)) (guild_channels g)
             = true).
Proof.
  unfold choose_channel_for_invite.
  destruct (truthy_int preferred_id) eqn:T.
  - destruct preferred_id as [id|]; [|discriminate].
    assert (Hid : id <> 0)
      by (intros ->; discriminate).
    split.
    + intros H. left.
      destruct (guild_get_channel g id) as [ch|] eqn:G; [discriminate|].
      destruct (guild_fetch_channel g id) as [ch|e] eqn:F; [discriminate|].
      destruct (is_HTTPException e) eqn:He.
      * exists id, e. repeat split; assumption.
      * assert (is_NotFound e = false /\ is_Forbidden e = false) as [N Fb]
          by (destruct e; split; try reflexivity; discriminate).
        rewrite N, Fb in H. discriminate.
    + intros [(id' & e & Hp & _ & G & F & He) | (Hf & _)];
        [|discriminate].
      inversion Hp; subst id'. rewrite G, F, He, !orb_true_r. reflexivity.
  - split.
    + intros H. right. split; [reflexivity|].
      destruct (guild_system_channel g); [discriminate|].
      destruct (PySort.sorted position_key PySort.lt_int_pair
                              (guild_text_channels g)) as [|c r] eqn:E;
        [|discriminate].
      apply PySortFacts.sorted_nil_iff in E.
      repeat split; [exact E|].
      inversion H as [Hfind].
      apply forallb_forall. intros c Hc.
      destruct (has_create_invite c) eqn:Hcap; [|reflexivity].
      exfalso.
      destruct (find has_create_invite (guild_channels g)) eqn:Ef;
        [discriminate|].
      pose proof (find_none _ _ Ef c Hc) as Hn. congruence.
    + intros [(id & e & Hp & Hid & _) | (_ & Hs & Ht & Hall)].
      * subst preferred_id. unfold truthy_int in T.
        destruct (Z.eqb_spec id 0); [contradiction | discriminate].
      * rewrite Hs, Ht. cbn.
        destruct (find has_create_invite (guild_channels g)) as [c|] eqn:Ef;
          [|reflexivity].
        apply find_some in Ef. destruct Ef as [Hin Hcap].
        rewrite forallb_forall in Hall. specialize (Hall c Hin).
        rewrite Hcap in Hall. discriminate.
Qed.

Section Handler.

Variable isoformat : Datetime.datetime -> string.
Variable cl : client.
Variable guild_id : Z.
Variable a : args.

Local Abbreviation on_ready := (Invites.on_ready isoformat cl guild_id a).
Local Abbreviation invite_record := (Invites.invite_record isoformat).
Local Abbreviation shown := (InvitesTerms.shown isoformat a).

Lemma shown_snoc (l : list invite) (inv : invite) :
  shown (l ++ [inv])
  = shown l ++ (if visible a inv then [invite_record inv] else []).
Proof.
  unfold InvitesTerms.shown. rewrite filter_app, map_app. cbn [filter].
  destruct (visible a inv); reflexivity.
Qed.

(** X11.  A created invite is visible at once, without a second fetch:
    [created_invite] is its record, and the listing consists of the
    records of the fetched invites together with the new one.  The new
    one is left out of the listing only when it comes back flagged
    revoked and [--include-revoked] is not given. *)
Theorem created_invite_is_listed
  (g : guild) (w : world results) (ch : channel)
  (call : create_args -> result invite) (inv : invite) :
  done w = Pending ->
  store w = no_results ->
  guild_resolves cl guild_id g ->
  harmless (guild_invites g) = true ->
  should_create a (fetched_list g) = true ->
  choose_channel_for_invite g (arg_channel_id a) = Returns (Some ch) ->
  ch_create_invite ch = Some call ->
  call (creation_args a) = Returns inv ->
  done (snd (on_ready w)) = Resolved true
  /\ created_invite (store (snd (on_ready w))) = Some (invite_record inv)
  /\ Permutation
       (invites (store (snd (on_ready w))))
       (shown (fetched_list g)
        ++ (if visible a inv then [invite_record inv] else []))
  /\ trace (snd (on_ready w))
     = trace w ++ fetch_events g ++ [InviteCreate ch (creation_args a)].
Proof.
  intros P Hs Hg Hf Hsc Hch Hattr Hcall.
  rewrite (InvitesFacts.on_ready_spec isoformat cl guild_id a g w P Hg Hf).
  cbv zeta. unfold creation_attempt. rewrite Hsc, Hch, Hattr, Hcall.
  cbn [attempt_error attempt_record attempt_listed attempt_events
       snd done store trace invites created_invite].
  rewrite Hs. cbn [invites no_results app].
  repeat split.
  rewrite <- shown_snoc. apply PySortFacts.sorted_perm.
Qed.

(** X12.  [--only-if-none] counts every fetched invite, revoked ones
    included, although the listing leaves the revoked ones out: when
    all fetched invites are flagged revoked and [--include-revoked] is
    not given, the listing is empty and still no invite is created. *)
Theorem revoked_invites_block_creation
  (g : guild) (w : world results) (l : list invite) :
  done w = Pending ->
  store w = no_results ->
  guild_resolves cl guild_id g ->
  guild_invites g = Returns l ->
  l <> [] ->
  forallb (fun inv => truthy_bool (inv_revoked inv)) l = true ->
  arg_include_revoked a = false ->
  arg_only_if_none a = true ->
  on_ready w
  = (Returns tt,
     mkWorld (mkResults [] None) (Resolved true) (trace w ++ [InvitesFetch])).
Proof.
  intros P Hs Hg Hl Hne Hrev Hinc Honly.
  assert (Hf : harmless (guild_invites g) = true) by (now rewrite Hl).
  rewrite (InvitesFacts.on_ready_spec isoformat cl guild_id a g w P Hg Hf).
  cbv zeta.
  assert (Hfl : fetched_list g = l) by (unfold fetched_list; now rewrite Hl).
  assert (Hsc : should_create a l = false).
  { unfold should_create. rewrite Honly.
    destruct l as [|x l']; [contradiction|].
    cbn. now rewrite andb_false_r. }
  unfold creation_attempt, fetch_events. rewrite Hfl, Hsc, Hl.
  cbn [attempt_error attempt_record attempt_listed attempt_events].
  rewrite Hs. cbn [invites created_invite no_results app].
  assert (Hshown : shown l = []).
  { unfold InvitesTerms.shown.
    replace (filter (visible a) l) with (@nil invite); [reflexivity|].
    symmetry. clear Hl Hfl Hsc Hne.
    induction l as [|x l' IH]; [reflexivity|].
    cbn [forallb] in Hrev. apply andb_true_iff in Hrev.
    destruct Hrev as [Hx Hrev]. cbn [filter]. unfold visible at 1.
    rewrite Hinc, Hx. cbn. exact (IH Hrev). }
  rewrite Hshown. reflexivity.
Qed.

(** X13.  The engine cannot tell a guild without invites from one
    whose invites it may not list: when [guild.invites()] raises
    [Forbidden] or another [HTTPException], [--create] goes ahead even
    with [--only-if-none], and the creation call is issued as soon as a
    channel with [create_invite] is resolved. *)
Theorem unlistable_invites_count_as_none
  (g : guild) (w : world results) (e : exn) (ch : channel)
  (call : create_args -> result invite) :
  done w = Pending ->
  guild_resolves cl guild_id g ->
  guild_invites g = Raises e ->
  is_HTTPException e = true ->
  arg_create a = true ->
  choose_channel_for_invite g (arg_channel_id a) = Returns (Some ch) ->
  ch_create_invite ch = Some call ->
  should_create a (fetched_list g) = true
  /\ In (InviteCreate ch (creation_args a)) (trace (snd (on_ready w))).
Proof.
  intros P Hg Hl He Hc Hch Hattr.
  assert (Hf : harmless (guild_invites g) = true)
    by (rewrite Hl; exact He).
  assert (Hsc : should_create a (fetched_list g) = true).
  { unfold should_create, fetched_list. rewrite Hl, Hc. cbn.
    now rewrite orb_true_r. }
  split; [exact Hsc|].
  rewrite (InvitesFacts.on_ready_spec isoformat cl guild_id a g w P Hg Hf).
  cbv zeta. cbn [snd trace]. unfold creation_attempt.
  rewrite Hsc, Hch, Hattr.
  apply in_or_app. right. apply in_or_app. right.
  destruct (call (creation_args a)) as [inv|e'];
    [|destruct (is_HTTPException e')]; left; reflexivity.
Qed.

End Handler.

End InvitesMore.

(** ** Pauses between deletions *)

Module PauseFacts.

Import Purge PurgeTerms PauseTerms.

Lemma pauses_app (t u : list event) :
  pauses (t ++ u) = (pauses t + pauses u)%nat.
Proof. unfold pauses. rewrite filter_app, length_app. reflexivity. Qed.

Section Loop.

Variable cl : client.
Variable sleep : float.

Local Abbreviation purge_history := (Purge.purge_history cl sleep).

(** X14.  The loop pauses after a successful deletion and at no other
    time: whatever the history and however the loop ends (exhausted,
    broken stream, or a deletion that raises), the number of
    [asyncio.sleep] calls it adds equals the number of deletions it
    counted when [--sleep] is positive, and is zero otherwise (zero,
    negative or not a number). *)
Theorem pauses_follow_successes
  (h : list message) (fin : stream_end) (w : world stats) :
  Z.of_nat (pauses (trace (snd (purge_history h fin w))))
  = Z.of_nat (pauses (trace w))
    + (if PrimFloat.ltb 0 sleep
       then deleted (store (snd (purge_history h fin w))) - deleted (store w)
       else 0).
Proof.
  revert w. induction h as [|m h IH]; intros w.
  - cbn [Purge.purge_history]. destruct fin; unfold ret, raise; cbn [snd];
      destruct (PrimFloat.ltb 0 sleep); lia.
  - cbn [Purge.purge_history]. unfold bind.
    destruct (own cl m) eqn:Ho.
    + destruct (msg_delete m) as [[]|e] eqn:E.
      * rewrite (PurgeFacts.purge_message_deletes cl sleep m w Ho)
          by (unfold deletable; now rewrite E).
        assert (Hstep :
          Z.of_nat (pauses (trace w ++ MessageDelete m :: PurgeTerms.pause sleep))
          = Z.of_nat (pauses (trace w))
            + (if PrimFloat.ltb 0 sleep then 1 else 0)).
        { rewrite pauses_app. unfold PurgeTerms.pause.
          destruct (PrimFloat.ltb 0 sleep); cbn; lia. }
        destruct (PurgeTerms.after_pause sleep).
        -- rewrite IH. cbn [trace store]. rewrite Hstep.
           unfold count_deleted. cbn [deleted].
           destruct (PrimFloat.ltb 0 sleep); lia.
        -- unfold ret. cbn [snd trace store]. rewrite Hstep.
           unfold count_deleted. cbn [deleted].
           destruct (PrimFloat.ltb 0 sleep); lia.
      * destruct (is_HTTPException e) eqn:He.
        -- rewrite (PurgeFacts.purge_message_counts_failure cl sleep m e w
                      Ho E He).
           rewrite IH. cbn [trace store]. rewrite pauses_app.
           unfold count_failed. cbn [deleted].
           destruct (PrimFloat.ltb 0 sleep); cbn; lia.
        -- rewrite (PurgeFacts.purge_message_aborts cl sleep m e w Ho E He).
           cbn [snd trace store]. rewrite pauses_app.
           destruct (PrimFloat.ltb 0 sleep); cbn; lia.
    + rewrite (PurgeFacts.purge_message_skips cl sleep m w Ho). apply IH.
Qed.

End Loop.

End PauseFacts.

(** ** The guild listing *)

Module StableFacts.

Import PySort.

Section ByKey.

Variables A K : Type.
Variable key : A -> K.
Variable lt : K -> K -> bool.

(** A class of keys none of which is smaller than another. *)
Variable same : K -> bool.
Hypothesis same_not_lt :
  forall x y, same x = true -> same y = true -> lt x y = false.

Lemma insert_stable (x : A) (l : list A) :
  filter (fun y => same (key y)) (insert key lt x l)
  = filter (fun y => same (key y)) (x :: l).
Proof.
  induction l as [|y r IH]; [reflexivity|].
  cbn [insert]. destruct (lt (key y) (key x)) eqn:L; [|reflexivity].
  cbn [filter] in *. destruct (same (key y)) eqn:Sy.
  - destruct (same (key x)) eqn:Sx.
    + rewrite (same_not_lt _ _ Sy Sx) in L. discriminate.
    + rewrite IH. reflexivity.
  - exact IH.
Qed.

(** The sort is stable: elements with equivalent keys keep their
    order. *)
Lemma sorted_stable (l : list A) :
  filter (fun y => same (key y)) (sorted key lt l)
  = filter (fun y => same (key y)) l.
Proof.
  induction l as [|x l IH]; [reflexivity|].
  cbn [sorted fold_right]. fold (sorted key lt l).
  rewrite insert_stable. cbn [filter]. rewrite IH. reflexivity.
Qed.

End ByKey.

End StableFacts.

Module GuildsMore.

Import Lifecycle LifecycleTerms RunTerms Guilds.

Section GuildsRun.

Variable lower : string -> string.
Variable a : Guilds.args.
Variable con : Cli.console.
Variable cl : client.
Variables (token : string) (t : list event).
Variable after_close : result unit.

Hypothesis token_read :
  Cli.read_token (Guilds.arg_token a) con = (inl token, t).
Hypothesis start_ready : client_start cl token = StartReady after_close.

Local Abbreviation main := (Guilds.main lower cl a con).
Local Abbreviation on_ready := (Guilds.on_ready lower cl a).
Local Abbreviation guild_item := (Guilds.guild_item a).
Local Abbreviation name_key := (Guilds.name_key lower).

Lemma collect_appends (l : list cached_guild) (w : world (list item)) :
  collect a l w
  = (Returns tt, mkWorld (store w ++ map guild_item l) (done w) (trace w)).
Proof.
  revert w. induction l as [|g l IH]; intros w.
  - cbn. rewrite app_nil_r. destruct w; reflexivity.
  - cbn [Guilds.collect map]. unfold bind, update, modify. cbn.
    rewrite IH. cbn [store done trace]. rewrite <- app_assoc. reflexivity.
Qed.

Lemma on_ready_lists (w : world (list item)) :
  done w = Pending ->
  on_ready w
  = (Returns tt,
     mkWorld (PySort.sorted name_key String.ltb
                (store w ++ map guild_item (client_guilds cl)))
             (Resolved true) (trace w)).
Proof.
  intros P. unfold Guilds.on_ready, try_except, bind.
  rewrite collect_appends. unfold update, modify, set_result. cbn.
  rewrite P. reflexivity.
Qed.

(** X15.  [List_Guilds.py], once the ready notification is dispatched,
    always exits with 0 and prints the listing after the client is
    closed.  The listing holds one item per guild of [client.guilds],
    ordered by lower-cased name ([None] counting as the empty string),
    and guilds whose lower-cased names are equal keep the order of
    [client.guilds]. *)
Theorem guilds_listing_sorted (fuel : nat) :
  (8 <= fuel)%nat ->
  let data :=
    PySort.sorted name_key String.ltb (map guild_item (client_guilds cl)) in
  main fuel
  = (Some (Exit 0),
     mkWorld data (Resolved true)
             (t ++ [ClientStart token; ClientClose]
                ++ teardown_events after_close ++ [Stdout Report]))
  /\ Permutation data (map guild_item (client_guilds cl))
  /\ StronglySorted (SortTerms.precedes name_key String.ltb) data
  /\ forall n,
       filter (fun x => String.eqb (name_key x) n) data
       = map guild_item
           (filter (fun g => String.eqb (lower (or_empty (cg_name g))) n)
                   (client_guilds cl)).
Proof.
  intros Hf data. repeat split.
  - rewrite (MainFacts.guilds_main_session lower a con cl token t token_read
               fuel).
    cbv zeta.
    destruct (RunFacts.ready_run_final (list item) on_ready false
                (fun _ => [Stdout Report]) cl token after_close start_ready
                (fun _ => eq_refl)
                (mkWorld [] Pending t) eq_refl
                (MainFacts.guilds_prompt_quiet a con token t token_read)
                (proj1 (GuildsFacts.guilds_handler_resolves lower cl a
                          (log [ClientStart token] (mkWorld [] Pending t))
                          eq_refl))
                (proj2 (GuildsFacts.guilds_handler_resolves lower cl a
                          (log [ClientStart token] (mkWorld [] Pending t))
                          eq_refl))
                fuel Hf) as [-> ->].
    unfold LifecycleTerms.verdict, LifecycleTerms.after_handler, log,
      final_world.
    rewrite on_ready_lists by reflexivity.
    cbn [snd store done trace app]. rewrite <- app_assoc. reflexivity.
  - apply PySortFacts.sorted_perm.
  - apply PySortFacts.sorted_ordered.
    + intros x y. apply PySortFacts.string_ltb_asym.
    + intros x y z. apply PySortFacts.string_ge_trans.
  - intros n. unfold data.
    rewrite (StableFacts.sorted_stable _ _ name_key String.ltb
               (fun k => String.eqb k n)).
    + induction (client_guilds cl) as [|g l IH]; [reflexivity|].
      cbn [map filter]. unfold Guilds.name_key at 1.
      cbn [Guilds.guild_item Guilds.name].
      destruct (String.eqb (lower (or_empty (cg_name g))) n);
        cbn [map]; rewrite IH; reflexivity.
    + intros x y Hx Hy. apply String.eqb_eq in Hx, Hy. subst.
      apply PySortFacts.string_ltb_irrefl.
Qed.

End GuildsRun.

End GuildsMore.

(** ** The CSV output *)

Module CsvFacts.

Import Csv CsvTerms.

Lemma split_field (f : string) :
  has_comma f = false -> split_commas f = [f].
Proof.
  induction f as [|c r IH]; [reflexivity|].
  cbn [has_comma split_commas]. intros H. apply orb_false_iff in H.
  destruct H as [Hc Hr]. rewrite Hc, (IH Hr). reflexivity.
Qed.

Lemma split_field_then (f rest : string) :
  has_comma f = false ->
  split_commas (f ++ String ","%char rest) = f :: split_commas rest.
Proof.
  induction f as [|c r IH]; [reflexivity|].
  cbn [has_comma]. intros H. apply orb_false_iff in H.
  destruct H as [Hc Hr]. cbn [append split_commas]. rewrite Hc, (IH Hr).
  reflexivity.
Qed.

(** Splitting a joined line gives the fields back when no field holds a
    comma. *)
Lemma split_join (fields : list string) :
  fields <> [] ->
  forallb (fun f => negb (has_comma f)) fields = true ->
  split_commas (join fields) = fields.
Proof.
  induction fields as [|f fs IH]; [contradiction|]. intros _ Hall.
  cbn [forallb] in Hall. apply andb_true_iff in Hall.
  destruct Hall as [Hf Hfs]. apply negb_true_iff in Hf.
  destruct fs as [|g gs].
  - cbn. apply split_field. exact Hf.
  - unfold join in *. cbn [concat]. cbn [concat] in IH.
    change (f ++ "," ++ match gs with
                        | [] => g
                        | _ :: _ => g ++ "," ++ concat "," gs
                        end)%string
      with (f ++ String ","%char (match gs with
                                  | [] => g
                                  | _ :: _ => g ++ "," ++ concat "," gs
                                  end))%string.
    rewrite (split_field_then _ _ Hf), IH; [reflexivity|discriminate|exact Hfs].
Qed.

Lemma replace_comma_clean (s : string) : has_comma (replace_comma s) = false.
Proof.
  induction s as [|c r IH]; [reflexivity|].
  cbn [replace_comma has_comma]. rewrite IH, orb_false_r.
  destruct (Ascii.eqb c ",") eqn:E; [reflexivity | exact E].
Qed.

Lemma string_of_uint_clean (d : Decimal.uint) :
  has_comma (NilEmpty.string_of_uint d) = false.
Proof. induction d; cbn; assumption || reflexivity. Qed.

Lemma str_int_clean (n : Z) : has_comma (str_int n) = false.
Proof.
  unfold str_int, NilZero.string_of_int, NilZero.string_of_uint.
  destruct (Z.to_int n) as [d|d]; destruct d;
    try reflexivity; cbn [has_comma];
    try (cbn [Ascii.eqb Bool.eqb orb]);
    apply (string_of_uint_clean (_ : Decimal.uint)).
Qed.

Lemma str_bool_clean (b : bool) : has_comma (str_bool b) = false.
Proof. destruct b; reflexivity. Qed.

Lemma str_get_clean (x : option (option Z)) : has_comma (str_get x) = false.
Proof.
  destruct x as [[n|]|]; try reflexivity. apply str_int_clean.
Qed.

Lemma str_or_empty_clean (x : option Z) : has_comma (str_or_empty x) = false.
Proof.
  destruct x as [n|]; [|reflexivity]. unfold str_or_empty.
  destruct (truthy_int (Some n)); [apply str_int_clean | reflexivity].
Qed.

Lemma str_or_zero_clean (x : option Z) : has_comma (str_or_zero x) = false.
Proof.
  destruct x as [n|]; [|reflexivity]. unfold str_or_zero.
  destruct (truthy_int (Some n)); [apply str_int_clean | reflexivity].
Qed.

Lemma guilds_row_clean (a : Guilds.args) (g : Guilds.item) :
  forallb (fun f => negb (has_comma f)) (guilds_row a g) = true.
Proof.
  unfold guilds_row.
  destruct (Guilds.arg_include_owner a), (Guilds.arg_include_counts a);
    cbn [app forallb];
    rewrite ?str_int_clean, ?replace_comma_clean, ?str_get_clean;
    reflexivity.
Qed.

(** X16.  Whatever the guild names are, every row that
    [List_Guilds.py] prints with [--format csv] has as many
    comma-separated fields as the header: split at the commas, the
    first string printed is the header and each further one is the row
    of one guild, a comma in a name arriving as a space.  (This is
    about the strings handed to [print]: a name that holds a line break
    still spreads its row over two lines of the output.) *)
Theorem guilds_csv_rows_match_header
  (a : Guilds.args) (guilds : list Guilds.item) :
  map split_commas (guilds_csv_printed a guilds)
  = guilds_headers a :: map (guilds_row a) guilds
  /\ Forall (fun row => List.length row = List.length (guilds_headers a))
            (map split_commas (guilds_csv_printed a guilds)).
Proof.
  assert (Hrows :
    map split_commas (guilds_csv_printed a guilds)
    = guilds_headers a :: map (guilds_row a) guilds).
  { unfold guilds_csv_printed. cbn [map]. f_equal.
    - unfold guilds_headers.
      destruct (Guilds.arg_include_owner a), (Guilds.arg_include_counts a);
        reflexivity.
    - rewrite map_map. apply map_ext. intros g. apply split_join.
      + unfold guilds_row. discriminate.
      + apply guilds_row_clean. }
  split; [exact Hrows|]. rewrite Hrows. constructor; [reflexivity|].
  apply Forall_forall. intros row Hin. apply in_map_iff in Hin.
  destruct Hin as (g & <- & _). unfold guilds_row, guilds_headers.
  destruct (Guilds.arg_include_owner a), (Guilds.arg_include_counts a);
    reflexivity.
Qed.

(** X17.  A row of the invite CSV splits back into its thirteen fields
    as soon as the URL, the code and the two time stamps hold no comma:
    the numeric and boolean columns never hold one, and commas in the
    channel and inviter names are replaced by spaces. *)
Theorem invites_csv_row_parses (r : Invites.record) :
  has_comma (Invites.url r) = false ->
  has_comma (Invites.code r) = false ->
  has_comma (or_empty (Invites.created_at r)) = false ->
  has_comma (or_empty (Invites.expires_at r)) = false ->
  split_commas (join (invites_row r)) = invites_row r
  /\ List.length (invites_row r) = List.length invites_headers.
Proof.
  intros Hu Hc Hcr Hex. split; [|reflexivity].
  apply split_join; [discriminate|].
  unfold invites_row. cbn [forallb].
  assert (Hurl : has_comma (or_empty (Some (Invites.url r))) = false)
    by (destruct (Invites.url r); [reflexivity | exact Hu]).
  assert (Hcode : has_comma (or_empty (Some (Invites.code r))) = false)
    by (destruct (Invites.code r); [reflexivity | exact Hc]).
  rewrite Hurl, Hcode, Hcr, Hex, !str_or_empty_clean, !str_or_zero_clean,
    !replace_comma_clean, !str_bool_clean.
  reflexivity.
Qed.

End CsvFacts.

(** ** Leaving at the prompt for an ID *)

Module PromptExits.

Import Lifecycle PromptTerms.

Section Prompts.

Variable strip : string -> string.
Variable parse_int : string -> option Z.

Local Abbreviation ask_user_id := (Cli.ask_user_id strip parse_int).
Local Abbreviation prompt_for_int := (Cli.prompt_for_int strip parse_int).
Local Abbreviation rejected := (PromptTerms.rejected strip parse_int).

Lemma ask_user_id_starts_nothing (inputs : list Cli.answer) :
  existsb is_ClientStart (snd (ask_user_id inputs)) = false.
Proof.
  induction inputs as [|[line| |] rest IH]; try reflexivity.
  cbn [Cli.ask_user_id].
  destruct (ask_user_id rest) as [r l]. simpl in IH.
  destruct (negb (truthy_str (Some (strip line)))); [exact IH|].
  destruct (parse_int (strip line)); [reflexivity | exact IH].
Qed.

Lemma prompt_for_int_starts_nothing (text : string)
  (inputs : list Cli.answer) :
  existsb is_ClientStart (snd (prompt_for_int text inputs)) = false.
Proof.
  induction inputs as [|[line| |] rest IH]; try reflexivity.
  cbn [Cli.prompt_for_int].
  destruct (prompt_for_int text rest) as [r l]. simpl in IH.
  destruct (negb (truthy_str (Some (strip line)))); [exact IH|].
  destruct (parse_int (strip line)); [reflexivity | exact IH].
Qed.

Lemma prompt_for_int_gives_up (text : string)
  (skipped rest : list Cli.answer) :
  forallb rejected skipped = true ->
  abandoned rest = true ->
  exists before,
    prompt_for_int text (skipped ++ rest) = (None, before ++ [Input text]).
Proof.
  intros Hs Hr. induction skipped as [|x l IH].
  - exists []. destruct rest as [|[line| |] rest']; try reflexivity.
    discriminate.
  - cbn [forallb] in Hs. apply andb_true_iff in Hs. destruct Hs as [Hx Hl].
    destruct (IH Hl) as (before & Hb).
    exists (Input text
            :: (if invalid strip parse_int x then [Stderr DigitsOnly] else [])
            ++ before).
    cbn [app]. rewrite (PromptFacts.prompt_for_int_rejects strip parse_int
                          text x (l ++ rest) Hx).
    rewrite Hb. cbn [fst snd app]. rewrite <- app_assoc. reflexivity.
Qed.

Lemma ask_user_id_gives_up (skipped rest : list Cli.answer) :
  forallb rejected skipped = true ->
  abandoned rest = true ->
  exists before,
    ask_user_id (skipped ++ rest)
    = (inr 2, before ++ [Input "Target user ID: "; Stderr NoUserId]).
Proof.
  intros Hs Hr. induction skipped as [|x l IH].
  - exists []. destruct rest as [|[line| |] rest']; try reflexivity.
    discriminate.
  - cbn [forallb] in Hs. apply andb_true_iff in Hs. destruct Hs as [Hx Hl].
    destruct (IH Hl) as (before & Hb).
    exists (Input "Target user ID: "
            :: (if invalid strip parse_int x then [Stderr InvalidUserId]
                else [])
            ++ before).
    cbn [app]. rewrite (PromptFacts.ask_user_id_rejects strip parse_int
                          x (l ++ rest) Hx).
    rewrite Hb. cbn [fst snd app]. rewrite <- app_assoc. reflexivity.
Qed.

Lemma existsb_start_app (t u : list event) :
  existsb is_ClientStart (t ++ u)
  = existsb is_ClientStart t || existsb is_ClientStart u.
Proof. apply existsb_app. Qed.

Variable con : Cli.console.
Variable cl : client.
Variables (token : string) (t : list event).
Variables skipped rest : list Cli.answer.

Hypothesis typed : Cli.lines con = skipped ++ rest.
Hypothesis all_rejected : forallb rejected skipped = true.
Hypothesis gives_up : abandoned rest = true.

(** X18.  [List_Guild_Invites.py] without [--guild-id]: when every
    answer to the prompt is blank or not a number and the input then
    ends or is interrupted, [main] returns 2 at once, whatever the
    client would have done: its last output is the diagnostic that no
    guild ID was provided, the client is never started and the
    completion signal is never touched. *)
Theorem invites_without_guild_id_exits_2
  (isoformat : Datetime.datetime -> string) (a : Invites.args)
  (fuel : nat) :
  Cli.read_token (Invites.arg_token a) con = (inl token, t) ->
  Invites.arg_guild_id a = None ->
  fst (Invites.main isoformat strip parse_int a con cl fuel) = Some (Exit 2)
  /\ existsb is_ClientStart
       (trace (snd (Invites.main isoformat strip parse_int a con cl fuel)))
     = false
  /\ done (snd (Invites.main isoformat strip parse_int a con cl fuel))
     = Pending
  /\ exists before,
       trace (snd (Invites.main isoformat strip parse_int a con cl fuel))
       = t ++ before ++ [Input "Guild ID: "; Stderr NoGuildId].
Proof.
  intros Ht Hg.
  destruct (prompt_for_int_gives_up "Guild ID: " skipped rest all_rejected
              gives_up) as (before & Hb).
  pose proof (prompt_for_int_starts_nothing "Guild ID: " (skipped ++ rest))
    as Hq.
  pose proof (MainFacts.read_token_quiet (Invites.arg_token a) con)
    as [_ Hq0].
  unfold Invites.main. rewrite Ht, Hg, typed. rewrite Ht in Hq0.
  rewrite Hb in *. cbn [fst snd trace done] in *.
  repeat split.
  - rewrite existsb_start_app, Hq0. cbn [orb].
    rewrite existsb_start_app, Hq. reflexivity.
  - exists before. rewrite <- !app_assoc. reflexivity.
Qed.

(** X19.  [Delete_Bot_DMs_With_User.py] without [--user-id], in the
    same situation: [main] returns 2 after the diagnostic that no user
    ID was provided, the client is never started and no message is
    handed to [delete]. *)
Theorem purge_without_user_id_exits_2 (a : Purge.args) (fuel : nat) :
  Cli.read_token (Purge.arg_token a) con = (inl token, t) ->
  Purge.arg_user_id a = None ->
  fst (Purge.main strip parse_int a con cl fuel) = Some (Exit 2)
  /\ existsb is_ClientStart
       (trace (snd (Purge.main strip parse_int a con cl fuel)))
     = false
  /\ PurgeTerms.deletions
       (trace (snd (Purge.main strip parse_int a con cl fuel)))
     = []
  /\ exists before,
       trace (snd (Purge.main strip parse_int a con cl fuel))
       = t ++ before ++ [Input "Target user ID: "; Stderr NoUserId].
Proof.
  intros Ht Hu.
  destruct (ask_user_id_gives_up skipped rest all_rejected gives_up)
    as (before & Hgive).
  assert (Hcode : fst (ask_user_id (skipped ++ rest)) = inr 2)
    by (rewrite Hgive; reflexivity).
  assert (Hb : snd (ask_user_id (skipped ++ rest))
               = before ++ [Input "Target user ID: "; Stderr NoUserId])
    by (rewrite Hgive; reflexivity).
  clear Hgive.
  pose proof (ask_user_id_starts_nothing (skipped ++ rest)) as Hq.
  pose proof (MainFacts.read_token_quiet (Purge.arg_token a) con)
    as [_ Hq0].
  assert (Hd : PurgeTerms.deletions
                 (t ++ snd (ask_user_id (skipped ++ rest))) = []).
  { assert (Hu' : match Purge.arg_user_id a with
                  | Some n => (inl n, [])
                  | None => ask_user_id (Cli.lines con)
                  end
                  = ask_user_id (skipped ++ rest))
      by (rewrite Hu, typed; reflexivity).
    rewrite PurgeFacts.deletions_app.
    replace (PurgeTerms.deletions t) with (@nil message).
    - apply (RunFacts.ask_user_id_deletes_nothing strip parse_int).
    - revert Ht. unfold Cli.read_token.
      destruct (truthy_str (Purge.arg_token a)).
      + destruct (Purge.arg_token a); intros H; inversion H; reflexivity.
      + destruct (Cli.secret con) as [tok| |]; try discriminate.
        destruct (truthy_str (Some tok)); intros H; inversion H;
          reflexivity. }
  unfold Purge.main. rewrite Ht, Hu, typed. rewrite Ht in Hq0.
  destruct (ask_user_id (skipped ++ rest)) as [r l] eqn:E.
  cbn [fst snd] in *. subst r l.
  cbn [fst snd trace done].
  repeat split.
  - rewrite existsb_start_app, Hq0, Hq. reflexivity.
  - exact Hd.
  - exists before. reflexivity.
Qed.

End Prompts.

End PromptExits.

(** ** The properties above on the sample worlds *)

Module Examples.

Import Lifecycle Samples MoreSamples.

Lemma purge_setup_failure_exits_1_witness :
  (Cli.read_token (Purge.arg_token stranger_args) no_input = (inl "good", [])
   /\ client_start bot "good" = StartReady (Returns tt)
   /\ RunTerms.setup_failure bot 8 = Some UserNotFound
   /\ (8 <= 8)%nat)
  /\ Purge.main keep no_number stranger_args no_input bot 8
     = (Some (Exit 1),
        mkWorld Purge.no_stats (Resolved false)
                [ClientStart "good"; Stdout (LoggedIn 1);
                 Stderr UserNotFound; ClientClose]).
Proof.
  split; [repeat split; apply le_n|].
  exact (RunFacts.purge_setup_failure_exits_1 keep no_number stranger_args
           no_input bot "good" [] [] 8 (Returns tt) eq_refl eq_refl eq_refl
           UserNotFound 8 eq_refl (le_n 8)).
Defined.

Lemma purge_success_reports_counts_witness :
  (Cli.read_token (Purge.arg_token (purge_args "good")) no_input
   = (inl "good", [])
   /\ client_start clean_bot "good" = StartReady (Returns tt)
   /\ PurgeTerms.pause_ends (Purge.arg_sleep (purge_args "good")) = true
   /\ client_fetch_user clean_bot 7 = Returns (partner clean_history)
   /\ user_create_dm (partner clean_history) = Returns (dm clean_history)
   /\ chan_is_DMChannel (dm clean_history) = true
   /\ chan_history_end (dm clean_history) = Exhausted
   /\ forallb (fun m => implb (PurgeTerms.own clean_bot m)
                             (PurgeTerms.contained m))
              (chan_history (dm clean_history)) = true
   /\ (8 <= 8)%nat)
  /\ fst (Purge.main keep no_number (purge_args "good") no_input clean_bot 8)
     = Some (Exit 0).
Proof.
  split; [repeat split; apply le_n|].
  destruct (RunFacts.purge_success_reports_counts keep no_number
              (purge_args "good") no_input clean_bot "good" [] [] 7
              (Returns tt) eq_refl eq_refl eq_refl
              (partner clean_history) (dm clean_history) 8
              eq_refl eq_refl eq_refl eq_refl eq_refl eq_refl (le_n 8))
    as (w_loop & _ & Hmain & _).
  rewrite Hmain. reflexivity.
Defined.

Lemma purge_crash_stops_the_loop_witness :
  (Cli.read_token (Purge.arg_token (purge_args "good")) no_input
   = (inl "good", [])
   /\ client_start crashing_bot "good" = StartReady (Returns tt)
   /\ PurgeTerms.pause_ends (Purge.arg_sleep (purge_args "good")) = true
   /\ client_fetch_user crashing_bot 7 = Returns (partner crashing_history)
   /\ user_create_dm (partner crashing_history)
      = Returns (dm crashing_history)
   /\ chan_is_DMChannel (dm crashing_history) = true
   /\ chan_history (dm crashing_history)
      = history_before_crash ++ crashing_message :: history_after_crash
   /\ forallb (fun x => implb (PurgeTerms.own crashing_bot x)
                             (PurgeTerms.contained x))
              history_before_crash = true
   /\ PurgeTerms.own crashing_bot crashing_message = true
   /\ msg_delete crashing_message = Raises crash
   /\ is_HTTPException crash = false
   /\ (8 <= 8)%nat)
  /\ fst (Purge.main keep no_number (purge_args "good") no_input
                     crashing_bot 8)
     = Some (Uncaught crash).
Proof.
  split; [repeat split; apply le_n|].
  destruct (RunFacts.purge_crash_stops_the_loop keep no_number
              (purge_args "good") no_input crashing_bot "good" [] [] 7
              (Returns tt) eq_refl eq_refl eq_refl
              (partner crashing_history) (dm crashing_history)
              history_before_crash history_after_crash crashing_message
              crash 8
              eq_refl eq_refl eq_refl eq_refl eq_refl eq_refl eq_refl
              eq_refl eq_refl (le_n 8))
    as (w_pre & _ & Hmain & _).
  rewrite Hmain. reflexivity.
Defined.

Lemma purge_broken_stream_is_fatal_witness :
  (Cli.read_token (Purge.arg_token (purge_args "good")) no_input
   = (inl "good", [])
   /\ client_start broken_bot "good" = StartReady (Returns tt)
   /\ PurgeTerms.pause_ends (Purge.arg_sleep (purge_args "good")) = true
   /\ client_fetch_user broken_bot 7 = Returns broken_partner
   /\ user_create_dm broken_partner = Returns broken_dm
   /\ chan_is_DMChannel broken_dm = true
   /\ chan_history_end broken_dm = Broken server_error
   /\ is_HTTPException server_error = true
   /\ forallb (fun x => implb (PurgeTerms.own broken_bot x)
                             (PurgeTerms.contained x))
              (chan_history broken_dm) = true
   /\ (8 <= 8)%nat)
  /\ fst (Purge.main keep no_number (purge_args "good") no_input broken_bot 8)
     = Some (Uncaught server_error).
Proof.
  split; [repeat split; apply le_n|].
  destruct (RunFacts.purge_broken_stream_is_fatal keep no_number
              (purge_args "good") no_input broken_bot "good" [] [] 7
              (Returns tt) eq_refl eq_refl eq_refl
              broken_partner broken_dm server_error 8
              eq_refl eq_refl eq_refl eq_refl eq_refl eq_refl (le_n 8))
    as (w_loop & _ & Hmain & _).
  rewrite Hmain. reflexivity.
Defined.

Lemma infinite_sleep_suspends_purge_witness :
  (Cli.read_token (Purge.arg_token endless_args) no_input = (inl "good", [])
   /\ client_start late_bot "good" = StartReady (Returns tt)
   /\ Purge.arg_sleep endless_args = PrimFloat.infinity
   /\ client_fetch_user late_bot 7 = Returns (partner late_history)
   /\ user_create_dm (partner late_history) = Returns (dm late_history)
   /\ chan_is_DMChannel (dm late_history) = true
   /\ chan_history (dm late_history)
      = [partner_message 602; own_message 603 (Raises Forbidden)]
        ++ own_message 604 (Returns tt) :: [own_message 605 (Returns tt)]
   /\ forallb (fun x => implb (PurgeTerms.own late_bot x)
                             (PurgeTerms.contained x
                              && negb (PurgeTerms.deletable x)))
              [partner_message 602; own_message 603 (Raises Forbidden)]
      = true
   /\ PurgeTerms.own late_bot (own_message 604 (Returns tt)) = true
   /\ PurgeTerms.deletable (own_message 604 (Returns tt)) = true)
  /\ (forall fuel,
        fst (Purge.main keep no_number endless_args no_input late_bot fuel)
        = None)
  /\ PurgeTerms.deletions
       (trace (snd (Purge.main keep no_number endless_args no_input
                               late_bot 3)))
     = [own_message 603 (Raises Forbidden); own_message 604 (Returns tt)].
Proof.
  split; [repeat split|].
  destruct (RunFacts.infinite_sleep_suspends_purge keep no_number
              endless_args no_input late_bot "good" [] [] 7 (Returns tt)
              eq_refl eq_refl eq_refl
              (partner late_history) (dm late_history)
              [partner_message 602; own_message 603 (Raises Forbidden)]
              [own_message 605 (Returns tt)]
              (own_message 604 (Returns tt))
              eq_refl eq_refl eq_refl eq_refl eq_refl eq_refl eq_refl eq_refl)
    as [Hall Hend].
  split.
  - intros fuel. exact (proj1 (Hall fuel)).
  - destruct (Hend 3%nat (le_n 3)) as (_ & _ & Hdel & _). exact Hdel.
Defined.

Lemma unknown_guild_exits_1_witness :
  (Cli.read_token (Invites.arg_token foreign_guild_args) no_input
   = (inl "good", [])
   /\ client_start bot "good" = StartReady (Returns tt)
   /\ client_get_guild bot 10 = None
   /\ client_fetch_guild bot 10 = Raises NotFound
   /\ is_HTTPException NotFound = true
   /\ (8 <= 8)%nat)
  /\ Invites.main show_time keep no_number foreign_guild_args no_input bot 8
     = (Some (Exit 1),
        mkWorld Invites.no_results (Resolved false)
                [ClientStart "good"; Stderr GuildUnavailable; ClientClose]).
Proof.
  split; [repeat split; apply le_n|].
  exact (RunFacts.unknown_guild_exits_1 show_time keep no_number
           foreign_guild_args no_input bot "good" [] [] 10 (Returns tt)
           eq_refl eq_refl eq_refl NotFound 8 eq_refl eq_refl eq_refl
           (le_n 8)).
Defined.

Lemma ask_user_id_takes_first_number_witness :
  (forallb (PromptTerms.rejected keep parse_some)
           [Cli.Typed ""; Cli.Typed "abc"] = true
   /\ truthy_str (Some (keep "42")) = true
   /\ parse_some (keep "42") = Some 42)
  /\ fst (Cli.ask_user_id keep parse_some
            ([Cli.Typed ""; Cli.Typed "abc"]
               ++ Cli.Typed "42" :: [Cli.Typed "7"]))
     = inl 42.
Proof.
  split; [repeat split|].
  exact (proj1 (PromptFacts.ask_user_id_takes_first_number keep parse_some
                  [Cli.Typed ""; Cli.Typed "abc"] "42" 42 [Cli.Typed "7"]
                  eq_refl eq_refl eq_refl)).
Defined.

Lemma ask_user_id_abandoned_witness :
  (forallb (PromptTerms.rejected keep parse_some)
           [Cli.Typed ""; Cli.Typed "abc"] = true
   /\ PromptTerms.abandoned [Cli.Interrupt; Cli.Typed "7"] = true)
  /\ fst (Cli.ask_user_id keep parse_some
            ([Cli.Typed ""; Cli.Typed "abc"]
               ++ [Cli.Interrupt; Cli.Typed "7"]))
     = inr 2.
Proof.
  split; [repeat split|].
  exact (proj1 (PromptFacts.ask_user_id_abandoned keep parse_some
                  [Cli.Typed ""; Cli.Typed "abc"]
                  [Cli.Interrupt; Cli.Typed "7"] eq_refl eq_refl)).
Defined.

Lemma created_invite_is_listed_witness :
  (done fresh_results = Pending
   /\ store fresh_results = Invites.no_results
   /\ InvitesTerms.guild_resolves bot 9 (guild_with (Returns listed_invites))
   /\ InvitesTerms.harmless
        (guild_invites (guild_with (Returns listed_invites))) = true
   /\ Invites.should_create (invites_args "good" true false None)
        (InvitesTerms.fetched_list (guild_with (Returns listed_invites)))
      = true
   /\ Invites.choose_channel_for_invite
        (guild_with (Returns listed_invites))
        (Invites.arg_channel_id (invites_args "good" true false None))
      = Returns (Some (text_channel 12 1))
   /\ ch_create_invite (text_channel 12 1) = Some new_invite
   /\ new_invite (Invites.creation_args (invites_args "good" true false None))
      = Returns created_invite)
  /\ Invites.created_invite
       (store (snd (Invites.on_ready show_time bot 9
                      (invites_args "good" true false None) fresh_results)))
     = Some (Invites.invite_record show_time created_invite).
Proof.
  assert (Hg : InvitesTerms.guild_resolves bot 9
                 (guild_with (Returns listed_invites)))
    by (left; reflexivity).
  split; [repeat split; exact Hg|].
  destruct (InvitesMore.created_invite_is_listed show_time bot 9
              (invites_args "good" true false None)
              (guild_with (Returns listed_invites)) fresh_results
              (text_channel 12 1) new_invite created_invite
              eq_refl eq_refl Hg eq_refl eq_refl eq_refl eq_refl eq_refl)
    as (_ & Hcreated & _).
  exact Hcreated.
Defined.

Lemma revoked_invites_block_creation_witness :
  (done fresh_results = Pending
   /\ store fresh_results = Invites.no_results
   /\ InvitesTerms.guild_resolves (client_of history stale_guild) 9
        stale_guild
   /\ guild_invites stale_guild = Returns [revoked_invite]
   /\ [revoked_invite] <> []
   /\ forallb (fun inv => truthy_bool (inv_revoked inv)) [revoked_invite]
      = true
   /\ Invites.arg_include_revoked (invites_args "good" true true None)
      = false
   /\ Invites.arg_only_if_none (invites_args "good" true true None) = true)
  /\ Invites.on_ready show_time (client_of history stale_guild) 9
       (invites_args "good" true true None) fresh_results
     = (Returns tt,
        mkWorld (Invites.mkResults [] None) (Resolved true) [InvitesFetch]).
Proof.
  assert (Hg : InvitesTerms.guild_resolves (client_of history stale_guild) 9
                 stale_guild)
    by (left; reflexivity).
  assert (Hne : [revoked_invite] <> []) by discriminate.
  split; [repeat split; [exact Hg | exact Hne]|].
  exact (InvitesMore.revoked_invites_block_creation show_time
           (client_of history stale_guild) 9
           (invites_args "good" true true None) stale_guild fresh_results
           [revoked_invite] eq_refl eq_refl Hg eq_refl Hne eq_refl eq_refl
           eq_refl).
Defined.

Lemma unlistable_invites_count_as_none_witness :
  (done fresh_results = Pending
   /\ InvitesTerms.guild_resolves (client_of history unlistable_guild) 9
        unlistable_guild
   /\ guild_invites unlistable_guild = Raises Forbidden
   /\ is_HTTPException Forbidden = true
   /\ Invites.arg_create (invites_args "good" true true None) = true
   /\ Invites.choose_channel_for_invite unlistable_guild
        (Invites.arg_channel_id (invites_args "good" true true None))
      = Returns (Some (text_channel 12 1))
   /\ ch_create_invite (text_channel 12 1) = Some new_invite)
  /\ Invites.should_create (invites_args "good" true true None)
       (InvitesTerms.fetched_list unlistable_guild)
     = true
  /\ In (InviteCreate (text_channel 12 1)
          (Invites.creation_args (invites_args "good" true true None)))
        (trace (snd (Invites.on_ready show_time
                       (client_of history unlistable_guild) 9
                       (invites_args "good" true true None)
                       fresh_results))).
Proof.
  assert (Hg : InvitesTerms.guild_resolves
                 (client_of history unlistable_guild) 9 unlistable_guild)
    by (left; reflexivity).
  split; [repeat split; exact Hg|].
  exact (InvitesMore.unlistable_invites_count_as_none show_time
           (client_of history unlistable_guild) 9
           (invites_args "good" true true None) unlistable_guild
           fresh_results Forbidden (text_channel 12 1) new_invite
           eq_refl Hg eq_refl eq_refl eq_refl eq_refl eq_refl).
Defined.

Lemma guilds_listing_sorted_witness :
  (Cli.read_token (Guilds.arg_token full_guilds_args) no_input
   = (inl "good", [])
   /\ client_start guilds_bot "good" = StartReady (Returns tt)
   /\ (8 <= 8)%nat)
  /\ map Guilds.id
         (store (snd (Guilds.main keep guilds_bot full_guilds_args
                                  no_input 8)))
     = [3; 2; 1].
Proof.
  split; [repeat split; apply le_n|].
  rewrite (proj1 (GuildsMore.guilds_listing_sorted keep full_guilds_args
                    no_input guilds_bot "good" [] (Returns tt)
                    eq_refl eq_refl 8 (le_n 8))).
  reflexivity.
Defined.

Lemma invites_csv_row_parses_witness :
  (CsvTerms.has_comma
     (Invites.url (Invites.invite_record show_time hour_invite)) = false
   /\ CsvTerms.has_comma
        (Invites.code (Invites.invite_record show_time hour_invite)) = false
   /\ CsvTerms.has_comma
        (or_empty
           (Invites.created_at (Invites.invite_record show_time hour_invite)))
      = false
   /\ CsvTerms.has_comma
        (or_empty
           (Invites.expires_at (Invites.invite_record show_time hour_invite)))
      = false)
  /\ CsvTerms.split_commas
       (Csv.join (Csv.invites_row
                    (Invites.invite_record show_time hour_invite)))
     = Csv.invites_row (Invites.invite_record show_time hour_invite).
Proof.
  split; [repeat split|].
  exact (proj1 (CsvFacts.invites_csv_row_parses
                  (Invites.invite_record show_time hour_invite)
                  eq_refl eq_refl eq_refl eq_refl)).
Defined.

Lemma invites_without_guild_id_exits_2_witness :
  (Cli.lines guild_prompt_console
   = [Cli.Typed ""; Cli.Typed "abc"] ++ [Cli.EndOfInput]
   /\ forallb (PromptTerms.rejected keep parse_some)
              [Cli.Typed ""; Cli.Typed "abc"] = true
   /\ PromptTerms.abandoned [Cli.EndOfInput] = true
   /\ Cli.read_token (Invites.arg_token unnamed_guild_args)
                     guild_prompt_console
      = (inl "good", [])
   /\ Invites.arg_guild_id unnamed_guild_args = None)
  /\ fst (Invites.main show_time keep parse_some unnamed_guild_args
                       guild_prompt_console bot 8)
     = Some (Exit 2).
Proof.
  split; [repeat split|].
  exact (proj1 (PromptExits.invites_without_guild_id_exits_2 keep parse_some
                  guild_prompt_console bot "good" []
                  [Cli.Typed ""; Cli.Typed "abc"] [Cli.EndOfInput]
                  eq_refl eq_refl eq_refl show_time unnamed_guild_args 8
                  eq_refl eq_refl)).
Defined.

Lemma purge_without_user_id_exits_2_witness :
  (Cli.lines guild_prompt_console
   = [Cli.Typed ""; Cli.Typed "abc"] ++ [Cli.EndOfInput]
   /\ forallb (PromptTerms.rejected keep parse_some)
              [Cli.Typed ""; Cli.Typed "abc"] = true
   /\ PromptTerms.abandoned [Cli.EndOfInput] = true
   /\ Cli.read_token (Purge.arg_token unnamed_user_args)
                     guild_prompt_console
      = (inl "good", [])
   /\ Purge.arg_user_id unnamed_user_args = None)
  /\ fst (Purge.main keep parse_some unnamed_user_args
                     guild_prompt_console bot 8)
     = Some (Exit 2).
Proof.
  split; [repeat split|].
  exact (proj1 (PromptExits.purge_without_user_id_exits_2 keep parse_some
                  guild_prompt_console bot "good" []
                  [Cli.Typed ""; Cli.Typed "abc"] [Cli.EndOfInput]
                  eq_refl eq_refl eq_refl unnamed_user_args 8
                  eq_refl eq_refl)).
Defined.

End Examples.
